(** * ovms_exporter: the decoding and exposition engine, embedded in Rocq

    The repository holds three variants of one exporter:
    - the protocol exporter ([Module Protocol], first program of
      [src/main.go]): records carry a message-type code, every field becomes
      a line formatted by [promMetric], the result is a flat list of lines;
    - the historical exporter ([Module Historical], second program of
      [src/main.go]) and the file exporter ([Module FileExporter],
      [src/unnamed/part_000]): one schema, a regular-expression filter on
      the normalized metric name, lines grouped under [# TYPE] headers.

    Go strings are byte strings; they are modelled by [string], whose
    characters are the 256 bytes.  The Go library functions the programs
    call are modelled first ([Module Go]). *)

From Stdlib Require Import ZArith Zbitwise Ascii String List Lia Permutation.
From stdpp Require Import gmap strings list fin_maps pretty.

Open Scope Z_scope.

(** ** Outcomes of a run

    A Go run either completes, dies on a run-time panic (an index out of
    range), or is ended by [vlog.Fatalf], which logs and exits the process. *)

Inductive outcome (A : Type) : Type :=
| Done (a : A)
| Panic
| Fatal.
Arguments Done {A} a.
Arguments Panic {A}.
Arguments Fatal {A}.

Global Instance outcome_ret : MRet outcome := λ A a, Done a.

Global Instance outcome_bind : MBind outcome := λ A B k x,
  match x with
  | Done a => k a
  | Panic => Panic
  | Fatal => Fatal
  end.

Definition completes {A : Type} (x : outcome A) : bool :=
  match x with Done _ => true | _ => false end.

Module Go.

(** *** Bytes *)

Definition byte_val (c : ascii) : Z := Z.of_N (N_of_ascii c).

Definition isDigit (c : ascii) : bool :=
  (48 <=? byte_val c) && (byte_val c <=? 57).

Definition digit_val (c : ascii) : Z := byte_val c - 48.

(** [lower] of [strconv]: sets bit 0x20. *)
Definition lower (c : ascii) : Z := Z.lor (byte_val c) 32.

(** *** [strings.Split(s, sep)] for a one-byte separator

    The pieces between the separators, in order; the empty string splits
    into one empty piece. *)
Fixpoint Split (s : string) (sep : ascii) : list string :=
  match s with
  | EmptyString => [EmptyString]
  | String c s' =>
      if Ascii.eqb c sep then EmptyString :: Split s' sep
      else match Split s' sep with
           | piece :: rest => String c piece :: rest
           | [] => [String c EmptyString]
           end
  end.

(** *** [strings.Join(elems, sep)] *)
Fixpoint Join (elems : list string) (sep : string) : string :=
  match elems with
  | [] => ""
  | [e] => e
  | e :: rest => e +:+ sep +:+ Join rest sep
  end.

(** *** [strings.ReplaceAll(s, old, new)] for one-byte [old] and [new] *)
Fixpoint ReplaceAll (s : string) (old new : ascii) : string :=
  match s with
  | EmptyString => EmptyString
  | String c s' =>
      String (if Ascii.eqb c old then new else c) (ReplaceAll s' old new)
  end.

(** The line feed, [\n] in the Go sources. *)
Definition nl : string := String (ascii_of_nat 10) "".

(** *** The verb [%d] on an [int64]: decimal digits, a minus sign first
    when negative. *)
Definition itoa (n : Z) : string := pretty n.

(** *** UTF-8 ([unicode/utf8])

    [%q] walks the string rune by rune.  Runes are code points in [Z]. *)

Definition RuneError : Z := 65533.

Definition between (lo hi : Z) (c : ascii) : bool :=
  (lo <=? byte_val c) && (byte_val c <=? hi).

(** The [first] table of [utf8]: for a lead byte, the length of the
    sequence and the range accepted for its second byte; [None] for the
    bytes that start no sequence. *)
Definition lead (b0 : Z) : option (nat * Z * Z) :=
  if (194 <=? b0) && (b0 <=? 223) then Some (2%nat, 128, 191)
  else if b0 =? 224 then Some (3%nat, 160, 191)
  else if b0 =? 237 then Some (3%nat, 128, 159)
  else if (225 <=? b0) && (b0 <=? 239) then Some (3%nat, 128, 191)
  else if b0 =? 240 then Some (4%nat, 144, 191)
  else if b0 =? 244 then Some (4%nat, 128, 143)
  else if (241 <=? b0) && (b0 <=? 243) then Some (4%nat, 128, 191)
  else None.

Definition low6 (c : ascii) : Z := Z.land (byte_val c) 63.

(** [utf8.DecodeRuneInString]: the rune at the head of [s] and its width in
    bytes; [(RuneError, 1)] for a byte that starts no valid sequence. *)
Definition DecodeRuneInString (s : string) : Z * nat :=
  match s with
  | EmptyString => (RuneError, 0%nat)
  | String c0 t0 =>
      let b0 := byte_val c0 in
      if b0 <? 128 then (b0, 1%nat)
      else match lead b0 with
        | None => (RuneError, 1%nat)
        | Some (sz, lo, hi) =>
            if (String.length s <? sz)%nat then (RuneError, 1%nat)
            else match t0 with
              | EmptyString => (RuneError, 1%nat)
              | String c1 t1 =>
                  if negb (between lo hi c1) then (RuneError, 1%nat)
                  else if (sz <=? 2)%nat then
                    (Z.lor (Z.shiftl (Z.land b0 31) 6) (low6 c1), 2%nat)
                  else match t1 with
                    | EmptyString => (RuneError, 1%nat)
                    | String c2 t2 =>
                        if negb (between 128 191 c2) then (RuneError, 1%nat)
                        else if (sz <=? 3)%nat then
                          (Z.lor (Z.shiftl (Z.land b0 15) 12)
                             (Z.lor (Z.shiftl (low6 c1) 6) (low6 c2)), 3%nat)
                        else match t2 with
                          | EmptyString => (RuneError, 1%nat)
                          | String c3 _ =>
                              if negb (between 128 191 c3) then (RuneError, 1%nat)
                              else
                                (Z.lor (Z.shiftl (Z.land b0 7) 18)
                                   (Z.lor (Z.shiftl (low6 c1) 12)
                                      (Z.lor (Z.shiftl (low6 c2) 6) (low6 c3))),
                                 4%nat)
                          end
                    end
              end
        end
  end.

Definition byte_of (n : Z) : ascii := ascii_of_N (Z.to_N n).

Definition ValidRune (r : Z) : bool :=
  ((0 <=? r) && (r <? 55296)) || ((57343 <? r) && (r <=? 1114111)).

(** [utf8.AppendRune]: the UTF-8 encoding of [r]. *)
Definition AppendRune (r : Z) : string :=
  let tail6 (sh : Z) := byte_of (Z.lor 128 (Z.land (Z.shiftr r sh) 63)) in
  if (0 <=? r) && (r <=? 127) then String (byte_of r) ""
  else if (0 <=? r) && (r <=? 2047) then
    String (byte_of (Z.lor 192 (Z.shiftr r 6))) (String (tail6 0) "")
  else if negb (ValidRune r) then
    String (byte_of 239) (String (byte_of 191) (String (byte_of 189) ""))
  else if r <=? 65535 then
    String (byte_of (Z.lor 224 (Z.shiftr r 12)))
      (String (tail6 6) (String (tail6 0) ""))
  else
    String (byte_of (Z.lor 240 (Z.shiftr r 18)))
      (String (tail6 12) (String (tail6 6) (String (tail6 0) ""))).

(** *** [strconv.Quote], the verb [%q] on a string

    [strconv.IsPrint] decides the runes up to U+00FF by comparison and the
    others by the Unicode tables of the Go release; the tables are not part
    of this repository and are a parameter. *)
Class UnicodeTables := isPrintWide : Z → bool.

Definition IsPrint `{UnicodeTables} (r : Z) : bool :=
  if r <=? 255 then
    if (32 <=? r) && (r <=? 126) then true
    else if (161 <=? r) && (r <=? 255) then negb (r =? 173)
    else false
  else isPrintWide r.

Definition lowerhex (n : Z) : ascii :=
  match String.get (Z.to_nat n) "0123456789abcdef" with
  | Some c => c
  | None => "0"%char
  end.

Fixpoint hexdigits (r : Z) (n : nat) : string :=
  match n with
  | O => ""
  | S k =>
      String (lowerhex (Z.land (Z.shiftr r (4 * Z.of_nat k)) 15)) (hexdigits r k)
  end.

Definition backslash : ascii := "\"%char.
Definition dquote : ascii := ascii_of_nat 34.

Definition esc (c : ascii) : string := String backslash (String c "").

(** [appendEscapedRune] for the double quote, neither ASCII-only nor
    graphic-only. *)
Definition appendEscapedRune `{UnicodeTables} (r : Z) : string :=
  if (r =? 34) || (r =? 92) then esc (byte_of r)
  else if IsPrint r then AppendRune r
  else if r =? 7 then esc "a"
  else if r =? 8 then esc "b"
  else if r =? 12 then esc "f"
  else if r =? 10 then esc "n"
  else if r =? 13 then esc "r"
  else if r =? 9 then esc "t"
  else if r =? 11 then esc "v"
  else if (r <? 32) || (r =? 127) then esc "x" +:+ hexdigits r 2
  else if negb (ValidRune r) then esc "u" +:+ hexdigits RuneError 4
  else if r <? 65536 then esc "u" +:+ hexdigits r 4
  else esc "U" +:+ hexdigits r 8.

(** The loop of [appendQuotedWith]; [skip] counts the bytes of the current
    rune still to step over. *)
Fixpoint quoteBody `{UnicodeTables} (skip : nat) (s : string) : string :=
  match s with
  | EmptyString => ""
  | String c rest =>
      match skip with
      | S k => quoteBody k rest
      | O =>
          let '(r, width) := DecodeRuneInString s in
          (if (width =? 1)%nat && (r =? RuneError)
           then esc "x" +:+ hexdigits (byte_val c) 2
           else appendEscapedRune r)
          +:+ quoteBody (width - 1) rest
      end
  end.

Definition Quote `{UnicodeTables} (s : string) : string :=
  String dquote (quoteBody 0 s +:+ String dquote "").

(** *** [strconv.ParseFloat(s, 64)]: does it return a nil error?

    The error is non-nil for a string that is not a floating-point literal
    (decimal or hexadecimal, underscores between digits, the special values)
    and for a literal whose value rounds beyond the largest float64. *)

Fixpoint commonPrefixLenIgnoreCase (s prefix : string) : nat :=
  match s, prefix with
  | String c s', String p prefix' =>
      let c' := if between 65 90 c then byte_val c + 32 else byte_val c in
      if c' =? byte_val p then S (commonPrefixLenIgnoreCase s' prefix') else O
  | _, _ => O
  end.

(** [special]: the bytes taken by a leading [inf], [infinity] or [nan]. *)
Definition special (s : string) : option nat :=
  let infinity (body : string) (nsign : nat) : option nat :=
    let n := commonPrefixLenIgnoreCase body "infinity" in
    let n := if ((3 <? n) && (n <? 8))%nat then 3%nat else n in
    if ((n =? 3) || (n =? 8))%nat then Some (nsign + n)%nat else None in
  match s with
  | EmptyString => None
  | String c rest =>
      if (byte_val c =? 43) || (byte_val c =? 45) then infinity rest 1%nat
      else if lower c =? 105 then infinity s 0%nat
      else if lower c =? 110 then
        if (commonPrefixLenIgnoreCase s "nan" =? 3)%nat then Some 3%nat else None
      else None
  end.

Record scan : Type := {
  sawdot : bool;
  sawdigits : bool;
  nd : Z;            (* significant digits read *)
  dp : Z;            (* position of the point *)
  mantissa : Z;      (* the significant digits, all of them *)
  underscores : bool
}.

(** The digit loop of [readFloat]. *)
Fixpoint readDigits (hex : bool) (st : scan) (s : string) : scan * string :=
  match s with
  | EmptyString => (st, s)
  | String c rest =>
      if byte_val c =? 95 then
        readDigits hex
          {| sawdot := sawdot st; sawdigits := sawdigits st; nd := nd st;
             dp := dp st; mantissa := mantissa st; underscores := true |} rest
      else if byte_val c =? 46 then
        if sawdot st then (st, s)
        else readDigits hex
          {| sawdot := true; sawdigits := sawdigits st; nd := nd st;
             dp := nd st; mantissa := mantissa st;
             underscores := underscores st |} rest
      else if isDigit c then
        if (byte_val c =? 48) && (nd st =? 0) then
          readDigits hex
            {| sawdot := sawdot st; sawdigits := true; nd := nd st;
               dp := dp st - 1; mantissa := mantissa st;
               underscores := underscores st |} rest
        else
          readDigits hex
            {| sawdot := sawdot st; sawdigits := true; nd := nd st + 1;
               dp := dp st;
               mantissa := mantissa st * (if hex then 16 else 10) + digit_val c;
               underscores := underscores st |} rest
      else if hex && (97 <=? lower c) && (lower c <=? 102) then
        readDigits hex
          {| sawdot := sawdot st; sawdigits := true; nd := nd st + 1;
             dp := dp st; mantissa := mantissa st * 16 + (lower c - 97 + 10);
             underscores := underscores st |} rest
      else (st, s)
  end.

(** The digits of the exponent; the accumulated value stops growing at
    10000.  Returns the value, whether an underscore was seen, and the rest. *)
Fixpoint readExpDigits (e : Z) (us : bool) (s : string) : Z * bool * string :=
  match s with
  | EmptyString => (e, us, s)
  | String c rest =>
      if byte_val c =? 95 then readExpDigits e true rest
      else if isDigit c then
        readExpDigits (if e <? 10000 then e * 10 + digit_val c else e) us rest
      else (e, us, s)
  end.

Inductive seen : Type := SeenNothing | SeenDigit | SeenUnderscore | SeenOther.

Fixpoint underscoreScan (hex : bool) (saw : seen) (s : string) : bool :=
  match s with
  | EmptyString => match saw with SeenUnderscore => false | _ => true end
  | String c rest =>
      if isDigit c || (hex && (97 <=? lower c) && (lower c <=? 102)) then
        underscoreScan hex SeenDigit rest
      else if byte_val c =? 95 then
        match saw with
        | SeenDigit => underscoreScan hex SeenUnderscore rest
        | _ => false
        end
      else
        match saw with
        | SeenUnderscore => false
        | _ => underscoreScan hex SeenOther rest
        end
  end.

Definition dropSign (s : string) : string :=
  match s with
  | String c rest =>
      if (byte_val c =? 43) || (byte_val c =? 45) then rest else s
  | EmptyString => s
  end.

(** [underscoreOK]: underscores only between digits, or between a base
    prefix and a digit. *)
Definition underscoreOK (s : string) : bool :=
  match dropSign s with
  | String c0 (String c1 rest) as body =>
      if (byte_val c0 =? 48)
         && ((lower c1 =? 98) || (lower c1 =? 111) || (lower c1 =? 120))
      then underscoreScan (lower c1 =? 120) SeenDigit rest
      else underscoreScan false SeenNothing body
  | body => underscoreScan false SeenNothing body
  end.

(** Half-way between the largest float64 and 2^1024: a value from here on
    rounds out of range. *)
Definition float64_limit : Z := 2 ^ 1024 - 2 ^ 970.

Definition outOfRange (m base k : Z) : bool :=
  if m =? 0 then false
  else if 0 <=? k then float64_limit <=? m * base ^ k
  else float64_limit * base ^ (- k) <=? m.

(** [readFloat] followed by the conversion: [true] when the whole of [s] is
    a well-formed literal in range. *)
Definition readFloat_ok (s : string) : bool :=
  let body := dropSign s in
  let '(hex, body) :=
    match body with
    | String c0 (String c1 (String c2 rest)) =>
        if (byte_val c0 =? 48) && (lower c1 =? 120)
        then (true, String c2 rest) else (false, body)
    | _ => (false, body)
    end in
  let '(st, rest) :=
    readDigits hex
      {| sawdot := false; sawdigits := false; nd := 0; dp := 0;
         mantissa := 0; underscores := false |} body in
  if negb (sawdigits st) then false
  else
    let dp0 := if sawdot st then dp st else nd st in
    let dp1 := if hex then dp0 * 4 else dp0 in
    let nd1 := if hex then nd st * 4 else nd st in
    let finish (dp2 : Z) (us : bool) (rest : string) : bool :=
      if us && negb (underscoreOK s) then false
      else match rest with
           | EmptyString =>
               negb (outOfRange (mantissa st) (if hex then 2 else 10) (dp2 - nd1))
           | String _ _ => false
           end in
    match rest with
    | String c rest1 =>
        if lower c =? (if hex then 112 else 101) then
          match rest1 with
          | EmptyString => false
          | String c1 rest2 =>
              let '(esign, rest3) :=
                if byte_val c1 =? 43 then (1, rest2)
                else if byte_val c1 =? 45 then (-1, rest2)
                else (1, rest1) in
              match rest3 with
              | EmptyString => false
              | String c2 _ =>
                  if negb (isDigit c2) then false
                  else
                    let '(e, us, rest4) :=
                      readExpDigits 0 (underscores st) rest3 in
                    finish (dp1 + e * esign) us rest4
              end
          end
        else if hex then false
        else finish dp1 (underscores st) rest
    | EmptyString =>
        if hex then false else finish dp1 (underscores st) rest
    end.

Definition ParseFloat_ok (s : string) : bool :=
  match special s with
  | Some n => (n =? String.length s)%nat
  | None => readFloat_ok s
  end.

(** *** [time.ParseInLocation("2006-01-02 15:04:05", value, time.UTC)]

    The layout is fixed in all three programs.  A [Time] is kept as Unix
    seconds and nanoseconds within the second. *)

Record Time : Type := { unixSec : Z; nsec : Z }.

(** [t.UnixMilli()] *)
Definition UnixMilli (t : Time) : Z := unixSec t * 1000 + nsec t / 1000000.

Definition isLeap (y : Z) : bool :=
  (y mod 4 =? 0) && (negb (y mod 100 =? 0) || (y mod 400 =? 0)).

Definition daysIn (m y : Z) : Z :=
  if m =? 2 then (if isLeap y then 29 else 28)
  else if (m =? 4) || (m =? 6) || (m =? 9) || (m =? 11) then 30
  else 31.

Definition daysBefore (m : Z) : Z :=
  nth (Z.to_nat (m - 1)) [0; 31; 59; 90; 120; 151; 181; 212; 243; 273; 304; 334] 0.

(** Leap years among the years 1 .. y-1. *)
Definition leapsBefore (y : Z) : Z := (y - 1) / 4 - (y - 1) / 100 + (y - 1) / 400.

(** [time.Date] in UTC, for fields already in range. *)
Definition Date (y mo d h mi s ns : Z) : Time :=
  let days :=
    365 * (y - 1970) + (leapsBefore y - leapsBefore 1970)
    + daysBefore mo + (if (2 <? mo) && isLeap y then 1 else 0) + (d - 1) in
  {| unixSec := days * 86400 + h * 3600 + mi * 60 + s; nsec := ns |}.

(** [getnum]: one or two digits; two are required when [fixed]. *)
Definition getnum (s : string) (fixed : bool) : option (Z * string) :=
  match s with
  | String c0 rest =>
      if isDigit c0 then
        match rest with
        | String c1 rest' =>
            if isDigit c1 then Some (digit_val c0 * 10 + digit_val c1, rest')
            else if fixed then None else Some (digit_val c0, rest)
        | EmptyString => if fixed then None else Some (digit_val c0, rest)
        end
      else None
  | EmptyString => None
  end.

(** The year of the layout element [2006]: four digits. *)
Definition longYear (s : string) : option (Z * string) :=
  match s with
  | String a (String b (String c (String d rest))) =>
      if isDigit a && isDigit b && isDigit c && isDigit d
      then Some (((digit_val a * 10 + digit_val b) * 10 + digit_val c) * 10
                 + digit_val d, rest)
      else None
  | _ => None
  end.

(** [skip] for a one-byte literal of the layout. *)
Definition skipByte (lit : ascii) (s : string) : option string :=
  match s with
  | String c rest => if Ascii.eqb c lit then Some rest else None
  | EmptyString => None
  end.

Fixpoint cutspace (s : string) : string :=
  match s with
  | String c rest => if byte_val c =? 32 then cutspace rest else s
  | EmptyString => s
  end.

(** [skip] for the space of the layout: a run of spaces in the value stands
    for it. *)
Definition skipSpace (s : string) : option string :=
  match s with
  | EmptyString => Some s
  | String c _ => if byte_val c =? 32 then Some (cutspace s) else None
  end.

Fixpoint spanDigits (s : string) : list Z * string :=
  match s with
  | String c rest =>
      if isDigit c then
        let '(ds, rest') := spanDigits rest in (digit_val c :: ds, rest')
      else ([], s)
  | EmptyString => ([], s)
  end.

(** A fractional second after the seconds, accepted although the layout has
    none: nanoseconds from the first nine digits. *)
Definition fraction (s : string) : Z * string :=
  match s with
  | String c0 (String c1 rest) =>
      if ((byte_val c0 =? 46) || (byte_val c0 =? 44)) && isDigit c1 then
        let '(ds, rest') := spanDigits (String c1 rest) in
        let ds9 := take 9 ds in
        (foldl (λ acc d, acc * 10 + d) 0 ds9 * 10 ^ (9 - Z.of_nat (length ds9)),
         rest')
      else (0, s)
  | _ => (0, s)
  end.

Definition ParseInLocation (value : string) : option Time :=
  '(year, v) ← longYear value;
  v ← skipByte "-" v;
  '(month, v) ← getnum v true;
  if (month <=? 0) || (12 <? month) then None else
  v ← skipByte "-" v;
  '(day, v) ← getnum v true;
  v ← skipSpace v;
  '(hour, v) ← getnum v false;
  if 24 <=? hour then None else
  v ← skipByte ":" v;
  '(minute, v) ← getnum v true;
  if 60 <=? minute then None else
  v ← skipByte ":" v;
  '(sec, v) ← getnum v true;
  if 60 <=? sec then None else
  let '(ns, v) := fraction v in
  match v with
  | String _ _ => None
  | EmptyString =>
      if (day <? 1) || (daysIn month year <? day) then None
      else Some (Date year month day hour minute sec ns)
  end.

(** *** [regexp]: the compiled filter and [MatchString]

    [regexp.MustCompile] turns the pattern into a parse tree; the model
    starts from the tree.  The input is read rune by rune, so matching is
    over the runes of the text and positions count runes. *)

Inductive regexp : Type :=
| EmptyMatch
| Literal (lit : string)
| AnyCharNotNL
| AnyChar
| CharClass (ranges : list (Z * Z))
| BeginText
| EndText
| Concat (a b : regexp)
| Alternate (a b : regexp)
| Star (a : regexp)
| Plus (a : regexp)
| Quest (a : regexp).

(** The runes of a string, decoded front to back. *)
Fixpoint runesFrom (skip : nat) (s : string) : list Z :=
  match s with
  | EmptyString => []
  | String _ rest =>
      match skip with
      | S k => runesFrom k rest
      | O =>
          let '(r, width) := DecodeRuneInString s in
          r :: runesFrom (width - 1) rest
      end
  end.

Definition runes (s : string) : list Z := runesFrom 0 s.

Fixpoint hasPrefix (text lit : list Z) : bool :=
  match lit, text with
  | [], _ => true
  | l :: lit', t :: text' => (l =? t) && hasPrefix text' lit'
  | _ :: _, [] => false
  end.

(** Positions reachable from [from] by repeating [step], at most [n] times. *)
Fixpoint closure (step : nat → list nat) (n : nat) (from : list nat) : list nat :=
  match n with
  | O => from
  | S k => closure step k (remove_dups (from ++ (from ≫= step)))
  end.

(** [ends text re i]: the positions where a match of [re] that starts at
    position [i] of [text] can end. *)
Fixpoint ends (text : list Z) (re : regexp) (i : nat) : list nat :=
  match re with
  | EmptyMatch => [i]
  | Literal lit =>
      if hasPrefix (drop i text) (runes lit)
      then [(i + length (runes lit))%nat] else []
  | AnyCharNotNL =>
      match text !! i with
      | Some r => if r =? 10 then [] else [S i]
      | None => []
      end
  | AnyChar => match text !! i with Some _ => [S i] | None => [] end
  | CharClass ranges =>
      match text !! i with
      | Some r =>
          if existsb (λ '(lo, hi), (lo <=? r) && (r <=? hi)) ranges
          then [S i] else []
      | None => []
      end
  | BeginText => if (i =? 0)%nat then [i] else []
  | EndText => if (i =? length text)%nat then [i] else []
  | Concat a b => ends text a i ≫= ends text b
  | Alternate a b => ends text a i ++ ends text b i
  | Star a => closure (ends text a) (S (length text)) [i]
  | Plus a => closure (ends text a) (S (length text)) (ends text a i)
  | Quest a => i :: ends text a i
  end.

(** [re.MatchString(s)]: does some part of [s] match? *)
Definition MatchString (re : regexp) (s : string) : bool :=
  let text := runes s in
  existsb (λ i, match ends text re i with [] => false | _ => true end)
    (seq 0 (S (length text))).

(** The parse tree of a pattern made of an optional [^], literal bytes and
    an optional [$]; [None] for a pattern that uses any other operator. *)
Definition isMeta (c : ascii) : bool :=
  existsb (Ascii.eqb c) (list_ascii_of_string "\.+*?()|[]{}^$").

Fixpoint literalBody (p : string) : option (string * bool) :=
  match p with
  | EmptyString => Some (EmptyString, false)
  | String c rest =>
      match rest with
      | EmptyString =>
          if Ascii.eqb c "$" then Some (EmptyString, true)
          else if isMeta c then None else Some (String c EmptyString, false)
      | String _ _ =>
          if isMeta c then None
          else '(body, dollar) ← literalBody rest; Some (String c body, dollar)
      end
  end.

Definition simplePattern (p : string) : option regexp :=
  let '(caret, rest) :=
    match p with
    | String c rest => if Ascii.eqb c "^" then (true, rest) else (false, p)
    | EmptyString => (false, p)
    end in
  match literalBody rest with
  | None => None
  | Some (body, dollar) =>
      let lit := match body with EmptyString => EmptyMatch | _ => Literal body end in
      let re := if dollar : bool then Concat lit EndText else lit in
      Some (if caret : bool then Concat BeginText re else re)
  end.

(** *** [url.QueryEscape] and [url.QueryUnescape]

    [shouldEscape] in the mode of a query component: letters, digits and
    the four marks [-], [_], [.], [~] pass, every other byte is escaped. *)
Definition shouldEscape (c : ascii) : bool :=
  let b := byte_val c in
  if ((97 <=? b) && (b <=? 122)) || ((65 <=? b) && (b <=? 90))
     || ((48 <=? b) && (b <=? 57)) then false
  else if (b =? 45) || (b =? 95) || (b =? 46) || (b =? 126) then false
  else true.

Definition upperhex (n : Z) : ascii :=
  match String.get (Z.to_nat n) "0123456789ABCDEF" with
  | Some c => c
  | None => "0"%char
  end.

(** A space becomes [+], an escaped byte [%] and two upper-case hex
    digits. *)
Fixpoint QueryEscape (s : string) : string :=
  match s with
  | EmptyString => EmptyString
  | String c rest =>
      if byte_val c =? 32 then String "+" (QueryEscape rest)
      else if shouldEscape c then
        String "%"
          (String (upperhex (Z.shiftr (byte_val c) 4))
             (String (upperhex (Z.land (byte_val c) 15)) (QueryEscape rest)))
      else String c (QueryEscape rest)
  end.

(** [unhex]: the value of a hex digit. *)
Definition unhex (c : ascii) : option Z :=
  let b := byte_val c in
  if (48 <=? b) && (b <=? 57) then Some (b - 48)
  else if (97 <=? b) && (b <=? 102) then Some (b - 97 + 10)
  else if (65 <=? b) && (b <=? 70) then Some (b - 65 + 10)
  else None.

(** [url.QueryUnescape]: [None] for a [%] that two hex digits do not
    follow. *)
Fixpoint QueryUnescape (s : string) : option string :=
  match s with
  | EmptyString => Some EmptyString
  | String c rest =>
      if byte_val c =? 37 then
        match rest with
        | String h (String l rest') =>
            match unhex h, unhex l with
            | Some hv, Some lv =>
                String (byte_of (Z.lor (Z.shiftl hv 4) lv)) <$> QueryUnescape rest'
            | _, _ => None
            end
        | _ => None
        end
      else if byte_val c =? 43 then String " " <$> QueryUnescape rest
      else String c <$> QueryUnescape rest
  end.

(** *** [http.Get] and [io.ReadAll]

    What a program sees of the [*http.Response] it got: the bytes
    [io.ReadAll(resp.Body)] returns, and whether it returns them with an
    error.  A nil response is [None] where a response is expected. *)
Record Response : Type := { Body : string; ReadErr : bool }.

End Go.

(** A table under which no rune above U+00FF is printable; enough to run
    the model on ASCII and Latin-1 data. *)
Definition narrow_tables : Go.UnicodeTables := λ _, false.

(** ** The protocol exporter (first program of [src/main.go]) *)

Module Protocol.

Record record : Type := {
  Code : string;      (* m_code *)
  Msg : string;       (* m_msg *)
  MsgTime : string;   (* m_msgtime *)
  Paranoid : Z;       (* m_paranoid *)
  PToken : string     (* m_ptoken *)
}.

Definition sMetrics : list string :=
  ["ms_v_bat_soc"; "m_units_distance"; "ms_v_charge_voltage";
   "ms_v_charge_current"; "ms_v_charge_state"; "ms_v_charge_mode";
   "ms_v_bat_range_ideal"; "ms_v_bat_range_est"; "ms_v_charge_climit";
   "ms_v_charge_time"; "car_charge_b4"; "ms_v_charge_kwh";
   "ms_v_charge_substate"; "ms_v_charge_state"; "ms_v_charge_mode";
   "ms_v_charge_timermode"; "ms_v_charge_timerstart"; "car_stale_timer";
   "ms_v_bat_cac"; "ms_v_charge_duration_full";
   "ms_v_charge_duration_chage_limit"; "ms_v_charge_limit_range";
   "ms_v_charge_limit_soc"; "ms_v_env_cooling"; "car_cooldown_tbattery";
   "car_cooldown_timelimit"; "car_chargeestimate"; "mins_range";
   "mins_soc"; "ms_v_bat_range_full"; "car_chargetype"; "ms_v_bat_power";
   "ms_v_bat_voltage"; "ms_v_bat_soh"; "ms_v_charge_power";
   "ms_v_charge_efficiency"; "ms_v_bat_current"; "ms_v_bat_range_speed"].

Definition dMetrics : list string :=
  ["doors1"; "doors2"; "ms_v_env_locked"; "ms_v_inv_temp";
   "ms_v_mot_temp"; "ms_v_bat_temp"; "ms_v_pos_trip"; "ms_v_pos_odometer";
   "ms_v_pos_speed"; "ms_v_env_parktime"; "ms_v_env_temp"; "doors3";
   "stale_temps"; "ms_v_env_temp"; "ms_v_bat_12v_voltage"; "doors4";
   "ms_v_bat_12v_voltage_ref"; "doors5"; "ms_v_charge_temp";
   "ms_v_bat_12v_current"; "ms_v_env_cabintemp"].

Definition lMetrics : list string :=
  ["ms_v_pos_latitude"; "ms_v_pos_longitude"; "ms_v_pos_direction";
   "ms_v_pos_altitude"; "ms_v_pos_gpslock"; "stale"; "ms_v_pos_speed";
   "ms_v_pos_trip"; "drivemode"; "ms_v_bat_power"; "ms_v_bat_energy_used";
   "ms_v_bat_energy_recd"; "ms_v_inv_power"; "ms_v_inv_efficiency";
   "ms_v_pos_gpsmode"; "ms_v_pos_satcount"; "ms_v_pos_gpshdop";
   "ms_v_pos_gpsspeed"; "ms_v_pos_gpssq"].

Definition wMetrics : list string :=
  ["wheels_count"; "wheel1"; "wheel2"; "wheel3"; "wheel4";
   "ms_v_tpms_pressure_count"; "ms_v_tpms_pressure"; "defstale_pressure";
   "ms_v_tpms_temp_count"; "ms_v_tpms_temp"; "defstale_temp";
   "ms_v_tpms_health_count"; "ms_v_tpms_health"; "defstale_health";
   "ms_v_tpms_alert_count"; "ms_v_tpms_alert"; "defstale_alert"].

Definition metricsMap : gmap string (list string) :=
  list_to_map
    [("S", sMetrics); ("D", dMetrics); ("L", lMetrics); ("W", wMetrics)].

Section WithTables.
Context `{Go.UnicodeTables}.

(** [promMetric]: [val] goes into a label when [strconv.ParseFloat] returns
    an error, and is the sample value otherwise. *)
Definition promMetric (name val : string) (ts : Go.Time) : string :=
  let tsMillis := Go.UnixMilli ts in
  if negb (Go.ParseFloat_ok val) then
    name +:+ "{value=" +:+ Go.Quote val +:+ "} 1 " +:+ Go.itoa tsMillis
  else name +:+ " " +:+ val +:+ " " +:+ Go.itoa tsMillis.

(** The inner loop, [for i, val := range data]; [m[i]] panics once [i]
    reaches the length of [m]. *)
Fixpoint rangeData (code : string) (m : list string) (ts : Go.Time)
    (i : nat) (data : list string) (metrics : list string)
  : outcome (list string) :=
  match data with
  | [] => Done metrics
  | val :: rest =>
      match m !! i with
      | None => Panic
      | Some name =>
          rangeData code m ts (S i) rest
            (metrics ++ [promMetric ("ovms_" +:+ code +:+ "_" +:+ name) val ts])
      end
  end.

(** The body of the record loop below the timestamp check: split the
    payload, look the code up, walk the fields. *)
Definition decodePayload (code msg : string) (ts : Go.Time)
    (metrics : list string) : outcome (list string) :=
  let data := Go.Split msg "," in
  match metricsMap !! code with
  | Some m => rangeData code m ts 0 data metrics
  | None => Done metrics
  end.

(** One turn of [for _, rec := range records]; a timestamp that does not
    parse is logged and the record left out ([continue]). *)
Definition decodeRecord (rec : record) (metrics : list string)
  : outcome (list string) :=
  match Go.ParseInLocation (MsgTime rec) with
  | None => Done metrics
  | Some ts => decodePayload (Code rec) (Msg rec) ts metrics
  end.

Fixpoint rangeRecords (records : list record) (metrics : list string)
  : outcome (list string) :=
  match records with
  | [] => Done metrics
  | rec :: rest =>
      metrics' ← decodeRecord rec metrics; rangeRecords rest metrics'
  end.

(** What one poll gets from its two external calls: [fetch()] gives nil or
    the bytes of the response body, and [json.Unmarshal] turns the bytes
    into records or returns an error ([None]). *)
Inductive fetched : Type :=
| FetchNil
| FetchBody (data : string) (unmarshalled : option (list record)).

Definition fetchMetrics (f : fetched) : outcome string :=
  match f with
  | FetchNil => Done ""
  | FetchBody data unmarshalled =>
      if (String.length data =? 0)%nat then Done ""
      else match unmarshalled with
           | None => Done ""
           | Some records =>
               metrics ← rangeRecords records [];
               Done (Go.Join metrics Go.nl +:+ Go.nl)
           end
  end.

(** One turn of the polling goroutine of [main], on the cached text:
    [m := fetchMetrics(); if m != "" { metricsText = m }]. *)
Definition poll (metricsText : string) (f : fetched) : outcome string :=
  m ← fetchMetrics f;
  Done (if bool_decide (m ≠ "") then m else metricsText).

(** The polling goroutine over a run of polls, one [fetched] per turn of
    its [for] loop; a panic in a turn ends the process. *)
Fixpoint polls (metricsText : string) (fs : list fetched) : outcome string :=
  match fs with
  | [] => Done metricsText
  | f :: rest => metricsText' ← poll metricsText f; polls metricsText' rest
  end.

End WithTables.

(** The URL [fetch] passes to [http.Get], from the flags [server],
    [vehicle], [username] and [password]. *)
Definition fetchURL (server vehicle username password : string) : string :=
  let urlPrefix := "http://" +:+ server +:+ "/api/protocol/" +:+ vehicle in
  urlPrefix +:+ "?username=" +:+ Go.QueryEscape username
  +:+ "&password=" +:+ Go.QueryEscape password.

(** [fetch], from what [http.Get] returned ([resp], and [err] for a
    non-nil error): the bytes of the body, or nil ([None]) after either
    error.  [defer resp.Body.Close()] evaluates [resp.Body], which panics
    on a nil [resp]. *)
Definition fetch (resp : option Go.Response) (err : bool)
  : outcome (option string) :=
  if err then Done None
  else match resp with
       | None => Panic
       | Some r => if Go.ReadErr r then Done None else Done (Some (Go.Body r))
       end.

Section Turn.
Context `{Go.UnicodeTables}.

(** [json.Unmarshal(data, &records)] as a function of the bytes. *)
Variable Unmarshal : string → option (list record).

Definition fetched_of (data : option string) : fetched :=
  match data with
  | None => FetchNil
  | Some data => FetchBody data (Unmarshal data)
  end.

(** One turn of the polling goroutine, from the request on. *)
Definition turn (metricsText : string) (resp : option Go.Response) (err : bool)
  : outcome string :=
  data ← fetch resp err; poll metricsText (fetched_of data).

End Turn.

End Protocol.

(** ** The historical exporter (second program of [src/main.go])

    [src/unnamed/part_000] declares the same [record], [normalize] and
    [dMetrics] and runs the same record loop; they are modelled once, here,
    and used by [Module FileExporter] too. *)

Module Historical.

Record record : Type := {
  Data : string;        (* h_data *)
  RecordNumber : Z;     (* h_recordnumber *)
  Timestamp : string    (* h_timestamp *)
}.

(** Prometheus doesn't like "." in the metric names. *)
Definition normalize (input : list string) : list string :=
  map (λ val, Go.ReplaceAll val "." "_") input.

Definition dMetrics : list string :=
  normalize
    [""; ""; ""; ""; "v.m.temp"; "v.b.temp"; "v.p.trip"; "v.p.odometer";
     "v.p.speed"; "v.e.parktime"; "v.e.temp"; ""; ""; ""; "v.b.12v.voltage";
     ""; "v.b.12v.voltage.ref"; ""; "v.c.temp"; "v.b.12v.current";
     "v.e.cabintemp"].

(** The parse tree of the default of the [filter] flag,
    [^v_b_12v_voltage$]. *)
Definition filterFlag : Go.regexp :=
  Go.Concat Go.BeginText (Go.Concat (Go.Literal "v_b_12v_voltage") Go.EndText).

(** The sample line, [fmt.Sprintf("%s %s %d", dMetrics[i], val, ts.UnixMilli())]. *)
Definition sampleLine (name val : string) (ts : Go.Time) : string :=
  name +:+ " " +:+ val +:+ " " +:+ Go.itoa (Go.UnixMilli ts).

(** The inner loop, [for i, val := range data]; [dMetrics[i]] panics once
    [i] reaches the length of the table.  [metrics[m]] of a missing key is
    the nil slice. *)
Fixpoint rangeData (filter : Go.regexp) (ts : Go.Time) (i : nat)
    (data : list string) (metrics : gmap string (list string))
  : outcome (gmap string (list string)) :=
  match data with
  | [] => Done metrics
  | val :: rest =>
      match dMetrics !! i with
      | None => Panic
      | Some m =>
          rangeData filter ts (S i) rest
            (if Go.MatchString filter m
             then <[m := (metrics !!! m) ++ [sampleLine m val ts]]> metrics
             else metrics)
      end
  end.

(** One turn of [for _, rec := range records]; a timestamp that does not
    parse ends the process ([vlog.Fatalf]). *)
Definition decodeRecord (filter : Go.regexp) (rec : record)
    (metrics : gmap string (list string))
  : outcome (gmap string (list string)) :=
  match Go.ParseInLocation (Timestamp rec) with
  | None => Fatal
  | Some ts => rangeData filter ts 0 (Go.Split (Data rec) ",") metrics
  end.

Fixpoint rangeRecords (filter : Go.regexp) (records : list record)
    (metrics : gmap string (list string))
  : outcome (gmap string (list string)) :=
  match records with
  | [] => Done metrics
  | rec :: rest =>
      metrics' ← decodeRecord filter rec metrics;
      rangeRecords filter rest metrics'
  end.

(** One group of the snapshot,
    [fmt.Sprintf("# TYPE %s gauge\n%s\n", m, strings.Join(s, "\n"))]. *)
Definition block (m : string) (s : list string) : string :=
  "# TYPE " +:+ m +:+ " gauge" +:+ Go.nl +:+ Go.Join s Go.nl +:+ Go.nl.

(** [for m, s := range metrics { r += ... }] for one order of the keys. *)
Definition renderIn (order : list (string * list string)) : string :=
  foldl (λ r '(m, s), r +:+ block m s) "" order.

(** Go ranges over a map in an order of its choosing: every order of the
    entries gives a possible snapshot. *)
Definition renders (metrics : gmap string (list string)) (r : string) : Prop :=
  ∃ order, order ≡ₚ map_to_list metrics ∧ r = renderIn order.

(** The snapshots a batch can end in. *)
Definition snapshot (filter : Go.regexp) (records : list record)
    (o : outcome string) : Prop :=
  match rangeRecords filter records ∅ with
  | Done metrics => ∃ r, renders metrics r ∧ o = Done r
  | Panic => o = Panic
  | Fatal => o = Fatal
  end.

(** [fetchMetrics] from the bytes [fetch()] returned: [unmarshalled] is
    what [json.Unmarshal] makes of them, [None] for an error. *)
Definition fetchMetrics (filter : Go.regexp)
    (unmarshalled : option (list record)) (o : outcome string) : Prop :=
  match unmarshalled with
  | None => o = Done ""
  | Some records => snapshot filter records o
  end.

(** One turn of the polling goroutine of [main], on the cached text. *)
Definition poll (filter : Go.regexp) (metricsText : string)
    (unmarshalled : option (list record)) (o : outcome string) : Prop :=
  ∃ om, fetchMetrics filter unmarshalled om
        ∧ o = (m ← om; Done (if bool_decide (m ≠ "") then m else metricsText)).

(** The URL [fetch] passes to [http.Get]. *)
Definition fetchURL (server vehicle username password : string) : string :=
  let urlPrefix := "http://" +:+ server +:+ "/api/historical/" +:+ vehicle +:+ "/D" in
  urlPrefix +:+ "?username=" +:+ Go.QueryEscape username
  +:+ "&password=" +:+ Go.QueryEscape password.

(** [fetch]: both errors are logged and the function goes on, so that
    [defer resp.Body.Close()] meets the nil [resp] of a failed request, and
    the bytes read before a read error are returned. *)
Definition fetch (resp : option Go.Response) (err : bool) : outcome string :=
  match resp with
  | None => Panic
  | Some r => Done (Go.Body r)
  end.

(** One turn of the polling goroutine, from the request on; [Unmarshal] is
    [json.Unmarshal] as a function of the bytes. *)
Definition turn (Unmarshal : string → option (list record))
    (filter : Go.regexp) (metricsText : string)
    (resp : option Go.Response) (err : bool) (o : outcome string) : Prop :=
  match fetch resp err with
  | Done data => poll filter metricsText (Unmarshal data) o
  | Panic => o = Panic
  | Fatal => o = Fatal
  end.

End Historical.

(** ** The file exporter ([src/unnamed/part_000]) *)

Module FileExporter.

(** What [main] reads: [os.ReadFile] fails, or gives bytes that
    [json.Unmarshal] turns into records or rejects ([None]). *)
Inductive input : Type :=
| ReadError
| FileBytes (b : string) (unmarshalled : option (list Historical.record)).

(** [main] up to the text [all] that the handler serves; both errors end
    the process ([vlog.Fatal]). *)
Definition main (filter : Go.regexp) (i : input) (o : outcome string) : Prop :=
  match i with
  | ReadError => o = Fatal
  | FileBytes _ None => o = Fatal
  | FileBytes _ (Some records) => Historical.snapshot filter records o
  end.

End FileExporter.

(** ** The cached text of [main] and its lock

    [main] keeps the latest text in [metricsText], guarded by the
    [sync.RWMutex] [mu]: the polling goroutine assigns it between
    [mu.Lock()] and [mu.Unlock()], every request handler copies it between
    [mu.RLock()] and [mu.RUnlock()].  The goroutines are modelled as an
    interleaving of atomic steps.  A Go string variable is two words, a
    pointer to the bytes and a length; an assignment stores the two words
    and a copy loads them, one word at a time and in either order, so that
    a reader without the lock could see the pointer of one text with the
    length of another.  The pointer is modelled by the text it points to. *)

Module Cache.

(** The text a pair of header words denotes: the first [n] bytes at [p]. *)
Definition header_text (p : string) (n : nat) : string := String.substring 0 n p.

(** The polling goroutine. *)
Inductive poller : Type :=
| Fetching                               (* in fetchMetrics, or asleep *)
| WantLock (m : string)                  (* m != "", at mu.Lock() *)
| Storing (m : string) (data_done len_done : bool).
                                         (* metricsText = m, under mu *)

(** A request handler.  [was] is a history variable: the texts published
    when the request came in, newest first. *)
Inductive handler : Type :=
| WantRLock (was : list string)          (* at mu.RLock() *)
| Loading (was : list string) (p : option string) (n : option nat)
                                         (* m := metricsText, under mu *)
| Respond (was : list string) (m : string).
                                         (* past mu.RUnlock(), holding m *)

Record state : Type := St {
  data_word : string;          (* metricsText, pointer *)
  len_word : nat;              (* metricsText, length *)
  writer : bool;               (* mu is held by the poller *)
  readers : nat;               (* handlers that hold mu for reading *)
  refresh : poller;
  requests : list handler;
  published : list string      (* history: the texts assigned, newest first *)
}.

(** At start no text is published: [metricsText] is the empty string. *)
Definition init : state := St "" 0 false 0 Fetching [] [""].

Section Steps.
Context `{Go.UnicodeTables}.

Inductive step : state → state → Prop :=
| step_request d n w r p hs pub :
    (* a request arrives *)
    step (St d n w r p hs pub) (St d n w r p (hs ++ [WantRLock pub]) pub)
| step_fetch d n w r hs pub f m :
    (* m := fetchMetrics(); if m != "" *)
    Protocol.fetchMetrics f = Done m → m ≠ "" →
    step (St d n w r Fetching hs pub) (St d n w r (WantLock m) hs pub)
| step_lock d n hs pub m :
    (* mu.Lock(): no writer, no reader *)
    step (St d n false 0 (WantLock m) hs pub)
         (St d n true 0 (Storing m false false) hs pub)
| step_store_data d n w r hs pub m len_done :
    step (St d n w r (Storing m false len_done) hs pub)
         (St m n w r (Storing m true len_done) hs pub)
| step_store_len d n w r hs pub m data_done :
    step (St d n w r (Storing m data_done false) hs pub)
         (St d (String.length m) w r (Storing m data_done true) hs pub)
| step_unlock d n w r hs pub m :
    (* the assignment is done; mu.Unlock() *)
    step (St d n w r (Storing m true true) hs pub)
         (St d n false r Fetching hs (m :: pub))
| step_rlock d n r p hs pub i was :
    (* mu.RLock(): no writer *)
    hs !! i = Some (WantRLock was) →
    step (St d n false r p hs pub)
         (St d n false (S r) p (<[i := Loading was None None]> hs) pub)
| step_load_data d n w r p hs pub i was len_loaded :
    hs !! i = Some (Loading was None len_loaded) →
    step (St d n w r p hs pub)
         (St d n w r p (<[i := Loading was (Some d) len_loaded]> hs) pub)
| step_load_len d n w r p hs pub i was data_loaded :
    hs !! i = Some (Loading was data_loaded None) →
    step (St d n w r p hs pub)
         (St d n w r p (<[i := Loading was data_loaded (Some n)]> hs) pub)
| step_runlock d n w r p hs pub i was p' n' :
    (* the copy is done; mu.RUnlock() *)
    hs !! i = Some (Loading was (Some p') (Some n')) →
    step (St d n w r p hs pub)
         (St d n w (Nat.pred r) p
             (<[i := Respond was (header_text p' n')]> hs) pub).

Definition reachable (s : state) : Prop := rtc step init s.

End Steps.

(** A handler that holds [mu] for reading. *)
Definition holds (h : handler) : bool :=
  match h with Loading _ _ _ => true | _ => false end.

Definition holders (hs : list handler) : nat := length (filter (λ h, holds h = true) hs).

(** The request came in when [was] were the published texts, and [pub] are
    the published texts now. *)
Definition since (was pub : list string) : Prop :=
  was ≠ [] ∧ ∃ newer, pub = newer ++ was.

(** What a handler can hold while [cur] is the text in the cache. *)
Definition handler_ok (cur : string) (pub : list string) (h : handler) : Prop :=
  match h with
  | WantRLock was => since was pub
  | Loading was p n =>
      since was pub
      ∧ (p = None ∨ p = Some cur)
      ∧ (n = None ∨ n = Some (String.length cur))
  | Respond was m =>
      ∃ newer old rest,
        was = old :: rest ∧ pub = newer ++ was ∧ m ∈ newer ++ [old]
  end.

(** The words of [metricsText] while the poller is at [p]. *)
Definition words_ok (cur : string) (s : state) : Prop :=
  match refresh s with
  | Fetching | WantLock _ =>
      writer s = false ∧ data_word s = cur ∧ len_word s = String.length cur
  | Storing m data_done len_done =>
      writer s = true
      ∧ data_word s = (if data_done then m else cur)
      ∧ len_word s = (if len_done then String.length m else String.length cur)
  end.

Definition invariant (s : state) : Prop :=
  ∃ cur older,
    published s = cur :: older
    ∧ words_ok cur s
    ∧ (writer s = true → readers s = 0%nat)
    ∧ readers s = holders (requests s)
    ∧ Forall (handler_ok cur (published s)) (requests s).

End Cache.

(** ** Data for the statements and the examples *)

(** Values that [%q] leaves as they are: printable ASCII with neither a
    double quote nor a backslash. *)
Definition plainByte (c : ascii) : bool :=
  (32 <=? Go.byte_val c) && (Go.byte_val c <=? 126)
  && negb (Go.byte_val c =? 34) && negb (Go.byte_val c =? 92).

Fixpoint plain (s : string) : bool :=
  match s with
  | EmptyString => true
  | String c rest => plainByte c && plain rest
  end.

(** The line of one field of a protocol record: the metric name is built
    from the code and the slot name. *)
Definition line_of `{Go.UnicodeTables} (code : string) (ts : Go.Time)
    (name val : string) : string :=
  Protocol.promMetric ("ovms_" +:+ code +:+ "_" +:+ name) val ts.

(** The instant used in the examples: 2023-11-14 22:13:20 UTC. *)
Definition ts_example : Go.Time := {| Go.unixSec := 1700000000; Go.nsec := 0 |}.

(** A raw value with a double quote in it: the byte [a], a double quote,
    the byte [b]. *)
Definition quoted_value : string := String "a" (String Go.dquote (String "b" "")).


(** *** The groups of a snapshot, stated apart from the loop

    [slotLines m ts data] are the sample lines of the fields of one payload
    that sit at a slot named [m], in field order; [recordLines] adds the
    timestamp of the record and the filter, [batchLines] runs over the
    batch.  The loop is proved to build exactly these groups. *)

Definition slotLines (m : string) (ts : Go.Time) (slots data : list string)
  : list string :=
  zip slots data ≫= λ '(name, val),
    if decide (name = m) then [Historical.sampleLine m val ts] else [].

Definition recordLines (filter : Go.regexp) (m : string)
    (rec : Historical.record) : list string :=
  match Go.ParseInLocation (Historical.Timestamp rec) with
  | Some ts =>
      if Go.MatchString filter m
      then slotLines m ts Historical.dMetrics (Go.Split (Historical.Data rec) ",")
      else []
  | None => []
  end.

Definition batchLines (filter : Go.regexp) (m : string)
    (records : list Historical.record) : list string :=
  records ≫= recordLines filter m.

(** A group after more lines were appended to it; a group exists once it
    has a line. *)
Definition grown (group : option (list string)) (lines : list string)
  : option (list string) :=
  match group, lines with
  | Some l0, _ => Some (l0 ++ lines)
  | None, [] => None
  | None, _ :: _ => Some lines
  end.

(** A record the historical loop gets through: its timestamp parses and
    its payload has no more fields than the table has slots. *)
Definition decodable (rec : Historical.record) : bool :=
  match Go.ParseInLocation (Historical.Timestamp rec) with
  | Some _ =>
      (length (Go.Split (Historical.Data rec) ",")
       <=? length Historical.dMetrics)%nat
  | None => false
  end.

(** Texts of ASCII bytes only; every metric name of the tables is one. *)
Fixpoint isASCII (s : string) : bool :=
  match s with
  | EmptyString => true
  | String c rest => (Go.byte_val c <? 128) && isASCII rest
  end.

(** The sample lines of the 12V voltage, slot 14 of the historical
    schema, over a batch: one per record that has the field. *)
Definition voltageLines (records : list Historical.record) : list string :=
  records ≫= λ rec,
    match Go.ParseInLocation (Historical.Timestamp rec),
          Go.Split (Historical.Data rec) "," !! 14%nat with
    | Some ts, Some val => [Historical.sampleLine "v_b_12v_voltage" val ts]
    | _, _ => []
    end.

(** *** Sample records *)

(** A tyre record with one field more than the W schema has slots. *)
Definition w_surplus : Protocol.record :=
  {| Protocol.Code := "W";
     Protocol.Msg := "4,FL,FR,RL,RR,4,230.0,1,4,21.5,1,0,,0,4,0,0,extra";
     Protocol.MsgTime := "2023-11-14 22:13:20";
     Protocol.Paranoid := 0;
     Protocol.PToken := "" |}.

(** Two protocol records with good timestamps and one with a bad one. *)
Definition w_good : Protocol.record :=
  {| Protocol.Code := "W";
     Protocol.Msg := "4,FL";
     Protocol.MsgTime := "2023-11-14 22:13:20";
     Protocol.Paranoid := 0;
     Protocol.PToken := "" |}.

Definition l_good : Protocol.record :=
  {| Protocol.Code := "L";
     Protocol.Msg := "47.1,8.5";
     Protocol.MsgTime := "2023-11-14 22:14:20";
     Protocol.Paranoid := 0;
     Protocol.PToken := "" |}.

Definition w_bad_time : Protocol.record :=
  {| Protocol.Code := "W";
     Protocol.Msg := "4,FL";
     Protocol.MsgTime := "14/11/2023 22:13";
     Protocol.Paranoid := 0;
     Protocol.PToken := "" |}.

(** Historical records: all 21 fields, 22 fields, a bad timestamp, a lone
    field. *)
Definition h_full : Historical.record :=
  {| Historical.Data := "0,0,4,30,31,32,120,45000,0,3600,18,0,1,1,12.6,0,12.5,0,25,0.5,21";
     Historical.RecordNumber := 1;
     Historical.Timestamp := "2023-11-14 22:13:20" |}.

Definition h_surplus : Historical.record :=
  {| Historical.Data := "0,0,4,30,31,32,120,45000,0,3600,18,0,1,1,12.6,0,12.5,0,25,0.5,21,extra";
     Historical.RecordNumber := 2;
     Historical.Timestamp := "2023-11-14 22:13:20" |}.

Definition h_bad_time : Historical.record :=
  {| Historical.Data := "0,0,4,30,31,32,120,45000,0,3600,18,0,1,1,12.7,0,12.5,0,25,0.5,21";
     Historical.RecordNumber := 3;
     Historical.Timestamp := "yesterday" |}.

Definition h_one_field : Historical.record :=
  {| Historical.Data := "1";
     Historical.RecordNumber := 4;
     Historical.Timestamp := "2023-11-14 22:13:20" |}.

(** A text held by the cache from an earlier poll. *)
Definition cached_example : string :=
  "ovms_W_wheels_count 4 1700000000000" +:+ Go.nl.

(** The parse tree of the pattern [.*], which matches every text. *)
Definition match_all : Go.regexp := Go.Star Go.AnyCharNotNL.

(** A second full record, a minute later. *)
Definition h_full_later : Historical.record :=
  {| Historical.Data := "0,0,4,30,31,32,120,45000,0,3600,18,0,1,1,12.4,0,12.5,0,25,0.5,21";
     Historical.RecordNumber := 5;
     Historical.Timestamp := "2023-11-14 22:14:20" |}.

(** A poll that brings one position record, its text, and the state after
    a request that came in before the poll and was served after it. *)
Definition polled_example : Protocol.fetched :=
  Protocol.FetchBody "[...]" (Some [l_good]).

Definition text_example : string :=
  "ovms_L_ms_v_pos_latitude 47.1 1700000060000" +:+ Go.nl
  +:+ "ovms_L_ms_v_pos_longitude 8.5 1700000060000" +:+ Go.nl.

Definition served_example : Cache.state :=
  Cache.St text_example (String.length text_example) false 0 Cache.Fetching
    [Cache.Respond [""] text_example] [text_example; ""].

(** A text that is whole: the initial empty text, or what one call of
    [fetchMetrics] returned. *)
Definition whole_text `{Go.UnicodeTables} (text : string) : Prop :=
  text = "" ∨ ∃ f, Protocol.fetchMetrics f = Done text.

(** *** Records of the protocol loop, stated apart from the loop *)

(** A record the protocol loop decodes: its timestamp parses and its code
    has a schema.  The loop passes over the others. *)
Definition decoded (rec : Protocol.record) : bool :=
  match Go.ParseInLocation (Protocol.MsgTime rec),
        Protocol.metricsMap !! Protocol.Code rec with
  | Some _, Some _ => true
  | _, _ => false
  end.

(** A record that cannot overrun its schema: it is passed over, or its
    payload has no more fields than the schema has slots. *)
Definition fits (rec : Protocol.record) : bool :=
  match Go.ParseInLocation (Protocol.MsgTime rec),
        Protocol.metricsMap !! Protocol.Code rec with
  | Some _, Some m =>
      (length (Go.Split (Protocol.Msg rec) ",") <=? length m)%nat
  | _, _ => true
  end.

(** Lines, each followed by a line feed. *)
Fixpoint terminated (lines : list string) : string :=
  match lines with
  | [] => ""
  | line :: rest => line +:+ Go.nl +:+ terminated rest
  end.

(** A text without a line feed in it. *)
Fixpoint oneLine (s : string) : bool :=
  match s with
  | EmptyString => true
  | String c rest => negb (Go.byte_val c =? 10) && oneLine rest
  end.

(** A record of a message type that has no schema, with a payload longer
    than any schema. *)
Definition z_unknown : Protocol.record :=
  {| Protocol.Code := "Z";
     Protocol.Msg := "f1,f2,f3,f4,f5,f6,f7,f8,f9,f10,f11,f12,f13,f14,f15,f16,f17,f18,f19,f20,f21,f22,f23,f24,f25,f26,f27,f28,f29,f30,f31,f32,f33,f34,f35,f36,f37,f38,f39,f40,f41,f42";
     Protocol.MsgTime := "2023-11-14 22:13:20";
     Protocol.Paranoid := 0;
     Protocol.PToken := "" |}.

(** A tyre record with an empty payload. *)
Definition w_empty : Protocol.record :=
  {| Protocol.Code := "W";
     Protocol.Msg := "";
     Protocol.MsgTime := "2023-11-14 22:13:20";
     Protocol.Paranoid := 0;
     Protocol.PToken := "" |}.

(** A text without the byte [sep] in it. *)
Fixpoint lacks (sep : ascii) (s : string) : bool :=
  match s with
  | EmptyString => true
  | String c rest => negb (Ascii.eqb c sep) && lacks sep rest
  end.

(** A tyre record whose second field has a line feed in it, and the text
    of the batch made of it. *)
Definition w_line_feed : Protocol.record :=
  {| Protocol.Code := "W";
     Protocol.Msg := "4,F" +:+ Go.nl +:+ "L";
     Protocol.MsgTime := "2023-11-14 22:13:20";
     Protocol.Paranoid := 0;
     Protocol.PToken := "" |}.

Definition line_feed_text : string :=
  "ovms_W_wheels_count 4 1700000000000" +:+ Go.nl
  +:+ "ovms_W_wheel1{value=" +:+ String Go.dquote "F\nL"
  +:+ String Go.dquote "} 1 1700000000000" +:+ Go.nl.

(** A text the poller publishes: a non-empty result of [fetchMetrics]. *)
Definition fetched_text `{Go.UnicodeTables} (m : string) : Prop :=
  m ≠ "" ∧ ∃ f, Protocol.fetchMetrics f = Done m.

(** The text the poller is about to publish is such a text. *)
Definition pending_ok `{Go.UnicodeTables} (s : Cache.state) : Prop :=
  match Cache.refresh s with
  | Cache.Fetching => True
  | Cache.WantLock m | Cache.Storing m _ _ => fetched_text m
  end.

(** The bytes [url.QueryEscape] writes: the unreserved ones, [+] and [%]. *)
Definition queryByte (c : ascii) : bool :=
  negb (Go.shouldEscape c) || Ascii.eqb c "+" || Ascii.eqb c "%".

Fixpoint queryBytes (s : string) : bool :=
  match s with
  | EmptyString => true
  | String c rest => queryByte c && queryBytes rest
  end.

(** A payload of a D record with 14 fields. *)
Definition d_payload : string := "0,0,5,30,31,32,120,45000,0,3600,18,0,1,1".

(** A historical record whose voltage field has a line feed in it. *)
Definition h_line_feed : Historical.record :=
  {| Historical.Data :=
       "0,0,4,30,31,32,120,45000,0,3600,18,0,1,1,12.6" +:+ Go.nl
       +:+ "up 1,0,12.5,0,25,0.5,21";
     Historical.RecordNumber := 6;
     Historical.Timestamp := "2023-11-14 22:13:20" |}.

(** [json.Unmarshal] where no bytes are JSON, for the examples. *)
Definition no_json {A : Type} (data : string) : option (list A) := None.

(** A historical record whose voltage field holds a line feed followed by
    the name and the value of another metric. *)
Definition h_injected : Historical.record :=
  {| Historical.Data :=
       "0,0,4,30,31,32,120,45000,0,3600,18,0,1,1,12.6" +:+ Go.nl
       +:+ "v_m_temp 99,0,12.5,0,25,0.5,21";
     Historical.RecordNumber := 7;
     Historical.Timestamp := "2023-11-14 22:13:20" |}.

(** * Properties *)

(** ** The library model on sample inputs *)

Example ParseFloat_accepts :
  forallb Go.ParseFloat_ok
    ["42.5"; "0"; "-1"; "+.5"; "5."; "1e10"; "1E-3"; "Inf"; "-infinity"; "NaN";
     "0x1p-2"; "0X1.8P1"; "1_000.5"; "1.7976931348623157e308"; "1e-400"]
  = true.
Proof. vm_compute. reflexivity. Qed.

Example ParseFloat_rejects :
  existsb Go.ParseFloat_ok
    ["stopped"; ""; "."; "e5"; "1e"; "1e+"; "--1"; "1,5"; " 1"; "1 "; "+nan";
     "infi"; "0x"; "0x1"; "1__0"; "_1"; "1_"; "1e400"; "1.8e308"; "0x1p1024";
     "123_.5e+12"; "123._5e+12"; "123.5_e+12"; "123.5e+_12"; "123.5e+12_";
     "K"; "FL"]
  = false.
Proof. vm_compute. reflexivity. Qed.

Example ParseInLocation_samples :
  map (λ value, Go.UnixMilli <$> Go.ParseInLocation value)
    ["2023-11-14 22:13:20"; "1970-01-01 00:00:00"; "2024-02-29 12:00:00";
     "2023-11-14 22:13:20.5"; "2023-11-14 2:13:20";
     "2023-02-29 00:00:00"; "2023-11-14T22:13:20"; "2023-11-14 22:13:20Z";
     ""; "2023-13-01 00:00:00"; "2023-11-14 24:00:00"; "2023-1-14 22:13:20";
     "14/11/2023 22:13"]
  = [Some 1700000000000; Some 0; Some 1709208000000;
     Some 1700000000500; Some 1699928000000;
     None; None; None; None; None; None; None; None].
Proof. vm_compute. reflexivity. Qed.

Example MatchString_samples :
  map (Go.MatchString Historical.filterFlag)
    ["v_b_12v_voltage"; "v_b_12v_voltage_ref"; "v_m_temp"; ""]
  = [true; false; false; false]
  ∧ map (Go.MatchString (Go.Literal "v_b"))
      ["v_b_12v_voltage"; "v_b_12v_voltage_ref"; "v_m_temp"; ""]
    = [true; true; false; false]
  ∧ map (Go.MatchString match_all) ["v_b_12v_voltage"; "v_m_temp"; ""]
    = [true; true; true].
Proof. vm_compute. done. Qed.

Example Split_three : Go.Split "12.5,,on" "," = ["12.5"; ""; "on"].
Proof. reflexivity. Qed.

Example Split_empty : Go.Split "" "," = [""].
Proof. reflexivity. Qed.

Example Join_three : Go.Join ["a"; "b"; "c"] "," = "a,b,c".
Proof. reflexivity. Qed.

Example itoa_neg : Go.itoa (-1700) = "-1700".
Proof. reflexivity. Qed.

Example Quote_plain : Go.Quote (H := narrow_tables) "stopped" = String Go.dquote ("stopped" +:+ String Go.dquote "").
Proof. reflexivity. Qed.

Example Quote_tab : Go.Quote (H := narrow_tables) (String (ascii_of_nat 9) "x") = String Go.dquote ("\tx" +:+ String Go.dquote "").
Proof. reflexivity. Qed.

Example Quote_bad_utf8 : Go.Quote (H := narrow_tables) (String (ascii_of_nat 255) "") = String Go.dquote ("\xff" +:+ String Go.dquote "").
Proof. reflexivity. Qed.

Example Quote_latin1 :
  Go.Quote (H := narrow_tables) (String (ascii_of_nat 195) (String (ascii_of_nat 169) ""))
  = String Go.dquote (String (ascii_of_nat 195) (String (ascii_of_nat 169) (String Go.dquote ""))).
Proof. reflexivity. Qed.

(** ** Strings *)

Lemma ReplaceAll_length s old new :
  String.length (Go.ReplaceAll s old new) = String.length s.
Proof. induction s as [|c s IH]; simpl; [done | by rewrite IH]. Qed.

Lemma ReplaceAll_get s old new k :
  String.get k (Go.ReplaceAll s old new)
  = (λ c, if Ascii.eqb c old then new else c) <$> String.get k s.
Proof.
  revert k. induction s as [|c s IH]; intros k; simpl; [done |].
  destruct k as [|k]; simpl; [done | apply IH].
Qed.

Lemma ReplaceAll_fixed s old new :
  (∀ k, String.get k s ≠ Some old) → Go.ReplaceAll s old new = s.
Proof.
  induction s as [|c s IH]; intros Hno; simpl; [done |].
  destruct (Ascii.eqb_spec c old) as [->|_].
  - by destruct (Hno 0%nat).
  - f_equal. apply IH. intros k. apply (Hno (S k)).
Qed.

Lemma ReplaceAll_gone s old new k :
  old ≠ new → String.get k (Go.ReplaceAll s old new) ≠ Some old.
Proof.
  intros Hne. rewrite ReplaceAll_get.
  destruct (String.get k s) as [c|]; simpl; [|done].
  destruct (Ascii.eqb_spec c old); congruence.
Qed.

Lemma ReplaceAll_idem s old new :
  old ≠ new →
  Go.ReplaceAll (Go.ReplaceAll s old new) old new = Go.ReplaceAll s old new.
Proof. intros Hne. apply ReplaceAll_fixed. intros k. by apply ReplaceAll_gone. Qed.

(** C7. [normalize] maps each name to the name with every [.] replaced by
    [_]: the result has the same length, byte [k] is [_] where the name
    has [.] and the name's byte elsewhere, no [.] is left, and normalizing
    again changes nothing. *)
Theorem C7_normalize_idempotent (input : list string) :
  Historical.normalize (Historical.normalize input) = Historical.normalize input
  ∧ length (Historical.normalize input) = length input
  ∧ ∀ (i : nat) (x : string), input !! i = Some x →
      ∃ y, Historical.normalize input !! i = Some y
        ∧ String.length y = String.length x
        ∧ (∀ k c, String.get k x = Some c →
             String.get k y = Some (if Ascii.eqb c "." then "_"%char else c))
        ∧ (∀ k, String.get k y ≠ Some "."%char)
        ∧ Historical.normalize [y] = [y].
Proof.
  unfold Historical.normalize. split; [|split].
  - rewrite map_map. apply map_ext. intros x. by apply ReplaceAll_idem.
  - apply length_map.
  - intros i x Hx. exists (Go.ReplaceAll x "." "_").
    split; [by rewrite list_lookup_fmap, Hx |].
    split; [apply ReplaceAll_length |].
    split; [|split].
    + intros k c Hc. by rewrite ReplaceAll_get, Hc.
    + intros k. by apply ReplaceAll_gone.
    + simpl. f_equal. by apply ReplaceAll_idem.
Qed.

(** ** The sample formatter *)


Lemma byte_of_val c : Go.byte_of (Go.byte_val c) = c.
Proof.
  unfold Go.byte_of, Go.byte_val. rewrite N2Z.id. apply ascii_N_embedding.
Qed.

Lemma quoteBody_plain `{Go.UnicodeTables} s :
  plain s = true → Go.quoteBody 0 s = s.
Proof.
  induction s as [|c s IH]; simpl; [done |].
  intros [Hc Hs]%andb_prop. unfold plainByte in Hc.
  apply andb_prop in Hc as [Hc H92]. apply andb_prop in Hc as [Hc H34].
  apply andb_prop in Hc as [Hlo Hhi].
  apply Z.leb_le in Hlo, Hhi.
  apply negb_true_iff, Z.eqb_neq in H92, H34.
  destruct (Z.ltb_spec (Go.byte_val c) 128) as [_|?]; [|lia].
  simpl.
  destruct (Z.eqb_spec (Go.byte_val c) Go.RuneError) as [E|_];
    [unfold Go.RuneError in E; lia |].
  unfold Go.appendEscapedRune, Go.IsPrint.
  destruct (Z.eqb_spec (Go.byte_val c) 34) as [?|_]; [lia |].
  destruct (Z.eqb_spec (Go.byte_val c) 92) as [?|_]; [lia |].
  destruct (Z.leb_spec (Go.byte_val c) 255) as [_|?]; [|lia].
  destruct (Z.leb_spec 32 (Go.byte_val c)) as [_|?]; [|lia].
  destruct (Z.leb_spec (Go.byte_val c) 126) as [_|?]; [|lia].
  simpl. unfold Go.AppendRune.
  destruct (Z.leb_spec 0 (Go.byte_val c)) as [_|?]; [|lia].
  destruct (Z.leb_spec (Go.byte_val c) 127) as [_|?]; [|lia].
  simpl. rewrite byte_of_val. unfold String.app. simpl. f_equal. by apply IH.
Qed.

Lemma Quote_plain_value `{Go.UnicodeTables} s :
  plain s = true → Go.Quote s = String Go.dquote (s +:+ String Go.dquote "").
Proof. intros Hs. unfold Go.Quote. by rewrite quoteBody_plain. Qed.

(** C3 (as amended). [promMetric] has two line shapes, chosen by whether
    [strconv.ParseFloat] accepts the raw value: [name value ts] when it
    does, and [name{value=Q} 1 ts] when it does not, where [Q] is the raw
    value as [%q] writes it; [Q] is the raw value between double quotes
    when the value is printable ASCII without double quote or backslash. *)
Theorem C3_promMetric_shapes `{Go.UnicodeTables} (name val : string) (ts : Go.Time) :
  (Go.ParseFloat_ok val = true →
     Protocol.promMetric name val ts
     = name +:+ " " +:+ val +:+ " " +:+ Go.itoa (Go.UnixMilli ts))
  ∧ (Go.ParseFloat_ok val = false →
     Protocol.promMetric name val ts
     = name +:+ "{value=" +:+ Go.Quote val +:+ "} 1 "
       +:+ Go.itoa (Go.UnixMilli ts))
  ∧ (plain val = true →
     Go.Quote val = String Go.dquote (val +:+ String Go.dquote "")).
Proof.
  unfold Protocol.promMetric. split; [|split].
  - by intros ->.
  - by intros ->.
  - apply Quote_plain_value.
Qed.


Lemma C3_promMetric_shapes_witness :
  Protocol.promMetric (H := narrow_tables) "ovms_S_ms_v_bat_soc" "42.5" ts_example
  = "ovms_S_ms_v_bat_soc 42.5 1700000000000"
  ∧ Protocol.promMetric (H := narrow_tables) "ovms_S_ms_v_charge_state" "stopped"
      ts_example
    = "ovms_S_ms_v_charge_state{value=" +:+ Go.Quote (H := narrow_tables) "stopped"
      +:+ "} 1 1700000000000"
  ∧ Go.Quote (H := narrow_tables) "stopped"
    = String Go.dquote ("stopped" +:+ String Go.dquote "").
Proof.
  split; [|split].
  - apply (C3_promMetric_shapes (H := narrow_tables)
             "ovms_S_ms_v_bat_soc" "42.5" ts_example).
    vm_compute. reflexivity.
  - apply (C3_promMetric_shapes (H := narrow_tables)
             "ovms_S_ms_v_charge_state" "stopped" ts_example).
    vm_compute. reflexivity.
  - apply (C3_promMetric_shapes (H := narrow_tables)
             "ovms_S_ms_v_charge_state" "stopped" ts_example).
    vm_compute. reflexivity.
Defined.


(** C3, counterexample.  The value [quoted_value] does not parse as a
    float, and its line is not the value between two double quotes: [%q]
    writes a backslash before the inner quote. *)
Lemma C3_counterexample :
  Go.ParseFloat_ok quoted_value = false
  ∧ Protocol.promMetric (H := narrow_tables) "m" quoted_value ts_example
    ≠ "m{value=" +:+ String Go.dquote (quoted_value +:+ String Go.dquote "")
      +:+ "} 1 1700000000000"
  ∧ Protocol.promMetric (H := narrow_tables) "m" quoted_value ts_example
    = "m{value="
      +:+ String Go.dquote
            (String "a" (String Go.backslash (String Go.dquote (String "b" "")))
             +:+ String Go.dquote "")
      +:+ "} 1 1700000000000".
Proof. split; [|split]; vm_compute; congruence. Qed.

(** The historical and the file exporter format the line in place and do
    not look at the value. *)
Example historical_line_is_plain :
  Go.ParseFloat_ok "stopped" = false
  ∧ Historical.sampleLine "v_m_temp" "stopped" ts_example
    = "v_m_temp stopped 1700000000000".
Proof. split; vm_compute; reflexivity. Qed.

(** ** The protocol exporter: the record loop *)

Lemma filter_Forall_id {A} (P : A → Prop) `{∀ x, Decision (P x)} (l : list A) :
  Forall P l → filter P l = l.
Proof.
  induction 1 as [|x l Hx _ IH]; [done |].
  rewrite filter_cons_True by done. by f_equal.
Qed.

Section ProtocolLoop.
Context `{Go.UnicodeTables}.

Lemma metricsMap_supported code m :
  Protocol.metricsMap !! code = Some m →
  (code = "S" ∧ m = Protocol.sMetrics) ∨ (code = "D" ∧ m = Protocol.dMetrics)
  ∨ (code = "L" ∧ m = Protocol.lMetrics) ∨ (code = "W" ∧ m = Protocol.wMetrics).
Proof.
  unfold Protocol.metricsMap. simpl. intros Hm.
  repeat (apply lookup_insert_Some in Hm as [[<- <-]|[_ Hm]]; [by eauto 6 |]).
  by rewrite lookup_empty in Hm.
Qed.

Lemma schema_slots_named code m :
  Protocol.metricsMap !! code = Some m → Forall (λ name, name ≠ "") m.
Proof.
  intros Hm. apply metricsMap_supported in Hm.
  destruct Hm as [[_ ->]|[[_ ->]|[[_ ->]|[_ ->]]]];
    repeat (constructor; [done |]); constructor.
Qed.

(** The fields fit the table from slot [i] on: one line per field, in
    order. *)
Lemma rangeData_fits code m ts data : ∀ i metrics,
  (i + length data ≤ length m)%nat →
  Protocol.rangeData code m ts i data metrics
  = Done (metrics ++ zip_with (line_of code ts) (drop i m) data).
Proof.
  induction data as [|val rest IH]; intros i metrics Hlen; simpl in *.
  - destruct (drop i m); simpl; by rewrite app_nil_r.
  - destruct (m !! i) as [name|] eqn:Hi.
    + rewrite IH by lia. rewrite (drop_S _ _ _ Hi). simpl.
      by rewrite <- app_assoc.
    + apply lookup_ge_None in Hi. lia.
Qed.

(** More fields than slots are left: the loop runs into [m[i]] out of
    range. *)
Lemma rangeData_overruns code m ts data : ∀ i metrics,
  (i ≤ length m)%nat → (length m < i + length data)%nat →
  Protocol.rangeData code m ts i data metrics = Panic.
Proof.
  induction data as [|val rest IH]; intros i metrics Hi Hlen; simpl in *.
  - lia.
  - destruct (m !! i) as [name|] eqn:Hm; [|done].
    apply lookup_lt_Some in Hm. apply IH; lia.
Qed.

Lemma Protocol_rangeRecords_app a b metrics :
  Protocol.rangeRecords (a ++ b) metrics
  = Protocol.rangeRecords a metrics ≫= Protocol.rangeRecords b.
Proof.
  revert metrics. induction a as [|rec a IH]; intros metrics; simpl; [done |].
  destruct (Protocol.decodeRecord rec metrics); simpl; auto.
Qed.

End ProtocolLoop.

(** C6. For a supported code and a payload with as many fields as the
    schema of the code has slots, decoding the payload appends one line per
    slot, the line of slot [i] carrying the name of slot [i] and field [i],
    in slot order; no slot of the four schemas is unnamed, so these are the
    non-empty slots, and their number is the number of lines. *)
Theorem C6_one_sample_per_slot `{Go.UnicodeTables}
    (code msg : string) (m : list string) (ts : Go.Time) (metrics : list string) :
  Protocol.metricsMap !! code = Some m →
  length (Go.Split msg ",") = length m →
  let samples := zip m (Go.Split msg ",") in
  Protocol.decodePayload code msg ts metrics
  = Done (metrics
          ++ map (λ '(name, val),
                Protocol.promMetric ("ovms_" +:+ code +:+ "_" +:+ name) val ts)
               samples)
  ∧ samples.*1 = filter (λ name, name ≠ "") m
  ∧ samples.*2 = Go.Split msg ",".
Proof.
  intros Hm Hlen samples. unfold Protocol.decodePayload. rewrite Hm.
  rewrite rangeData_fits by (simpl; lia). rewrite drop_0.
  split; [|split].
  - do 2 f_equal. rewrite zip_with_zip. apply map_ext. by intros [name val].
  - unfold samples. rewrite fst_zip by lia.
    symmetry. apply filter_Forall_id. by eapply schema_slots_named.
  - unfold samples. rewrite snd_zip by lia. done.
Qed.

(** A tyre record: code W and the seventeen fields of its schema. *)
Lemma C6_one_sample_per_slot_witness :
  Protocol.decodePayload (H := narrow_tables) "W"
    "4,FL,FR,RL,RR,4,230.0,1,4,21.5,1,0,,0,4,0,0" ts_example []
  = Done
      ([] ++ map (λ '(name, val),
          Protocol.promMetric (H := narrow_tables)
            ("ovms_" +:+ "W" +:+ "_" +:+ name) val ts_example)
         (zip Protocol.wMetrics
            (Go.Split "4,FL,FR,RL,RR,4,230.0,1,4,21.5,1,0,,0,4,0,0" ","))).
Proof.
  destruct (C6_one_sample_per_slot (H := narrow_tables) "W"
              "4,FL,FR,RL,RR,4,230.0,1,4,21.5,1,0,,0,4,0,0" Protocol.wMetrics
              ts_example []) as [Hlines _].
  - vm_compute. reflexivity.
  - vm_compute. reflexivity.
  - exact Hlines.
Defined.

(** ** The historical exporter: the record loop *)

Lemma grown_nil group : grown group [] = group.
Proof. destruct group; simpl; [by rewrite app_nil_r | done]. Qed.

Lemma grown_app group l1 l2 : grown (grown group l1) l2 = grown group (l1 ++ l2).
Proof.
  destruct group as [l0|]; simpl; [by rewrite app_assoc |].
  destruct l1; simpl; [by destruct l2 | done].
Qed.

Lemma grown_None group lines : grown group lines = None ↔ group = None ∧ lines = [].
Proof.
  destruct group, lines; simpl; (split; [try done | by intros [??]]).
Qed.

(** The fields fit the table from slot [i] on: every group grows by the
    lines of its slots when the filter matches its name, and stays as it
    was otherwise. *)
Lemma Historical_rangeData_fits filter ts data : ∀ i metrics,
  (i + length data ≤ length Historical.dMetrics)%nat →
  ∃ metrics',
    Historical.rangeData filter ts i data metrics = Done metrics'
    ∧ ∀ m, metrics' !! m
           = grown (metrics !! m)
               (if Go.MatchString filter m
                then slotLines m ts (drop i Historical.dMetrics) data else []).
Proof.
  induction data as [|val rest IH]; intros i metrics Hlen.
  - exists metrics. split; [done |]. intros m. unfold slotLines.
    rewrite zip_with_nil_r. simpl. destruct (Go.MatchString filter m); by rewrite grown_nil.
  - change (length (val :: rest)) with (S (length rest)) in Hlen. simpl.
    destruct (Historical.dMetrics !! i) as [name|] eqn:Hi;
      [|apply lookup_ge_None in Hi; lia].
    destruct (IH (S i)
                (if Go.MatchString filter name
                 then <[name := (metrics !!! name)
                                ++ [Historical.sampleLine name val ts]]> metrics
                 else metrics)) as (metrics' & Hrun & Hgroups); [lia |].
    exists metrics'. split; [done |]. intros m. rewrite Hgroups.
    rewrite (drop_S _ _ _ Hi). unfold slotLines at 2. simpl.
    fold (slotLines m ts (drop (S i) Historical.dMetrics) rest).
    destruct (decide (name = m)) as [->|Hne].
    + destruct (Go.MatchString filter m); [|done].
      rewrite lookup_insert_eq, lookup_total_alt.
      destruct (metrics !! m) as [l0|]; simpl; by rewrite <- ?app_assoc.
    + simpl. destruct (Go.MatchString filter name); [|done].
      by rewrite lookup_insert_ne.
Qed.

Lemma Historical_rangeData_overruns filter ts data : ∀ i metrics,
  (i ≤ length Historical.dMetrics)%nat →
  (length Historical.dMetrics < i + length data)%nat →
  Historical.rangeData filter ts i data metrics = Panic.
Proof.
  induction data as [|val rest IH]; intros i metrics Hi Hlen.
  - change (length (@nil string)) with 0%nat in Hlen. lia.
  - change (length (val :: rest)) with (S (length rest)) in Hlen. simpl.
    destruct (Historical.dMetrics !! i) as [name|] eqn:Hm; [|done].
    apply lookup_lt_Some in Hm. apply IH; lia.
Qed.

Lemma Historical_rangeRecords_app filter a b metrics :
  Historical.rangeRecords filter (a ++ b) metrics
  = Historical.rangeRecords filter a metrics ≫= Historical.rangeRecords filter b.
Proof.
  revert metrics. induction a as [|rec a IH]; intros metrics; simpl; [done |].
  destruct (Historical.decodeRecord filter rec metrics); simpl; auto.
Qed.

Lemma Historical_decodeRecord_groups filter rec metrics :
  decodable rec = true →
  ∃ metrics',
    Historical.decodeRecord filter rec metrics = Done metrics'
    ∧ ∀ m, metrics' !! m = grown (metrics !! m) (recordLines filter m rec).
Proof.
  unfold decodable, Historical.decodeRecord, recordLines.
  destruct (Go.ParseInLocation (Historical.Timestamp rec)) as [ts|]; [|done].
  intros Hlen%Nat.leb_le.
  destruct (Historical_rangeData_fits filter ts
              (Go.Split (Historical.Data rec) ",") 0 metrics)
    as (metrics' & Hrun & Hgroups); [lia |].
  exists metrics'. split; [done |]. intros m. by rewrite Hgroups, drop_0.
Qed.

(** A batch of decodable records runs to the end and builds, for every
    name, the group of its lines in record order. *)
Lemma Historical_rangeRecords_groups filter records : ∀ metrics,
  forallb decodable records = true →
  ∃ metrics',
    Historical.rangeRecords filter records metrics = Done metrics'
    ∧ ∀ m, metrics' !! m = grown (metrics !! m) (batchLines filter m records).
Proof.
  induction records as [|rec rest IH]; intros metrics Hok; simpl in *.
  - exists metrics. split; [done |]. intros m. by rewrite grown_nil.
  - apply andb_prop in Hok as [Hrec Hrest].
    destruct (Historical_decodeRecord_groups filter rec metrics Hrec)
      as (mid & -> & Hmid).
    destruct (IH mid Hrest) as (metrics' & Hrun & Hgroups).
    exists metrics'. split; [done |]. intros m.
    rewrite Hgroups, Hmid, grown_app. done.
Qed.

(** The loop gets through a batch only if every record is decodable. *)
Lemma Historical_rangeRecords_Done filter records : ∀ metrics metrics',
  Historical.rangeRecords filter records metrics = Done metrics' →
  forallb decodable records = true.
Proof.
  induction records as [|rec rest IH]; intros metrics metrics'; simpl; [done |].
  destruct (Historical.decodeRecord filter rec metrics) as [mid| |] eqn:Hrec;
    simpl; [|done..].
  intros Hrest. rewrite (IH _ _ Hrest), andb_true_r.
  unfold Historical.decodeRecord in Hrec. unfold decodable.
  destruct (Go.ParseInLocation (Historical.Timestamp rec)) as [ts|]; [|done].
  apply Nat.leb_le. apply Nat.nlt_ge. intros Hlt.
  rewrite Historical_rangeData_overruns in Hrec; [done | lia | lia].
Qed.

(** ** Surplus fields *)

(** C1 (what the code does). A payload with more fields than the schema
    has slots is not decoded with the surplus skipped: the loop indexes the
    name table out of range and the run panics.  In the protocol exporter
    this holds for every supported code, in the historical and the file
    exporter for every filter; the rest of the batch is not processed and
    no text is returned. *)
Theorem C1_surplus_fields_panic `{Go.UnicodeTables} :
  (∀ (rec : Protocol.record) m ts rest data,
     Protocol.metricsMap !! Protocol.Code rec = Some m →
     Go.ParseInLocation (Protocol.MsgTime rec) = Some ts →
     (length m < length (Go.Split (Protocol.Msg rec) ","))%nat →
     data ≠ "" →
     Protocol.decodePayload (Protocol.Code rec) (Protocol.Msg rec) ts [] = Panic
     ∧ Protocol.fetchMetrics (Protocol.FetchBody data (Some (rec :: rest)))
       = Panic)
  ∧ (∀ filter (rec : Historical.record) ts rest,
       Go.ParseInLocation (Historical.Timestamp rec) = Some ts →
       (length Historical.dMetrics
        < length (Go.Split (Historical.Data rec) ","))%nat →
       Historical.rangeRecords filter (rec :: rest) ∅ = Panic
       ∧ ∀ o, Historical.snapshot filter (rec :: rest) o → o = Panic).
Proof.
  split.
  - intros rec m ts rest data Hm Hts Hlen Hdata.
    assert (Protocol.decodePayload (Protocol.Code rec) (Protocol.Msg rec) ts []
            = Panic) as Hpanic.
    { unfold Protocol.decodePayload. rewrite Hm.
      apply rangeData_overruns; lia. }
    split; [done |].
    unfold Protocol.fetchMetrics.
    destruct data as [|c data]; [done |]. simpl.
    unfold Protocol.decodeRecord. by rewrite Hts, Hpanic.
  - intros filter rec ts rest Hts Hlen.
    assert (Historical.rangeRecords filter (rec :: rest) ∅ = Panic) as Hpanic.
    { simpl. unfold Historical.decodeRecord. rewrite Hts.
      rewrite Historical_rangeData_overruns; [done | lia | lia]. }
    split; [done |]. intros o. unfold Historical.snapshot. by rewrite Hpanic.
Qed.

Lemma C1_surplus_fields_panic_witness :
  Protocol.fetchMetrics (H := narrow_tables)
    (Protocol.FetchBody "[...]" (Some [w_surplus; w_good])) = Panic
  ∧ Historical.rangeRecords Historical.filterFlag [h_surplus; h_full] ∅ = Panic.
Proof.
  destruct (C1_surplus_fields_panic (H := narrow_tables)) as [Hprotocol Hhistorical].
  split.
  - apply (Hprotocol w_surplus Protocol.wMetrics ts_example [w_good] "[...]").
    + vm_compute. reflexivity.
    + vm_compute. reflexivity.
    + vm_compute. lia.
    + discriminate.
  - apply (Hhistorical Historical.filterFlag h_surplus ts_example [h_full]).
    + vm_compute. reflexivity.
    + vm_compute. lia.
Defined.

(** ** Timestamps that do not parse *)

(** C4. Each exporter follows one policy for a record whose timestamp does
    not parse.  The protocol exporter skips that record: the batch yields
    what it yields with the record taken out.  The historical and the file
    exporter abort: the run does not complete and no snapshot comes out
    (the process is ended as soon as the records before it are through). *)
Theorem C4_bad_timestamp_policy `{Go.UnicodeTables} :
  (∀ (before after : list Protocol.record) (bad : Protocol.record) metrics,
     Go.ParseInLocation (Protocol.MsgTime bad) = None →
     Protocol.rangeRecords (before ++ bad :: after) metrics
     = Protocol.rangeRecords (before ++ after) metrics)
  ∧ (∀ filter (before after : list Historical.record) (bad : Historical.record),
       Go.ParseInLocation (Historical.Timestamp bad) = None →
       (∀ metrics,
          completes (Historical.rangeRecords filter (before ++ bad :: after) metrics)
          = false)
       ∧ (∀ metrics mid,
            Historical.rangeRecords filter before metrics = Done mid →
            Historical.rangeRecords filter (before ++ bad :: after) metrics
            = Fatal)
       ∧ (∀ o, Historical.snapshot filter (before ++ bad :: after) o →
               ∀ r, o ≠ Done r)
       ∧ (∀ b o,
            FileExporter.main filter
              (FileExporter.FileBytes b (Some (before ++ bad :: after))) o →
            ∀ r, o ≠ Done r)).
Proof.
  split.
  - intros before after bad metrics Hbad.
    rewrite !Protocol_rangeRecords_app.
    destruct (Protocol.rangeRecords before metrics) as [mid| |]; simpl; [|done..].
    unfold Protocol.decodeRecord. by rewrite Hbad.
  - intros filter before after bad Hbad.
    assert (∀ metrics,
      completes (Historical.rangeRecords filter (before ++ bad :: after) metrics)
      = false) as Hnot.
    { intros metrics. rewrite Historical_rangeRecords_app.
      destruct (Historical.rangeRecords filter before metrics); simpl; [|done..].
      unfold Historical.decodeRecord. by rewrite Hbad. }
    assert (∀ o, Historical.snapshot filter (before ++ bad :: after) o →
                 ∀ r, o ≠ Done r) as Hsnap.
    { intros o. unfold Historical.snapshot. specialize (Hnot ∅).
      destruct (Historical.rangeRecords filter (before ++ bad :: after) ∅);
        [done | by intros -> | by intros ->]. }
    split; [done |]. split; [|split; [done |]].
    + intros metrics mid Hbefore. rewrite Historical_rangeRecords_app, Hbefore.
      simpl. unfold Historical.decodeRecord. by rewrite Hbad.
    + intros b o. simpl. apply Hsnap.
Qed.

Lemma C4_bad_timestamp_policy_witness :
  Protocol.rangeRecords (H := narrow_tables) ([w_good] ++ w_bad_time :: [l_good]) []
  = Protocol.rangeRecords (H := narrow_tables) ([w_good] ++ [l_good]) []
  ∧ Historical.rangeRecords Historical.filterFlag
      ([h_full] ++ h_bad_time :: [h_full]) ∅ = Fatal.
Proof.
  destruct (C4_bad_timestamp_policy (H := narrow_tables)) as [Hskip Habort].
  split.
  - apply (Hskip [w_good] [l_good] w_bad_time []). vm_compute. reflexivity.
  - destruct (Habort Historical.filterFlag [h_full] [h_full] h_bad_time)
      as (_ & Hfatal & _); [vm_compute; reflexivity |].
    destruct (Historical_rangeRecords_groups Historical.filterFlag [h_full] ∅)
      as (mid & Hmid & _); [vm_compute; reflexivity |].
    exact (Hfatal ∅ mid Hmid).
Defined.

Example skip_policy_lines :
  Protocol.rangeRecords (H := narrow_tables) [w_good; w_bad_time; l_good] []
  = Done ["ovms_W_wheels_count 4 1700000000000";
          "ovms_W_wheel1{value=" +:+ Go.Quote (H := narrow_tables) "FL"
            +:+ "} 1 1700000000000";
          "ovms_L_ms_v_pos_latitude 47.1 1700000060000";
          "ovms_L_ms_v_pos_longitude 8.5 1700000060000"].
Proof. vm_compute. reflexivity. Qed.

(** ** The polling loop and the cached text *)

Section Polling.
Context `{Go.UnicodeTables}.

Lemma append_nl_nonempty s : s +:+ Go.nl ≠ "".
Proof. by destruct s. Qed.

(** A body that was fetched and decoded never gives the empty text, not
    even for no records at all: the text ends in a line feed. *)
Lemma fetchMetrics_decoded_nonempty data records r :
  data ≠ "" →
  Protocol.fetchMetrics (Protocol.FetchBody data (Some records)) = Done r →
  r ≠ "".
Proof.
  intros Hdata. unfold Protocol.fetchMetrics.
  destruct data as [|c data]; [done |]. simpl.
  destruct (Protocol.rangeRecords records []) as [metrics| |]; simpl; [|done..].
  intros [= <-]. apply append_nl_nonempty.
Qed.

(** A batch in which the loop decodes no record gives no line. *)
Lemma rangeRecords_none_decoded records : ∀ metrics,
  forallb (λ rec, negb (decoded rec)) records = true →
  Protocol.rangeRecords records metrics = Done metrics.
Proof.
  induction records as [|rec rest IH]; intros metrics Hnone; [done |].
  simpl in Hnone. apply andb_prop in Hnone as [Hrec Hrest].
  apply negb_true_iff in Hrec. simpl.
  unfold Protocol.decodeRecord, Protocol.decodePayload. unfold decoded in Hrec.
  destruct (Go.ParseInLocation (Protocol.MsgTime rec)); [|by apply IH].
  destruct (Protocol.metricsMap !! Protocol.Code rec); [done | by apply IH].
Qed.

End Polling.

(** C2 (what the code does). A poll whose fetch fails (nil, or a body of
    no bytes) or whose body does not decode as JSON leaves the cached text
    as it was, byte for byte, and the cached text changes only when
    [fetchMetrics] returns a text that is not empty.  But a body that
    decodes to a batch without a sample, the empty batch or a batch of
    records that the loop all passes over, does not give the empty text:
    [strings.Join] of no lines is empty and [+ "\n"] makes it the single
    line feed, which passes the test [m != ""] of [main] and replaces the
    cached text, whatever that was. *)
Theorem C2_empty_batch_replaces_cache `{Go.UnicodeTables}
    (metricsText : string) (f : Protocol.fetched) :
  ((f = Protocol.FetchNil
    ∨ (∃ unmarshalled, f = Protocol.FetchBody "" unmarshalled)
    ∨ (∃ data, f = Protocol.FetchBody data None)) →
   Protocol.poll metricsText f = Done metricsText)
  ∧ (∀ new, Protocol.poll metricsText f = Done new → new ≠ metricsText →
       Protocol.fetchMetrics f = Done new ∧ new ≠ "")
  ∧ (∀ data records,
       f = Protocol.FetchBody data (Some records) → data ≠ "" →
       forallb (λ rec, negb (decoded rec)) records = true →
       Protocol.rangeRecords records [] = Done []
       ∧ Protocol.fetchMetrics f = Done Go.nl
       ∧ Protocol.poll metricsText f = Done Go.nl
       ∧ (metricsText ≠ Go.nl → Protocol.poll metricsText f ≠ Done metricsText)).
Proof.
  split; [|split].
  - intros [->|[[u ->]|[data ->]]]; unfold Protocol.poll; simpl; [done..|].
    by destruct (String.length data =? 0)%nat.
  - intros new. unfold Protocol.poll.
    destruct (Protocol.fetchMetrics f) as [m| |]; simpl; [|done..].
    case_bool_decide as Hm.
    + intros [= <-] _. done.
    + intros [= <-] Hne. done.
  - intros data records -> Hdata Hnone.
    pose proof (rangeRecords_none_decoded records [] Hnone) as Hrun.
    assert (Protocol.fetchMetrics (Protocol.FetchBody data (Some records))
            = Done Go.nl) as Hfetch.
    { unfold Protocol.fetchMetrics. destruct data as [|c data]; [done |].
      simpl. by rewrite Hrun. }
    assert (Protocol.poll metricsText (Protocol.FetchBody data (Some records))
            = Done Go.nl) as Hpoll.
    { unfold Protocol.poll. by rewrite Hfetch. }
    split; [done |]. split; [done |]. split; [done |].
    intros Hne. rewrite Hpoll. intros [= Heq]. by apply Hne.
Qed.

Lemma C2_empty_batch_replaces_cache_witness :
  Protocol.poll (H := narrow_tables) cached_example
    (Protocol.FetchBody "<html>502 Bad Gateway</html>" None)
  = Done cached_example
  ∧ Protocol.rangeRecords (H := narrow_tables) [w_bad_time; z_unknown] [] = Done []
  ∧ Protocol.fetchMetrics (H := narrow_tables)
      (Protocol.FetchBody "[...]" (Some [w_bad_time; z_unknown])) = Done Go.nl
  ∧ Protocol.poll (H := narrow_tables) cached_example
      (Protocol.FetchBody "[...]" (Some [w_bad_time; z_unknown])) = Done Go.nl
  ∧ (cached_example ≠ Go.nl →
     Protocol.poll (H := narrow_tables) cached_example
       (Protocol.FetchBody "[...]" (Some [w_bad_time; z_unknown]))
     ≠ Done cached_example).
Proof.
  split.
  - apply (C2_empty_batch_replaces_cache (H := narrow_tables) cached_example
             (Protocol.FetchBody "<html>502 Bad Gateway</html>" None)).
    right. right. eexists. reflexivity.
  - destruct (C2_empty_batch_replaces_cache (H := narrow_tables) cached_example
                (Protocol.FetchBody "[...]" (Some [w_bad_time; z_unknown])))
      as (_ & _ & Hempty).
    apply (Hempty "[...]" [w_bad_time; z_unknown]).
    + reflexivity.
    + discriminate.
    + vm_compute. reflexivity.
Defined.

(** The JSON text of the empty array: the cached sample is replaced by a
    line feed. *)
Example empty_array_replaces_cache :
  Protocol.poll (H := narrow_tables) cached_example
    (Protocol.FetchBody "[]" (Some []))
  = Done Go.nl
  ∧ Go.nl ≠ cached_example.
Proof. split; vm_compute; [reflexivity | discriminate]. Qed.

(** ** The filter *)

Lemma hasPrefix_spec lit : ∀ text,
  Go.hasPrefix text lit = true ↔ ∃ post, text = lit ++ post.
Proof.
  induction lit as [|l lit IH]; intros [|t text]; simpl.
  - split; [by exists [] | done].
  - split; [by exists (t :: text) | done].
  - split; [done | by intros [post ?]].
  - rewrite andb_true_iff, Z.eqb_eq, IH. split.
    + intros [-> [post ->]]. by exists post.
    + intros [post [= -> ->]]. eauto.
Qed.

Lemma existsb_seq_0 (P : nat → bool) n :
  existsb P (seq 0 n) = true ↔ ∃ i, (i < n)%nat ∧ P i = true.
Proof.
  rewrite existsb_exists. split.
  - intros (i & Hi%in_seq & HP). exists i. split; [lia | done].
  - intros (i & Hi & HP). exists i. split; [apply in_seq; lia | done].
Qed.

(** [MatchString] searches: a match that starts at any position of the
    text and ends at any later one is enough. *)
Lemma MatchString_search re s :
  Go.MatchString re s = true
  ↔ ∃ i j, (i ≤ length (Go.runes s))%nat ∧ j ∈ Go.ends (Go.runes s) re i.
Proof.
  unfold Go.MatchString. rewrite existsb_seq_0. split.
  - intros (i & Hi & Hends).
    destruct (Go.ends (Go.runes s) re i) as [|j l] eqn:E; [done |].
    exists i, j. split; [lia |]. rewrite E. by left.
  - intros (i & j & Hi & Hj). exists i. split; [lia |].
    destruct (Go.ends (Go.runes s) re i); [by apply elem_of_nil in Hj | done].
Qed.

(** A pattern that is a plain literal selects the texts that contain it. *)
Lemma MatchString_Literal lit s :
  Go.MatchString (Go.Literal lit) s = true
  ↔ ∃ pre post, Go.runes s = pre ++ Go.runes lit ++ post.
Proof.
  rewrite MatchString_search. simpl. split.
  - intros (i & j & Hi & Hj).
    destruct (Go.hasPrefix (drop i (Go.runes s)) (Go.runes lit)) eqn:E;
      [|by apply elem_of_nil in Hj].
    apply hasPrefix_spec in E as [post E].
    exists (take i (Go.runes s)), post.
    by rewrite <- E, take_drop.
  - intros (pre & post & E). exists (length pre), (length pre + length (Go.runes lit))%nat.
    split; [rewrite E, length_app; lia |].
    rewrite E, drop_app_length.
    assert (Go.hasPrefix (Go.runes lit ++ post) (Go.runes lit) = true) as ->
      by (apply hasPrefix_spec; eauto).
    by left.
Qed.

(** A literal between [^] and [$] selects the texts that are the literal. *)
Lemma MatchString_anchored lit s :
  Go.MatchString (Go.Concat Go.BeginText (Go.Concat (Go.Literal lit) Go.EndText)) s
  = true
  ↔ Go.runes s = Go.runes lit.
Proof.
  rewrite MatchString_search. simpl. split.
  - intros (i & j & Hi & Hj).
    destruct i as [|i]; simpl in Hj; [|by apply elem_of_nil in Hj].
    rewrite app_nil_r, drop_0 in Hj.
    destruct (Go.hasPrefix (Go.runes s) (Go.runes lit)) eqn:E;
      [|by apply elem_of_nil in Hj].
    apply hasPrefix_spec in E as [post E]. simpl in Hj. rewrite app_nil_r in Hj.
    destruct (Nat.eqb_spec (length (Go.runes lit)) (length (Go.runes s))) as [Hl|_];
      [|by apply elem_of_nil in Hj].
    rewrite E, length_app in Hl. destruct post; simpl in Hl; [|lia].
    by rewrite app_nil_r in E.
  - intros E. exists 0%nat, (length (Go.runes lit)). split; [lia |].
    simpl. rewrite app_nil_r, drop_0, E.
    assert (Go.hasPrefix (Go.runes lit) (Go.runes lit) = true) as ->
      by (apply hasPrefix_spec; exists []; by rewrite app_nil_r).
    simpl. rewrite app_nil_r, Nat.eqb_refl. by left.
Qed.

(** *** Runes of ASCII text *)

Lemma lor_ge_l a b : 0 ≤ b → a ≤ Z.lor a b.
Proof.
  intros Hb. pose proof (Z.sub_lor_l_same_l b a) as E.
  assert (0 ≤ Z.land b (Z.lnot a)) by (apply Z.land_nonneg; auto). lia.
Qed.

Lemma low6_nonneg c : 0 ≤ Go.low6 c.
Proof. unfold Go.low6. apply Z.land_nonneg. right. lia. Qed.

Lemma byte_val_range c : 0 ≤ Go.byte_val c < 256.
Proof.
  unfold Go.byte_val. pose proof (N_ascii_bounded c). lia.
Qed.

Lemma between_low6 c : Go.between 160 191 c = true → 32 ≤ Go.low6 c.
Proof.
  unfold Go.between, Go.low6. intros [Hlo Hhi]%andb_prop.
  apply Z.leb_le in Hlo, Hhi.
  change 63 with (Z.ones 6). rewrite Z.land_ones by lia.
  change (2 ^ 6) with 64. Z.div_mod_to_equations. lia.
Qed.

Lemma between_low6' c : Go.between 144 191 c = true → 16 ≤ Go.low6 c.
Proof.
  unfold Go.between, Go.low6. intros [Hlo Hhi]%andb_prop.
  apply Z.leb_le in Hlo, Hhi.
  change 63 with (Z.ones 6). rewrite Z.land_ones by lia.
  change (2 ^ 6) with 64. Z.div_mod_to_equations. lia.
Qed.


Lemma lor_lower a b x : 0 ≤ a → 0 ≤ b → x ≤ a ∨ x ≤ b → x ≤ Z.lor a b.
Proof.
  intros Ha Hb Hx. pose proof (lor_ge_l a b Hb).
  pose proof (lor_ge_l b a Ha) as Hr. rewrite Z.lor_comm in Hr. lia.
Qed.

Ltac nonneg :=
  repeat first
    [ apply low6_nonneg
    | apply Z.shiftl_nonneg
    | apply Z.lor_nonneg; split
    | apply Z.land_nonneg; right; lia ].

Ltac low_bits :=
  rewrite ?Z.shiftl_mul_pow2 by lia;
  try change 31 with (Z.ones 5); try change 15 with (Z.ones 4);
  try change 7 with (Z.ones 3);
  rewrite ?Z.land_ones by lia;
  Z.div_mod_to_equations; lia.

Lemma decode_high c0 t0 :
  128 ≤ Go.byte_val c0 → 128 ≤ fst (Go.DecodeRuneInString (String c0 t0)).
Proof.
  intros Hhigh. unfold Go.DecodeRuneInString.
  destruct (Z.ltb_spec (Go.byte_val c0) 128) as [?|_]; [lia |].
  unfold Go.lead.
  repeat match goal with
  | |- context [Z.leb ?a ?b] => destruct (Z.leb_spec a b)
  | |- context [Z.eqb ?a ?b] => destruct (Z.eqb_spec a b)
  end; simpl.
  all: try (unfold Go.RuneError; simpl; lia).
  all: repeat match goal with
  | |- context [if ?b then _ else _] => destruct b eqn:?
  | |- context [match ?t with EmptyString => _ | String _ _ => _ end] =>
      destruct t
  end; simpl fst.
  all: try (unfold Go.RuneError; lia).
  all: repeat match goal with
  | Hb : negb (Go.between 160 191 ?c) = false |- _ =>
      apply negb_false_iff, between_low6 in Hb
  | Hb : negb (Go.between 144 191 ?c) = false |- _ =>
      apply negb_false_iff, between_low6' in Hb
  end.
  all: apply lor_lower; [nonneg | nonneg |].
  all: first [ left; low_bits
             | right; apply lor_lower; [nonneg | nonneg | left; low_bits] ].
Qed.

Lemma runes_cons_ascii s r rest :
  Go.runes s = r :: rest → r < 128 →
  ∃ c s', s = String c s' ∧ Go.byte_val c = r ∧ Go.runes s' = rest.
Proof.
  destruct s as [|c s']; [done |].
  change (Go.runes (String c s'))
    with (let '(r, width) := Go.DecodeRuneInString (String c s') in
          r :: Go.runesFrom (width - 1) s').
  destruct (Go.DecodeRuneInString (String c s')) as [r' width] eqn:E.
  intros [= -> Hrest] Hr.
  destruct (Z.ltb_spec (Go.byte_val c) 128) as [Hc|Hc].
  - unfold Go.DecodeRuneInString in E.
    destruct (Z.ltb_spec (Go.byte_val c) 128) as [_|?]; [|lia].
    simplify_eq. eauto.
  - pose proof (decode_high c s' Hc) as Hhi. rewrite E in Hhi. simpl in Hhi. lia.
Qed.

Lemma runes_ascii c s :
  Go.byte_val c < 128 → Go.runes (String c s) = Go.byte_val c :: Go.runes s.
Proof.
  intros Hc. unfold Go.runes. simpl.
  destruct (Z.ltb_spec (Go.byte_val c) 128) as [_|?]; [done | lia].
Qed.

Lemma byte_val_inj c1 c2 : Go.byte_val c1 = Go.byte_val c2 → c1 = c2.
Proof.
  unfold Go.byte_val. intros E%N2Z.inj.
  rewrite <- (ascii_N_embedding c1), <- (ascii_N_embedding c2). by rewrite E.
Qed.

Lemma runes_eq_ascii a : ∀ s,
  isASCII a = true → Go.runes s = Go.runes a → s = a.
Proof.
  induction a as [|c a IH]; intros s Ha E; simpl in Ha.
  - destruct s as [|c' s']; [done |].
    change (Go.runes (String c' s'))
      with (let '(r, width) := Go.DecodeRuneInString (String c' s') in
            r :: Go.runesFrom (width - 1) s') in E.
    by destruct (Go.DecodeRuneInString (String c' s')).
  - apply andb_prop in Ha as [Hc%Z.ltb_lt Ha].
    rewrite (runes_ascii c a Hc) in E.
    apply runes_cons_ascii in E as (c' & s' & -> & Hc' & E); [|done].
    apply byte_val_inj in Hc' as ->. f_equal. by apply IH.
Qed.

Lemma runes_ascii_text s :
  isASCII s = true → Go.runes s = Go.byte_val <$> list_ascii_of_string s.
Proof.
  induction s as [|c s IH]; simpl; [done |].
  intros [Hc%Z.ltb_lt Hs]%andb_prop.
  rewrite runes_ascii by done. by rewrite IH.
Qed.

#[local] Instance byte_val_Inj : Inj (=) (=) Go.byte_val.
Proof. intros c1 c2. apply byte_val_inj. Qed.

Lemma list_ascii_of_string_app a b :
  list_ascii_of_string (a +:+ b) = list_ascii_of_string a ++ list_ascii_of_string b.
Proof. induction a as [|c a IH]; simpl; [done | by rewrite <- IH]. Qed.

Lemma string_split_at s la lp lb :
  list_ascii_of_string s = la ++ lp ++ lb →
  s = string_of_list_ascii la +:+ string_of_list_ascii lp +:+ string_of_list_ascii lb.
Proof.
  intros E. rewrite <- (string_of_list_ascii_of_string s), E.
  clear E. induction la as [|c la IH]; simpl.
  - induction lp as [|c lp IH]; simpl; [done |]. by rewrite IH.
  - by rewrite IH.
Qed.

(** On ASCII text a literal pattern selects the names that contain the
    literal as a substring. *)
Lemma MatchString_Literal_ascii lit name :
  isASCII lit = true → isASCII name = true →
  Go.MatchString (Go.Literal lit) name = true
  ↔ ∃ a b, name = a +:+ lit +:+ b.
Proof.
  intros Hlit Hname. rewrite MatchString_Literal.
  rewrite (runes_ascii_text _ Hlit), (runes_ascii_text _ Hname). split.
  - intros (pre & post & E).
    apply fmap_app_inv in E as (la & rest & -> & Erest & Es).
    symmetry in Erest. apply fmap_app_inv in Erest as (lp & lb & Elp & -> & ->).
    apply (inj (fmap Go.byte_val)) in Elp as <-.
    exists (string_of_list_ascii la), (string_of_list_ascii lb).
    rewrite <- (string_of_list_ascii_of_string lit) at 1.
    by apply string_split_at.
  - intros (a & b & ->).
    exists (Go.byte_val <$> list_ascii_of_string a),
           (Go.byte_val <$> list_ascii_of_string b).
    by rewrite !list_ascii_of_string_app, !fmap_app.
Qed.

(** The default filter selects one text: [v_b_12v_voltage]. *)
Lemma MatchString_filterFlag name :
  Go.MatchString Historical.filterFlag name = true ↔ name = "v_b_12v_voltage".
Proof.
  unfold Historical.filterFlag. rewrite MatchString_anchored. split.
  - by apply runes_eq_ascii.
  - by intros ->.
Qed.

(** ** The groups of a snapshot *)

(** After a batch the loop got through, the group of every name is the
    list of its lines over the batch; a name without lines has no group. *)
Lemma snapshot_groups filter records metrics m :
  Historical.rangeRecords filter records ∅ = Done metrics →
  metrics !! m = grown None (batchLines filter m records).
Proof.
  intros Hrun.
  destruct (Historical_rangeRecords_groups filter records ∅)
    as (metrics' & Hrun' & Hgroups).
  { by eapply Historical_rangeRecords_Done. }
  rewrite Hrun in Hrun'. injection Hrun' as <-.
  by rewrite Hgroups, lookup_empty.
Qed.

Lemma batchLines_unmatched filter m records :
  Go.MatchString filter m = false → batchLines filter m records = [].
Proof.
  intros Hm. unfold batchLines.
  induction records as [|rec rest IH]; [done |].
  rewrite bind_cons, IH, app_nil_r. unfold recordLines. rewrite Hm.
  by destruct (Go.ParseInLocation (Historical.Timestamp rec)).
Qed.

(** Every line of the group of [m] is the sample line of a field that sits
    at a slot named [m], and the filter matches [m]. *)
Lemma batchLines_elem filter m records line :
  line ∈ batchLines filter m records →
  Go.MatchString filter m = true
  ∧ ∃ rec ts (i : nat) val,
      rec ∈ records
      ∧ Go.ParseInLocation (Historical.Timestamp rec) = Some ts
      ∧ Historical.dMetrics !! i = Some m
      ∧ Go.Split (Historical.Data rec) "," !! i = Some val
      ∧ line = Historical.sampleLine m val ts.
Proof.
  unfold batchLines. rewrite list_elem_of_bind.
  intros (rec & Hline & Hrec). unfold recordLines in Hline.
  destruct (Go.ParseInLocation (Historical.Timestamp rec)) as [ts|] eqn:Hts;
    [|by apply elem_of_nil in Hline].
  destruct (Go.MatchString filter m) eqn:Hm; [|by apply elem_of_nil in Hline].
  split; [done |]. unfold slotLines in Hline.
  apply list_elem_of_bind in Hline as ([name val] & Hline & Hzip).
  destruct (decide (name = m)) as [->|]; [|by apply elem_of_nil in Hline].
  apply list_elem_of_singleton in Hline as ->.
  apply list_elem_of_lookup in Hzip as [i Hi].
  apply lookup_zip_with_Some in Hi as (x & y & [= <- <-] & Hx & Hy).
  exists rec, ts, i, val. done.
Qed.

(** The only group of a one-key map is rendered in one way. *)
Lemma renders_singleton m lines r :
  Historical.renders {[m := lines]} r ↔ r = Historical.block m lines.
Proof.
  unfold Historical.renders. rewrite map_to_list_singleton. split.
  - intros (order & Horder & ->).
    apply Permutation_singleton_r in Horder as ->. done.
  - intros ->. by exists [(m, lines)].
Qed.

(** The voltage sits at slot 14 and nowhere else. *)
Lemma slotLines_voltage ts data :
  slotLines "v_b_12v_voltage" ts Historical.dMetrics data
  = match data !! 14%nat with
    | Some val => [Historical.sampleLine "v_b_12v_voltage" val ts]
    | None => []
    end.
Proof.
  do 21 (destruct data as [|? data]; [reflexivity |]). reflexivity.
Qed.

Lemma batchLines_voltage records :
  batchLines Historical.filterFlag "v_b_12v_voltage" records = voltageLines records.
Proof.
  unfold batchLines, voltageLines.
  induction records as [|rec rest IH]; [done |].
  rewrite !bind_cons, IH. f_equal. unfold recordLines.
  destruct (Go.ParseInLocation (Historical.Timestamp rec)) as [ts|]; [|done].
  assert (Go.MatchString Historical.filterFlag "v_b_12v_voltage" = true) as ->
    by by apply MatchString_filterFlag.
  apply slotLines_voltage.
Qed.

(** ** Texts and their lines *)

Lemma oneLine_app a b : oneLine (a +:+ b) = oneLine a && oneLine b.
Proof.
  induction a as [|c a IH]; simpl; [done |].
  change (String c a +:+ b) with (String c (a +:+ b)). simpl.
  by rewrite IH, andb_assoc.
Qed.

Lemma pretty_N_go_oneLine (x : N) : ∀ s,
  oneLine s = true → oneLine (pretty_N_go x s) = true.
Proof.
  induction (N.lt_wf_0 x) as [x _ IH]; intros s Hs.
  destruct (decide (x = 0)%N) as [->|Hx]; [by rewrite pretty_N_go_0 |].
  rewrite pretty_N_go_step by lia. apply IH.
  - apply N.div_lt; lia.
  - simpl. rewrite Hs, andb_true_r.
    generalize (x `mod` 10)%N. intros d. unfold pretty_N_char.
    destruct d as [|p]; [done |].
    do 4 (destruct p as [p|p|]; try done).
Qed.

Lemma itoa_oneLine n : oneLine (Go.itoa n) = true.
Proof.
  assert (∀ p : positive, oneLine (pretty p) = true) as Hpos.
  { intros p. unfold pretty, pretty_positive, pretty, pretty_N.
    rewrite decide_False by done. by apply pretty_N_go_oneLine. }
  unfold Go.itoa, pretty, pretty_Z. destruct n as [|p|p]; [done | apply Hpos |].
  rewrite oneLine_app, Hpos. done.
Qed.

Lemma string_app_assoc (a b c : string) : (a +:+ b) +:+ c = a +:+ b +:+ c.
Proof. induction a as [|x a IH]; [done |]. simpl. unfold String.app in *. simpl. by rewrite IH. Qed.

Lemma Split_piece sep piece rest :
  lacks sep piece = true →
  Go.Split (piece +:+ String sep rest) sep = piece :: Go.Split rest sep.
Proof.
  induction piece as [|c piece IH]; intros Hpiece.
  - change ("" +:+ String sep rest) with (String sep rest). simpl.
    by rewrite Ascii.eqb_refl.
  - simpl in Hpiece. apply andb_prop in Hpiece as [Hc Hpiece].
    change (String c piece +:+ String sep rest)
      with (String c (piece +:+ String sep rest)).
    simpl. rewrite (IH Hpiece). by apply negb_true_iff in Hc as ->.
Qed.

Lemma Split_last sep piece :
  lacks sep piece = true → Go.Split piece sep = [piece].
Proof.
  induction piece as [|c piece IH]; intros Hpiece; [done |].
  simpl in Hpiece. apply andb_prop in Hpiece as [Hc Hpiece].
  simpl. rewrite (IH Hpiece). by apply negb_true_iff in Hc as ->.
Qed.

Lemma oneLine_lacks s : oneLine s = lacks (ascii_of_nat 10) s.
Proof.
  induction s as [|c s IH]; [done |]. simpl. rewrite IH. f_equal. f_equal.
  destruct (Ascii.eqb_spec c (ascii_of_nat 10)) as [->|Hc]; [done |].
  apply Z.eqb_neq. intros E. apply Hc.
  rewrite <- (byte_of_val c), E. done.
Qed.

Lemma Split_terminated lines :
  Forall (λ line, oneLine line = true) lines →
  Go.Split (terminated lines) (ascii_of_nat 10) = lines ++ [""].
Proof.
  induction 1 as [|line rest Hline _ IH]; [done |].
  rewrite oneLine_lacks in Hline. simpl.
  change (line +:+ Go.nl +:+ terminated rest)
    with (line +:+ String (ascii_of_nat 10) (terminated rest)).
  by rewrite Split_piece, IH.
Qed.

Lemma Join_terminated lines :
  lines ≠ [] → Go.Join lines Go.nl +:+ Go.nl = terminated lines.
Proof.
  induction lines as [|line rest IH]; [done |]. intros _.
  destruct rest as [|next rest].
  - reflexivity.
  - change (Go.Join (line :: next :: rest) Go.nl)
      with (line +:+ Go.nl +:+ Go.Join (next :: rest) Go.nl).
    rewrite !string_app_assoc, IH by done. done.
Qed.

(** [strings.Split] always gives a piece. *)
Lemma Split_pieces s sep : ∃ piece rest, Go.Split s sep = piece :: rest.
Proof.
  destruct s as [|c s]; simpl; [by eexists _, _ |].
  destruct (Ascii.eqb c sep); [by eexists _, _ |].
  destruct (Go.Split s sep); by eexists _, _.
Qed.

(** Splitting on both sides of a separator. *)
Lemma Split_app sep a b :
  Go.Split (a +:+ String sep b) sep = Go.Split a sep ++ Go.Split b sep.
Proof.
  induction a as [|c a IH].
  - change ("" +:+ String sep b) with (String sep b). simpl.
    by rewrite Ascii.eqb_refl.
  - change (String c a +:+ String sep b) with (String c (a +:+ String sep b)).
    simpl. rewrite IH. destruct (Ascii.eqb c sep); [done |].
    by destruct (Split_pieces a sep) as (piece & rest & ->).
Qed.

(** The lines of a text made of lines that may hold line feeds. *)
Lemma Split_terminated_pieces lines :
  Go.Split (terminated lines) (ascii_of_nat 10)
  = (lines ≫= λ line, Go.Split line (ascii_of_nat 10)) ++ [""].
Proof.
  induction lines as [|line rest IH]; [done |].
  change (terminated (line :: rest))
    with (line +:+ String (ascii_of_nat 10) (terminated rest)).
  by rewrite Split_app, IH, bind_cons, app_assoc.
Qed.

Lemma bind_Split_oneLine lines :
  Forall (λ line, oneLine line = true) lines →
  (lines ≫= λ line, Go.Split line (ascii_of_nat 10)) = lines.
Proof.
  induction 1 as [|line rest Hline _ IH]; [done |].
  rewrite bind_cons, IH, Split_last; [done |]. by rewrite <- oneLine_lacks.
Qed.

Lemma voltageLines_elem records rec ts val :
  rec ∈ records →
  Go.ParseInLocation (Historical.Timestamp rec) = Some ts →
  Go.Split (Historical.Data rec) "," !! 14%nat = Some val →
  Historical.sampleLine "v_b_12v_voltage" val ts ∈ voltageLines records.
Proof.
  intros Hrec Hts Hval. unfold voltageLines. apply list_elem_of_bind.
  exists rec. split; [|done]. rewrite Hts, Hval. by left.
Qed.

(** The part of a sample line after a line feed in its field is a line
    of its own. *)
Lemma sampleLine_pieces name a b ts :
  oneLine b = true →
  b +:+ " " +:+ Go.itoa (Go.UnixMilli ts)
  ∈ Go.Split (Historical.sampleLine name (a +:+ Go.nl +:+ b) ts) (ascii_of_nat 10).
Proof.
  intros Hb. unfold Historical.sampleLine.
  replace (name +:+ " " +:+ (a +:+ Go.nl +:+ b) +:+ " "
           +:+ Go.itoa (Go.UnixMilli ts))
    with ((name +:+ " " +:+ a)
          +:+ String (ascii_of_nat 10) (b +:+ " " +:+ Go.itoa (Go.UnixMilli ts))).
  - rewrite Split_app. apply elem_of_app. right.
    rewrite Split_last; [by left |].
    by rewrite <- oneLine_lacks, !oneLine_app, Hb, itoa_oneLine.
  - change (String (ascii_of_nat 10) (b +:+ " " +:+ Go.itoa (Go.UnixMilli ts)))
      with (Go.nl +:+ b +:+ " " +:+ Go.itoa (Go.UnixMilli ts)).
    by rewrite !string_app_assoc.
Qed.

(** C8 (what the code does). Under the default filter
    [^v_b_12v_voltage$], a batch that the loop gets through and that has a
    voltage sample builds one group only, the one of [v_b_12v_voltage]
    with the voltage lines of the batch in record order; there is no group
    for [v_m_temp], and the snapshot is the header
    [# TYPE v_b_12v_voltage gauge] followed by those lines.  But the loop
    writes the voltage field into its line as it is, and a sample line is
    as many lines of the text as its field has line feeds and one: the
    lines of the text are the header and the pieces of the voltage lines.
    Whatever follows a line feed in a voltage field is a line of the text
    with the timestamp of the record after it, so a field can add a sample
    line of [v_m_temp], or of any name, that the filter did not select.
    Where no voltage field has a line feed the lines of the text are the
    header and the voltage lines. *)
Theorem C8_line_feed_adds_sample_line
    (records : list Historical.record) (metrics : gmap string (list string)) :
  Historical.rangeRecords Historical.filterFlag records ∅ = Done metrics →
  voltageLines records ≠ [] →
  let text := "# TYPE v_b_12v_voltage gauge" +:+ Go.nl
              +:+ Go.Join (voltageLines records) Go.nl +:+ Go.nl in
  metrics = {[ "v_b_12v_voltage" := voltageLines records ]}
  ∧ metrics !! "v_m_temp" = None
  ∧ (∀ o, Historical.snapshot Historical.filterFlag records o ↔ o = Done text)
  ∧ (∀ o, Historical.fetchMetrics Historical.filterFlag (Some records) o
          ↔ o = Done text)
  ∧ (∀ b o, FileExporter.main Historical.filterFlag
              (FileExporter.FileBytes b (Some records)) o
            ↔ o = Done text)
  ∧ Go.Split text (ascii_of_nat 10)
    = "# TYPE v_b_12v_voltage gauge"
      :: (voltageLines records ≫= λ line, Go.Split line (ascii_of_nat 10))
      ++ [""]
  ∧ (∀ rec ts a b,
       rec ∈ records →
       Go.ParseInLocation (Historical.Timestamp rec) = Some ts →
       Go.Split (Historical.Data rec) "," !! 14%nat = Some (a +:+ Go.nl +:+ b) →
       oneLine b = true →
       b +:+ " " +:+ Go.itoa (Go.UnixMilli ts) ∈ Go.Split text (ascii_of_nat 10))
  ∧ (Forall (λ line, oneLine line = true) (voltageLines records) →
     Go.Split text (ascii_of_nat 10)
     = "# TYPE v_b_12v_voltage gauge" :: voltageLines records ++ [""]).
Proof.
  intros Hrun Hlines text.
  assert (metrics = {[ "v_b_12v_voltage" := voltageLines records ]}) as Hmap.
  { apply map_eq. intros m. rewrite (snapshot_groups _ _ _ m Hrun).
    destruct (decide (m = "v_b_12v_voltage")) as [->|Hne].
    - rewrite lookup_singleton_eq, batchLines_voltage.
      by destruct (voltageLines records).
    - rewrite lookup_singleton_ne by done.
      rewrite batchLines_unmatched; [done |].
      apply not_true_is_false. by rewrite MatchString_filterFlag. }
  assert (∀ o, Historical.snapshot Historical.filterFlag records o ↔ o = Done text)
    as Hsnap.
  { intros o. unfold Historical.snapshot. rewrite Hrun, Hmap. split.
    - intros (r & Hr%renders_singleton & ->). by rewrite Hr.
    - intros ->. eexists. split; [by apply renders_singleton | done]. }
  assert (Go.Split text (ascii_of_nat 10)
          = "# TYPE v_b_12v_voltage gauge"
            :: (voltageLines records ≫= λ line, Go.Split line (ascii_of_nat 10))
            ++ [""]) as Hsplit.
  { unfold text.
    change (Go.nl +:+ Go.Join (voltageLines records) Go.nl +:+ Go.nl)
      with (String (ascii_of_nat 10)
              (Go.Join (voltageLines records) Go.nl +:+ Go.nl)).
    rewrite Split_app, Join_terminated, Split_terminated_pieces by done.
    done. }
  split; [done |]. split; [by rewrite Hmap |]. split; [done |].
  split; [done |]. split; [intros b o; apply Hsnap |]. split; [done |].
  split.
  - intros rec ts a b Hrec Hts Hval Hb. rewrite Hsplit.
    apply elem_of_cons. right. apply elem_of_app. left.
    apply list_elem_of_bind.
    exists (Historical.sampleLine "v_b_12v_voltage" (a +:+ Go.nl +:+ b) ts).
    split; [by apply sampleLine_pieces | by apply (voltageLines_elem records rec)].
  - intros Hall. by rewrite Hsplit, bind_Split_oneLine.
Qed.

Lemma C8_line_feed_adds_sample_line_witness :
  Historical.snapshot Historical.filterFlag [h_injected]
    (Done ("# TYPE v_b_12v_voltage gauge" +:+ Go.nl
           +:+ Go.Join (voltageLines [h_injected]) Go.nl +:+ Go.nl))
  ∧ "v_m_temp 99" +:+ " " +:+ Go.itoa (Go.UnixMilli ts_example)
    ∈ Go.Split ("# TYPE v_b_12v_voltage gauge" +:+ Go.nl
                +:+ Go.Join (voltageLines [h_injected]) Go.nl +:+ Go.nl)
        (ascii_of_nat 10).
Proof.
  destruct (C8_line_feed_adds_sample_line [h_injected]
              {[ "v_b_12v_voltage" := voltageLines [h_injected] ]})
    as (_ & _ & Hsnap & _ & _ & _ & Hline & _).
  - vm_compute. reflexivity.
  - vm_compute. discriminate.
  - split; [exact (proj2 (Hsnap _) eq_refl) |].
    refine (Hline h_injected ts_example "12.6" "v_m_temp 99" _ _ _ _).
    + by left.
    + vm_compute. reflexivity.
    + vm_compute. reflexivity.
    + reflexivity.
Defined.

(** The three lines of the text of [h_injected]. *)
Example injected_line :
  Go.Split ("# TYPE v_b_12v_voltage gauge" +:+ Go.nl
            +:+ Go.Join (voltageLines [h_injected]) Go.nl +:+ Go.nl)
    (ascii_of_nat 10)
  = ["# TYPE v_b_12v_voltage gauge"; "v_b_12v_voltage 12.6";
     "v_m_temp 99 1700000000000"; ""].
Proof. vm_compute. reflexivity. Qed.

(** ** Slots without a name *)

(** C5 (what the code does). The loop has no test for the empty name: a
    slot is left out only by the filter.  Under [.*] the record
    [h_one_field], whose one field sits at the unnamed slot 0, gets a
    group with the empty name, and the snapshot has a [# TYPE] header and a
    sample line without a metric name. *)
Theorem C5_unnamed_slot_under_match_all :
  Historical.dMetrics !! 0%nat = Some ""
  ∧ Go.MatchString match_all "" = true
  ∧ Historical.rangeRecords match_all [h_one_field] ∅
    = Done {[ "" := [" 1 1700000000000"] ]}
  ∧ ∀ o, Historical.snapshot match_all [h_one_field] o
         ↔ o = Done ("# TYPE  gauge" +:+ Go.nl +:+ " 1 1700000000000" +:+ Go.nl).
Proof.
  assert (Historical.rangeRecords match_all [h_one_field] ∅
          = Done {[ "" := [" 1 1700000000000"] ]}) as Hrun
    by (vm_compute; reflexivity).
  split; [reflexivity |]. split; [vm_compute; reflexivity |]. split; [done |].
  intros o. unfold Historical.snapshot. rewrite Hrun. split.
  - intros (r & Hr%renders_singleton & ->). by rewrite Hr.
  - intros ->. eexists. split; [by apply renders_singleton | done].
Qed.

(** Where the filter does not match the empty name, as the default filter
    does not, no group and no line is without a metric name: every group
    has a name, and every line of it is the sample line of that name. *)
Lemma named_groups_only filter records metrics :
  Go.MatchString filter "" = false →
  Historical.rangeRecords filter records ∅ = Done metrics →
  metrics !! "" = None
  ∧ ∀ m lines, metrics !! m = Some lines →
      m ≠ ""
      ∧ Forall (λ line, ∃ val ts, line = Historical.sampleLine m val ts) lines.
Proof.
  intros Hempty Hrun.
  assert (metrics !! "" = None) as Hnone.
  { rewrite (snapshot_groups _ _ _ "" Hrun).
    by rewrite batchLines_unmatched. }
  split; [done |]. intros m lines Hm. split; [intros ->; congruence |].
  rewrite (snapshot_groups _ _ _ m Hrun) in Hm.
  assert (lines = batchLines filter m records) as ->.
  { by destruct (batchLines filter m records); simplify_eq/=. }
  apply Forall_forall. intros line Hline.
  apply batchLines_elem in Hline as (_ & rec & ts & i & val & _ & _ & _ & _ & ->).
  eauto.
Qed.

Example default_filter_skips_unnamed : Go.MatchString Historical.filterFlag "" = false.
Proof. vm_compute. reflexivity. Qed.

(** ** The filter is a search *)

(** C9. A name is kept when the filter matches some part of it: the group
    of a name exists only if [MatchString] accepts the name, and then holds
    every line of the name; [MatchString] accepts a text when a match
    starts and ends anywhere in it; a literal pattern accepts the names
    that contain it, so that [v_b] selects the four names of the schema
    with that substring; the default pattern is anchored at both ends and
    accepts the one text [v_b_12v_voltage]. *)
Theorem C9_filter_is_unanchored_search :
  (∀ filter records metrics m,
     Historical.rangeRecords filter records ∅ = Done metrics →
     metrics !! m = grown None (batchLines filter m records)
     ∧ (Go.MatchString filter m = false → metrics !! m = None))
  ∧ (∀ re s,
       Go.MatchString re s = true
       ↔ ∃ i j, (i ≤ length (Go.runes s))%nat ∧ j ∈ Go.ends (Go.runes s) re i)
  ∧ (∀ lit name,
       isASCII lit = true → isASCII name = true →
       Go.MatchString (Go.Literal lit) name = true
       ↔ ∃ a b, name = a +:+ lit +:+ b)
  ∧ Go.simplePattern "v_b" = Some (Go.Literal "v_b")
  ∧ filter (λ m, Go.MatchString (Go.Literal "v_b") m = true) Historical.dMetrics
    = ["v_b_temp"; "v_b_12v_voltage"; "v_b_12v_voltage_ref"; "v_b_12v_current"]
  ∧ Go.simplePattern "^v_b_12v_voltage$" = Some Historical.filterFlag
  ∧ (∀ name,
       Go.MatchString Historical.filterFlag name = true
       ↔ name = "v_b_12v_voltage").
Proof.
  split; [|split; [|split; [|split; [|split; [|split]]]]].
  - intros filter records metrics m Hrun.
    rewrite (snapshot_groups _ _ _ m Hrun). split; [done |].
    intros Hm. by rewrite batchLines_unmatched.
  - apply MatchString_search.
  - apply MatchString_Literal_ascii.
  - reflexivity.
  - vm_compute. reflexivity.
  - reflexivity.
  - apply MatchString_filterFlag.
Qed.

Lemma C9_filter_is_unanchored_search_witness :
  Go.MatchString (Go.Literal "v_b") "v_b_12v_voltage_ref" = true
  ∧ ({[ "v_b_12v_voltage" := voltageLines [h_full] ]} : gmap string (list string))
    !! "v_m_temp" = None.
Proof.
  destruct C9_filter_is_unanchored_search as (Hgate & _ & Hliteral & _).
  split.
  - apply (Hliteral "v_b" "v_b_12v_voltage_ref").
    + vm_compute. reflexivity.
    + vm_compute. reflexivity.
    + exists "", "_12v_voltage_ref". reflexivity.
  - apply (Hgate Historical.filterFlag [h_full]
             {[ "v_b_12v_voltage" := voltageLines [h_full] ]} "v_m_temp").
    + vm_compute. reflexivity.
    + vm_compute. reflexivity.
Defined.

(** ** The cached text under its lock *)

Section CacheInvariant.
Context `{Go.UnicodeTables}.
Import Cache.

Lemma substring_whole s : String.substring 0 (String.length s) s = s.
Proof. induction s as [|c s IH]; simpl; [done | by rewrite IH]. Qed.

(** The pointer of one text with the length of another denotes neither:
    this is the copy the lock has to exclude. *)
Example torn_words :
  header_text "up 1 1700000000000" (String.length "up 0 17") = "up 1 17".
Proof. reflexivity. Qed.

Lemma holders_app hs1 hs2 : holders (hs1 ++ hs2) = (holders hs1 + holders hs2)%nat.
Proof. unfold holders. by rewrite filter_app, length_app. Qed.

Lemma holders_cons h hs :
  holders (h :: hs) = ((if holds h then 1 else 0) + holders hs)%nat.
Proof.
  unfold holders. rewrite filter_cons.
  destruct (holds h); case_decide; simpl; congruence.
Qed.

(** Replacing one handler moves the count by what the two handlers hold. *)
Lemma holders_insert hs : ∀ i h h',
  hs !! i = Some h →
  (holders (<[i := h']> hs) + (if holds h then 1 else 0)
   = holders hs + (if holds h' then 1 else 0))%nat.
Proof.
  induction hs as [|h0 hs IH]; intros i h h' Hi; [done |].
  destruct i as [|i]; simpl in *.
  - injection Hi as ->. rewrite !holders_cons. lia.
  - rewrite !holders_cons. specialize (IH i h h' Hi). lia.
Qed.

Lemma no_holders hs h :
  holders hs = 0%nat → h ∈ hs → holds h = false.
Proof.
  induction hs as [|h0 hs IH]; intros Hn Hin; [by apply elem_of_nil in Hin |].
  rewrite holders_cons in Hn.
  apply elem_of_cons in Hin as [->|Hin].
  - destruct (holds h0); [lia | done].
  - apply IH; [lia | done].
Qed.

Lemma invariant_init : invariant init.
Proof.
  exists "", []. unfold init, words_ok. simpl.
  split; [done |]. split; [done |]. split; [done |]. split; [done |].
  constructor.
Qed.

(** While a handler holds the lock the poller is not inside its
    assignment, and the two words are those of the current text. *)
Lemma words_under_rlock cur s i was p n :
  words_ok cur s →
  (writer s = true → readers s = 0%nat) →
  readers s = holders (requests s) →
  requests s !! i = Some (Loading was p n) →
  data_word s = cur ∧ len_word s = String.length cur.
Proof.
  intros Hwords Hw Hr Hi.
  assert (holders (requests s) ≠ 0%nat) as Hpos.
  { intros Hzero.
    assert (holds (Loading was p n) = false) as Hno; [|done].
    eapply no_holders; [done |]. eapply list_elem_of_lookup_2. done. }
  unfold words_ok in Hwords.
  destruct (refresh s); destruct Hwords as (Hwr & Hd & Hl); [done | done |].
  specialize (Hw Hwr). lia.
Qed.

Lemma since_publish was pub m : since was pub → since was (m :: pub).
Proof. intros [Hne [newer ->]]. split; [done |]. by exists (m :: newer). Qed.

Lemma invariant_step s s' : invariant s → step s s' → invariant s'.
Proof.
  intros (cur & older & Hpub & Hwords & Hw & Hr & Hall) Hstep.
  destruct Hstep
    as [d n w r p hs pub | d n w r hs pub f m Hf Hm | d n hs pub m
       | d n w r hs pub m len_done | d n w r hs pub m data_done
       | d n w r hs pub m | d n r p hs pub i was Hi
       | d n w r p hs pub i was len_loaded Hi
       | d n w r p hs pub i was data_loaded Hi
       | d n w r p hs pub i was p' n' Hi];
    unfold words_ok in *; simpl in *.
  - (* a request arrives *)
    exists cur, older. unfold words_ok. simpl.
    split; [done |]. split; [done |]. split; [done |].
    split; [rewrite holders_app; unfold holders at 2; simpl; lia |].
    apply Forall_app. split; [done |]. constructor; [|constructor].
    simpl. split; [by rewrite Hpub | by exists []].
  - (* fetchMetrics returned a text *)
    exists cur, older. unfold words_ok. simpl. done.
  - (* mu.Lock() *)
    exists cur, older. unfold words_ok. simpl.
    destruct Hwords as (_ & Hd & Hl). done.
  - (* the pointer is stored *)
    exists cur, older. unfold words_ok. simpl.
    destruct Hwords as (Hwr & Hd & Hl). done.
  - (* the length is stored *)
    exists cur, older. unfold words_ok. simpl.
    destruct Hwords as (Hwr & Hd & Hl). done.
  - (* mu.Unlock() *)
    destruct Hwords as (Hwr & Hd & Hl).
    exists m, pub. unfold words_ok. simpl.
    split; [done |]. split; [done |]. split; [done |]. split; [done |].
    specialize (Hw Hwr).
    apply Forall_forall. intros h Hh.
    pose proof (proj1 (Forall_forall _ _) Hall h Hh) as Hok.
    assert (holds h = false) as Hno by (eapply no_holders; [|done]; lia).
    destruct h as [was|was p' n'|was m']; simpl in *; [|done|].
    + by apply since_publish.
    + destruct Hok as (newer & old & rest & -> & -> & Hm).
      exists (m :: newer), old, rest. split; [done |]. split; [done |].
      simpl. by right.
  - (* mu.RLock() *)
    exists cur, older. unfold words_ok. simpl.
    split; [done |]. split; [done |]. split; [done |].
    pose proof (holders_insert hs i _ (Loading was None None) Hi) as Hcount.
    simpl in Hcount. split; [lia |].
    apply Forall_insert; [done |].
    pose proof (Forall_lookup_1 _ _ _ _ Hall Hi) as Hok. simpl in *.
    split; [done |]. split; by left.
  - (* the pointer is loaded *)
    destruct (words_under_rlock cur (St d n w r p hs pub) i was None len_loaded)
      as [Hd _]; [done..|]. simpl in Hd.
    exists cur, older. unfold words_ok. simpl.
    split; [done |]. split; [done |]. split; [done |].
    pose proof (holders_insert hs i _ (Loading was (Some d) len_loaded) Hi) as Hcount.
    simpl in Hcount. split; [lia |].
    apply Forall_insert; [done |].
    pose proof (Forall_lookup_1 _ _ _ _ Hall Hi) as (Hsince & _ & Hlen).
    simpl. split; [done |]. split; [right; by rewrite Hd | done].
  - (* the length is loaded *)
    destruct (words_under_rlock cur (St d n w r p hs pub) i was data_loaded None)
      as [_ Hl]; [done..|]. simpl in Hl.
    exists cur, older. unfold words_ok. simpl.
    split; [done |]. split; [done |]. split; [done |].
    pose proof (holders_insert hs i _ (Loading was data_loaded (Some n)) Hi) as Hcount.
    simpl in Hcount. split; [lia |].
    apply Forall_insert; [done |].
    pose proof (Forall_lookup_1 _ _ _ _ Hall Hi) as (Hsince & Hdata & _).
    simpl. split; [done |]. split; [done | right; by rewrite Hl].
  - (* mu.RUnlock() *)
    exists cur, older. unfold words_ok. simpl.
    split; [done |]. split; [done |].
    pose proof (holders_insert hs i _ (Respond was (header_text p' n')) Hi) as Hcount.
    simpl in Hcount.
    split; [intros Hwr; rewrite (Hw Hwr); done |]. split; [lia |].
    apply Forall_insert; [done |].
    pose proof (Forall_lookup_1 _ _ _ _ Hall Hi) as Hok. simpl in Hok.
    destruct Hok as ((Hne & newer & Hnewer) & [?|[= ->]] & [?|[= ->]]); [done..|].
    destruct was as [|old rest]; [done |].
    simpl. exists newer, old, rest. split; [done |]. split; [done |].
    unfold header_text. rewrite substring_whole.
    rewrite Hpub in Hnewer. destruct newer as [|new newer]; simpl in *.
    + injection Hnewer as -> _. by left.
    + injection Hnewer as -> _. by left.
Qed.

Lemma invariant_reachable s : reachable s → invariant s.
Proof.
  unfold reachable. intros Hreach.
  apply (rtc_ind_r (R := step) invariant init); [| |done].
  - apply invariant_init.
  - intros s1 s2 _ Hstep IH. by eapply invariant_step.
Qed.

End CacheInvariant.

Section CacheTexts.
Context `{Go.UnicodeTables}.
Import Cache.

(** Every text the cache has held is whole, and so is the text the poller
    is about to assign. *)
Lemma published_whole s :
  reachable s →
  Forall whole_text (published s)
  ∧ match refresh s with
    | Fetching => True
    | WantLock m | Storing m _ _ => whole_text m
    end.
Proof.
  unfold reachable. intros Hreach.
  apply (rtc_ind_r (R := step)
           (λ s, Forall whole_text (published s)
                 ∧ match refresh s with
                   | Fetching => True
                   | WantLock m | Storing m _ _ => whole_text m
                   end) init); [| |done].
  - simpl. split; [|done]. constructor; [by left | constructor].
  - intros s1 s2 _ Hstep [Hpub Hm].
    destruct Hstep; simpl in *; try done.
    + split; [done |]. right. eauto.
    + split; [|done]. by constructor.
Qed.

End CacheTexts.

(** C10. In every interleaving of the poller and the request handlers, the
    text a handler has copied from the cache is a whole text: one of the
    texts that were in the cache at some moment between the arrival of the
    request and the end of the copy.  With [old] the text in the cache
    when the request came in and [newer] the texts published since, the
    copy is [old] or one of [newer]; for a request that one publication
    overlaps it is the text before or the text after that publication.
    Every published text is the empty start text or a complete result of
    [fetchMetrics], so no copy mixes the words of two texts. *)
Theorem C10_reads_never_torn `{Go.UnicodeTables} (s : Cache.state) :
  Cache.reachable s →
  (∀ (i : nat) was m,
     Cache.requests s !! i = Some (Cache.Respond was m) →
     ∃ newer old rest,
       was = old :: rest
       ∧ Cache.published s = newer ++ old :: rest
       ∧ m ∈ newer ++ [old]
       ∧ (newer = [] → m = old)
       ∧ (∀ new, newer = [new] → m = new ∨ m = old))
  ∧ Forall whole_text (Cache.published s).
Proof.
  intros Hreach. split; [|by apply published_whole].
  intros i was m Hi.
  destruct (invariant_reachable s Hreach) as (cur & older & _ & _ & _ & _ & Hall).
  pose proof (Forall_lookup_1 _ _ _ _ Hall Hi) as Hok. simpl in Hok.
  destruct Hok as (newer & old & rest & -> & Hpub & Hm).
  exists newer, old, rest. split; [done |]. split; [done |]. split; [done |].
  split.
  - intros ->. simpl in Hm. by apply list_elem_of_singleton in Hm.
  - intros new ->. simpl in Hm.
    apply elem_of_cons in Hm as [->|Hm]; [by left |].
    apply list_elem_of_singleton in Hm. by right.
Qed.

Lemma served_example_reachable : Cache.reachable (H := narrow_tables) served_example.
Proof.
  unfold Cache.reachable, Cache.init, served_example.
  eapply rtc_l; [apply Cache.step_request |]. simpl.
  eapply rtc_l.
  { apply (Cache.step_fetch _ _ _ _ _ _ polled_example text_example);
      [vm_compute; reflexivity | discriminate]. }
  eapply rtc_l; [apply Cache.step_lock |].
  eapply rtc_l; [apply Cache.step_store_data |].
  eapply rtc_l; [apply Cache.step_store_len |].
  eapply rtc_l; [apply Cache.step_unlock |].
  eapply rtc_l; [by apply (Cache.step_rlock _ _ _ _ _ _ 0%nat) |]. simpl.
  eapply rtc_l; [by eapply (Cache.step_load_data _ _ _ _ _ _ _ 0%nat) |]. simpl.
  eapply rtc_l; [by eapply (Cache.step_load_len _ _ _ _ _ _ _ 0%nat) |]. simpl.
  eapply rtc_l; [by eapply (Cache.step_runlock _ _ _ _ _ _ _ 0%nat) |]. simpl.
  apply rtc_refl.
Qed.

Lemma C10_reads_never_torn_witness :
  ∃ newer old rest,
    [""] = old :: rest
    ∧ [text_example; ""] = newer ++ old :: rest
    ∧ text_example ∈ newer ++ [old]
    ∧ (newer = [] → text_example = old)
    ∧ (∀ new, newer = [new] → text_example = new ∨ text_example = old).
Proof.
  destruct (C10_reads_never_torn (H := narrow_tables) served_example
              served_example_reachable) as [Hread _].
  apply (Hread 0%nat [""] text_example). reflexivity.
Defined.

(** * Further properties of the code *)

(** ** The protocol exporter: which records count *)

Section ProtocolBatch.
Context `{Go.UnicodeTables}.

Lemma metricsMap_is_Some code :
  is_Some (Protocol.metricsMap !! code) ↔ code ∈ ["S"; "D"; "L"; "W"].
Proof.
  split.
  - intros [m Hm]. apply metricsMap_supported in Hm.
    destruct Hm as [[-> _]|[[-> _]|[[-> _]|[-> _]]]]; set_solver.
  - intros Hin. repeat (apply elem_of_cons in Hin as [->|Hin]; [by eexists |]).
    by apply elem_of_nil in Hin.
Qed.

Lemma decodeRecord_passed_over rec metrics :
  decoded rec = false → Protocol.decodeRecord rec metrics = Done metrics.
Proof.
  unfold decoded, Protocol.decodeRecord, Protocol.decodePayload.
  destruct (Go.ParseInLocation (Protocol.MsgTime rec)); [|done].
  by destruct (Protocol.metricsMap !! Protocol.Code rec).
Qed.

(** The loop only appends: with lines already there it gives those lines
    followed by what it gives from none. *)
Lemma rangeData_from_nil code m ts data : ∀ i metrics,
  Protocol.rangeData code m ts i data metrics
  = lines ← Protocol.rangeData code m ts i data []; Done (metrics ++ lines).
Proof.
  induction data as [|val rest IH]; intros i metrics; simpl.
  - by rewrite app_nil_r.
  - destruct (m !! i) as [name|]; [|done].
    set (line := Protocol.promMetric ("ovms_" +:+ code +:+ "_" +:+ name) val ts).
    rewrite (IH (S i) (metrics ++ [line])), (IH (S i) [line]).
    destruct (Protocol.rangeData code m ts (S i) rest []); simpl; [|done..].
    by rewrite <- app_assoc.
Qed.

Lemma decodeRecord_from_nil rec metrics :
  Protocol.decodeRecord rec metrics
  = lines ← Protocol.decodeRecord rec []; Done (metrics ++ lines).
Proof.
  unfold Protocol.decodeRecord, Protocol.decodePayload.
  destruct (Go.ParseInLocation (Protocol.MsgTime rec)) as [ts|];
    [|simpl; by rewrite app_nil_r].
  destruct (Protocol.metricsMap !! Protocol.Code rec) as [m|];
    [|simpl; by rewrite app_nil_r].
  apply rangeData_from_nil.
Qed.

Lemma rangeRecords_from_nil records : ∀ metrics,
  Protocol.rangeRecords records metrics
  = lines ← Protocol.rangeRecords records []; Done (metrics ++ lines).
Proof.
  induction records as [|rec rest IH]; intros metrics; simpl.
  - by rewrite app_nil_r.
  - rewrite (decodeRecord_from_nil rec metrics).
    destruct (Protocol.decodeRecord rec []) as [first| |]; simpl; [|done..].
    rewrite IH. rewrite (IH first).
    destruct (Protocol.rangeRecords rest []); simpl; [|done..].
    by rewrite app_assoc.
Qed.

Lemma decodeRecord_fits rec metrics :
  Protocol.decodeRecord rec metrics ≠ Fatal
  ∧ completes (Protocol.decodeRecord rec metrics) = fits rec.
Proof.
  unfold Protocol.decodeRecord, Protocol.decodePayload, fits.
  destruct (Go.ParseInLocation (Protocol.MsgTime rec)) as [ts|]; [|done].
  destruct (Protocol.metricsMap !! Protocol.Code rec) as [m|]; [|done].
  destruct (Nat.leb_spec (length (Go.Split (Protocol.Msg rec) ",")) (length m)).
  - by rewrite rangeData_fits by lia.
  - by rewrite rangeData_overruns by lia.
Qed.

End ProtocolBatch.

(** X1. The protocol loop passes over exactly the records whose timestamp
    does not parse or whose code is none of S, D, L, W: the batch gives
    what it gives with those records taken out, whatever their payloads
    are, and the loop goes on after them. *)
Theorem X1_unknown_records_passed_over `{Go.UnicodeTables}
    (records : list Protocol.record) (metrics : list string) :
  Protocol.rangeRecords records metrics
  = Protocol.rangeRecords (filter (λ rec, decoded rec = true) records) metrics
  ∧ ∀ rec, decoded rec = true
           ↔ is_Some (Go.ParseInLocation (Protocol.MsgTime rec))
             ∧ Protocol.Code rec ∈ ["S"; "D"; "L"; "W"].
Proof.
  split.
  - revert metrics. induction records as [|rec rest IH]; intros metrics; [done |].
    rewrite filter_cons. destruct (decoded rec) eqn:Hrec.
    + rewrite decide_True by done. simpl.
      destruct (Protocol.decodeRecord rec metrics); simpl; auto.
    + rewrite decide_False by done. simpl.
      rewrite decodeRecord_passed_over by done. apply IH.
  - intros rec. rewrite <- metricsMap_is_Some. unfold decoded.
    destruct (Go.ParseInLocation (Protocol.MsgTime rec)),
             (Protocol.metricsMap !! Protocol.Code rec);
      split; try done; intros [[? ?] [? ?]]; done.
Qed.

Example unknown_code_long_payload :
  Protocol.rangeRecords (H := narrow_tables) [w_good; z_unknown; l_good] []
  = Protocol.rangeRecords (H := narrow_tables) [w_good; l_good] [].
Proof. vm_compute. reflexivity. Qed.

(** X2. A payload with fewer fields than the schema has slots is decoded
    without a panic: field [i] gives the line of slot [i], the slots
    beyond the payload give nothing.  A payload always has a field, the
    empty payload one empty field, so a decoded record adds at least one
    line. *)
Theorem X2_short_payload `{Go.UnicodeTables}
    (code msg : string) (m : list string) (ts : Go.Time) (metrics : list string) :
  Protocol.metricsMap !! code = Some m →
  (length (Go.Split msg ",") ≤ length m)%nat →
  ∃ lines,
    Protocol.decodePayload code msg ts metrics = Done (metrics ++ lines)
    ∧ length lines = length (Go.Split msg ",")
    ∧ (1 ≤ length lines)%nat
    ∧ ∀ (i : nat) val, Go.Split msg "," !! i = Some val →
        ∃ name, m !! i = Some name
                ∧ lines !! i
                  = Some (Protocol.promMetric
                            ("ovms_" +:+ code +:+ "_" +:+ name) val ts).
Proof.
  intros Hm Hlen. unfold Protocol.decodePayload. rewrite Hm.
  rewrite rangeData_fits by lia. rewrite drop_0.
  eexists. split; [done |].
  assert (length (zip_with (line_of code ts) m (Go.Split msg ","))
          = length (Go.Split msg ",")) as Hlines.
  { rewrite length_zip_with. lia. }
  split; [done |]. split.
  - rewrite Hlines. destruct msg as [|c msg]; simpl; [lia |].
    destruct (Ascii.eqb c ","); [simpl; lia |].
    destruct (Go.Split msg ","); simpl; lia.
  - intros i val Hval.
    assert (i < length m)%nat as Hi by (apply lookup_lt_Some in Hval; lia).
    apply lookup_lt_is_Some in Hi as [name Hname].
    exists name. split; [done |].
    rewrite lookup_zip_with, Hname, Hval. done.
Qed.

Lemma X2_short_payload_witness :
  ∃ lines,
    Protocol.decodePayload (H := narrow_tables) "W" "" ts_example [] = Done ([] ++ lines)
    ∧ length lines = length (Go.Split "" ",")
    ∧ (1 ≤ length lines)%nat
    ∧ ∀ (i : nat) val, Go.Split "" "," !! i = Some val →
        ∃ name, Protocol.wMetrics !! i = Some name
                ∧ lines !! i
                  = Some (Protocol.promMetric (H := narrow_tables)
                            ("ovms_" +:+ "W" +:+ "_" +:+ name) val ts_example).
Proof.
  apply (X2_short_payload (H := narrow_tables) "W" "" Protocol.wMetrics ts_example []).
  - vm_compute. reflexivity.
  - vm_compute. lia.
Defined.

Example empty_payload_line :
  Protocol.rangeRecords (H := narrow_tables) [w_empty] []
  = Done ["ovms_W_wheels_count{value=" +:+ String Go.dquote (String Go.dquote "")
          +:+ "} 1 1700000000000"].
Proof. vm_compute. reflexivity. Qed.

(** X3. A batch can be cut anywhere: the lines of the whole batch are the
    lines of the first part followed by the lines of the second, after the
    lines that were there before; the loop never changes or drops a line
    it has appended.  A panic in either part is the panic of the whole. *)
Theorem X3_batch_is_concatenation `{Go.UnicodeTables}
    (first second : list Protocol.record) (metrics : list string) :
  Protocol.rangeRecords (first ++ second) metrics
  = l1 ← Protocol.rangeRecords first [];
    l2 ← Protocol.rangeRecords second [];
    Done (metrics ++ l1 ++ l2).
Proof.
  rewrite Protocol_rangeRecords_app.
  rewrite (rangeRecords_from_nil first metrics).
  destruct (Protocol.rangeRecords first []) as [l1| |]; simpl; [|done..].
  rewrite (rangeRecords_from_nil second (metrics ++ l1)).
  destruct (Protocol.rangeRecords second []) as [l2| |]; simpl; [|done..].
  by rewrite app_assoc.
Qed.

(** X4. The protocol loop is never ended by [vlog.Fatalf], and it runs to
    the end exactly when no decoded record has more fields than its schema
    has slots; the lines already there and the lines of other records play
    no part in that. *)
Theorem X4_protocol_completes_iff_fits `{Go.UnicodeTables}
    (records : list Protocol.record) (metrics : list string) :
  Protocol.rangeRecords records metrics ≠ Fatal
  ∧ completes (Protocol.rangeRecords records metrics) = forallb fits records.
Proof.
  revert metrics. induction records as [|rec rest IH]; intros metrics; simpl;
    [done |].
  destruct (decodeRecord_fits rec metrics) as [Hfatal Hfits].
  destruct (Protocol.decodeRecord rec metrics) as [mid| |]; simpl in *;
    [| |done].
  - rewrite <- Hfits. simpl. apply IH.
  - by rewrite <- Hfits.
Qed.

(** ** The protocol exporter: the text and its lines

    No byte of a payload can start a line of its own: a value with a line
    feed is not a float literal and goes through [%q], which writes the
    line feed as [\n]. *)

Lemma readDigits_consumed hex : ∀ s st st' rest,
  Go.readDigits hex st s = (st', rest) →
  ∃ pre, s = pre +:+ rest ∧ oneLine pre = true.
Proof.
  induction s as [|c s IH]; intros st st' rest Hrun; simpl in Hrun.
  - injection Hrun as _ <-. by exists "".
  - repeat match type of Hrun with
    | (if ?b then _ else _) = _ => destruct b eqn:?
    end.
    all: try (injection Hrun as _ <-; by exists "").
    all: apply IH in Hrun as (pre & -> & Hpre); exists (String c pre);
      (split; [done |]); simpl; rewrite Hpre, andb_true_r;
      apply negb_true_iff, Z.eqb_neq.
    all: unfold Go.isDigit, Go.lower in *.
    all: intros E; rewrite E in *; destruct hex; cbn in *; discriminate.
Qed.

Lemma readExpDigits_consumed : ∀ s e us e' us' rest,
  Go.readExpDigits e us s = (e', us', rest) →
  ∃ pre, s = pre +:+ rest ∧ oneLine pre = true.
Proof.
  induction s as [|c s IH]; intros e us e' us' rest Hrun; simpl in Hrun.
  - injection Hrun as _ _ <-. by exists "".
  - repeat match type of Hrun with
    | (if ?b then _ else _) = _ => destruct b eqn:?
    end.
    all: try (injection Hrun as _ _ <-; by exists "").
    all: apply IH in Hrun as (pre & -> & Hpre); exists (String c pre);
      (split; [done |]); simpl; rewrite Hpre, andb_true_r;
      apply negb_true_iff, Z.eqb_neq.
    all: unfold Go.isDigit in *.
    all: intros E; rewrite E in *; cbn in *; discriminate.
Qed.

Lemma dropSign_oneLine s : oneLine (Go.dropSign s) = true → oneLine s = true.
Proof.
  destruct s as [|c s]; simpl; [done |].
  destruct ((Go.byte_val c =? 43) || (Go.byte_val c =? 45)) eqn:Hsign; [|done].
  intros ->. rewrite andb_true_r. apply negb_true_iff, Z.eqb_neq.
  intros E. rewrite E in Hsign. cbn in Hsign. discriminate.
Qed.

Lemma readFloat_ok_oneLine s : Go.readFloat_ok s = true → oneLine s = true.
Proof.
  intros Hok. apply dropSign_oneLine. unfold Go.readFloat_ok in Hok.
  set (body0 := Go.dropSign s) in *. clearbody body0.
  destruct (match body0 with
            | String c0 (String c1 (String c2 rest)) =>
                if (Go.byte_val c0 =? 48) && (Go.lower c1 =? 120)
                then (true, String c2 rest) else (false, body0)
            | _ => (false, body0)
            end) as [hex body] eqn:Hprefix.
  assert (∃ pfx, body0 = pfx +:+ body ∧ oneLine pfx = true) as (pfx & -> & Hpfx).
  { destruct body0 as [|c0 [|c1 [|c2 tail]]];
      try (injection Hprefix as _ <-; by exists "").
    destruct ((Go.byte_val c0 =? 48) && (Go.lower c1 =? 120)) eqn:H0x;
      [|injection Hprefix as _ <-; by exists ""].
    injection Hprefix as _ <-. exists (String c0 (String c1 "")).
    split; [done |]. apply andb_prop in H0x as [Hc0 Hc1].
    simpl. rewrite andb_true_r. apply andb_true_iff.
    split; apply negb_true_iff, Z.eqb_neq; intros E;
      unfold Go.lower in *; rewrite E in *; cbn in *; discriminate. }
  clear Hprefix.
  destruct (Go.readDigits hex _ body) as [st rest] eqn:Hdigits.
  apply readDigits_consumed in Hdigits as (pre & -> & Hpre).
  rewrite !oneLine_app, Hpfx, Hpre, !andb_true_l.
  destruct (negb (Go.sawdigits st)); [done |].
  destruct rest as [|c rest1]; [done |].
  destruct (Go.lower c =? (if hex then 112 else 101)) eqn:Hexp.
  - assert (Go.byte_val c ≠ 10) as Hc.
    { intros E. unfold Go.lower in Hexp. rewrite E in Hexp.
      destruct hex; cbn in Hexp; discriminate. }
    apply Z.eqb_neq in Hc.
    destruct rest1 as [|c1 rest2]; [done |].
    destruct (Go.byte_val c1 =? 43) eqn:Hplus;
      [|destruct (Go.byte_val c1 =? 45) eqn:Hminus].
    + destruct rest2 as [|c2 tail]; [done |].
      destruct (negb (Go.isDigit c2)); [done |].
      destruct (Go.readExpDigits 0 (Go.underscores st) (String c2 tail))
        as [[e us] rest4] eqn:Hexpdigits.
      apply readExpDigits_consumed in Hexpdigits as (pre2 & Hsplit & Hpre2).
      destruct (us && negb (Go.underscoreOK s)); [done |].
      destruct rest4; [|done].
      assert (Go.byte_val c1 ≠ 10) as Hc1 by (apply Z.eqb_eq in Hplus; lia).
      apply Z.eqb_neq in Hc1.
      rewrite Hsplit. cbn [oneLine]. by rewrite oneLine_app, Hpre2, Hc, Hc1.
    + destruct rest2 as [|c2 tail]; [done |].
      destruct (negb (Go.isDigit c2)); [done |].
      destruct (Go.readExpDigits 0 (Go.underscores st) (String c2 tail))
        as [[e us] rest4] eqn:Hexpdigits.
      apply readExpDigits_consumed in Hexpdigits as (pre2 & Hsplit & Hpre2).
      destruct (us && negb (Go.underscoreOK s)); [done |].
      destruct rest4; [|done].
      assert (Go.byte_val c1 ≠ 10) as Hc1 by (apply Z.eqb_eq in Hminus; lia).
      apply Z.eqb_neq in Hc1.
      rewrite Hsplit. cbn [oneLine]. by rewrite oneLine_app, Hpre2, Hc, Hc1.
    + destruct (negb (Go.isDigit c1)); [done |].
      destruct (Go.readExpDigits 0 (Go.underscores st) (String c1 rest2))
        as [[e us] rest4] eqn:Hexpdigits.
      apply readExpDigits_consumed in Hexpdigits as (pre2 & Hsplit & Hpre2).
      destruct (us && negb (Go.underscoreOK s)); [done |].
      destruct rest4; [|done].
      rewrite Hsplit. cbn [oneLine]. by rewrite oneLine_app, Hpre2, Hc.
  - destruct hex; [done |].
    by destruct (Go.underscores st && negb (Go.underscoreOK s)).
Qed.


Lemma not_lf_true c : Go.byte_val c ≠ 10 → negb (Go.byte_val c =? 10) = true.
Proof. intros Hc. by apply negb_true_iff, Z.eqb_neq. Qed.

Lemma commonPrefix_oneLine : ∀ s prefix,
  oneLine prefix = true →
  (String.length s ≤ Go.commonPrefixLenIgnoreCase s prefix)%nat →
  oneLine s = true.
Proof.
  induction s as [|c s IH]; intros prefix Hprefix Hlen; [done |].
  destruct prefix as [|p prefix]; simpl in Hlen; [lia |].
  simpl in Hprefix. apply andb_prop in Hprefix as [Hp Hprefix].
  apply negb_true_iff, Z.eqb_neq in Hp.
  destruct (_ =? Go.byte_val p) eqn:Hsame; [|lia].
  simpl. rewrite (IH prefix) by (done || lia). rewrite andb_true_r.
  apply not_lf_true. intros E.
  replace (Go.between 65 90 c) with false in Hsame
    by (unfold Go.between; by rewrite E).
  apply Z.eqb_eq in Hsame. lia.
Qed.

Lemma special_oneLine s :
  Go.special s = Some (String.length s) → oneLine s = true.
Proof.
  assert (∀ body nsign,
    (let n := Go.commonPrefixLenIgnoreCase body "infinity" in
     let n := if ((3 <? n) && (n <? 8))%nat then 3%nat else n in
     if ((n =? 3) || (n =? 8))%nat then Some (nsign + n)%nat else None)
    = Some (nsign + String.length body)%nat → oneLine body = true) as Hinf.
  { intros body nsign. cbv zeta. intros Hn.
    apply (commonPrefix_oneLine body "infinity"); [done |].
    destruct ((3 <? _) && (_ <? 8))%nat eqn:Hmid.
    - apply andb_prop in Hmid as [Hlo _]. apply Nat.ltb_lt in Hlo.
      simpl in Hn. injection Hn as Hn. lia.
    - destruct ((_ =? 3) || (_ =? 8))%nat; [|done]. injection Hn as Hn. lia. }
  destruct s as [|c rest]; [done |]. unfold Go.special.
  destruct ((Go.byte_val c =? 43) || (Go.byte_val c =? 45)) eqn:Hsign.
  - intros Hn. change (String.length (String c rest)) with (1 + String.length rest)%nat in Hn.
    apply Hinf in Hn. simpl. rewrite Hn, andb_true_r. apply not_lf_true.
    intros E. rewrite E in Hsign. cbn in Hsign. done.
  - destruct (Go.lower c =? 105).
    + intros Hn. by apply (Hinf _ 0%nat).
    + destruct (Go.lower c =? 110); [|done].
      destruct (_ =? 3)%nat eqn:Hnan; [|done]. apply Nat.eqb_eq in Hnan.
      intros Hn. apply (commonPrefix_oneLine _ "nan"); [done |].
      injection Hn as Hn. rewrite Hnan, Hn. done.
Qed.

Lemma ParseFloat_ok_oneLine s : Go.ParseFloat_ok s = true → oneLine s = true.
Proof.
  unfold Go.ParseFloat_ok. destruct (Go.special s) as [n|] eqn:Hspecial.
  - intros Hn. apply Nat.eqb_eq in Hn as ->. by apply special_oneLine.
  - apply readFloat_ok_oneLine.
Qed.

Lemma byte_val_of n : 0 ≤ n < 256 → Go.byte_val (Go.byte_of n) = n.
Proof.
  intros Hn. unfold Go.byte_val, Go.byte_of.
  rewrite N_ascii_embedding by lia. lia.
Qed.

Lemma lor_upper a b : 0 ≤ a → 0 ≤ b → Z.lor a b ≤ a + b.
Proof.
  intros Ha Hb. pose proof (Z.add_lor_land a b) as Hsum.
  pose proof (proj2 (Z.land_nonneg a b) (or_introl Ha)). lia.
Qed.

Lemma byte_of_not_lf n : 11 ≤ n < 256 → Go.byte_val (Go.byte_of n) ≠ 10.
Proof. intros Hn. rewrite byte_val_of by lia. lia. Qed.

Lemma tail6_not_lf x : Go.byte_val (Go.byte_of (Z.lor 128 (Z.land x 63))) ≠ 10.
Proof.
  assert (0 ≤ Z.land x 63 < 64) as Hlow.
  { change 63 with (Z.ones 6). rewrite Z.land_ones by lia.
    apply Z.mod_pos_bound. lia. }
  apply byte_of_not_lf.
  pose proof (lor_ge_l 128 (Z.land x 63)). 
  pose proof (lor_upper 128 (Z.land x 63)). lia.
Qed.

Lemma lead_not_lf base r sh :
  11 ≤ base → 0 ≤ r → r / 2 ^ sh < 256 - base → 0 ≤ sh →
  Go.byte_val (Go.byte_of (Z.lor base (Z.shiftr r sh))) ≠ 10.
Proof.
  intros Hbase Hr Hhigh Hsh. rewrite Z.shiftr_div_pow2 by done.
  assert (0 ≤ r / 2 ^ sh) by (apply Z.div_pos; lia).
  apply byte_of_not_lf.
  pose proof (lor_ge_l base (r / 2 ^ sh)).
  pose proof (lor_upper base (r / 2 ^ sh)). lia.
Qed.

Lemma AppendRune_oneLine r : r ≠ 10 → oneLine (Go.AppendRune r) = true.
Proof.
  intros Hr. unfold Go.AppendRune.
  destruct ((0 <=? r) && (r <=? 127)) eqn:H1.
  { apply andb_prop in H1 as [?%Z.leb_le ?%Z.leb_le].
    cbn [oneLine]. rewrite not_lf_true; [done |]. rewrite byte_val_of by lia. done. }
  destruct ((0 <=? r) && (r <=? 2047)) eqn:H2.
  { apply andb_prop in H2 as [?%Z.leb_le ?%Z.leb_le].
    cbn [oneLine]. rewrite !not_lf_true; [done | apply tail6_not_lf |].
    apply lead_not_lf; try lia.
    apply Z.div_lt_upper_bound; lia. }
  destruct (negb (Go.ValidRune r)) eqn:Hvalid.
  { by vm_compute. }
  apply negb_false_iff in Hvalid. unfold Go.ValidRune in Hvalid.
  assert (0 ≤ r ≤ 1114111) as Hrange.
  { apply orb_prop in Hvalid as [Hv|Hv];
      apply andb_prop in Hv as [Hlo Hhi]; lia. }
  destruct (r <=? 65535) eqn:H3.
  { apply Z.leb_le in H3.
    cbn [oneLine]. rewrite !not_lf_true; [done | apply tail6_not_lf.. |].
    apply lead_not_lf; try lia.
    apply Z.div_lt_upper_bound; lia. }
  cbn [oneLine]. rewrite !not_lf_true; [done | apply tail6_not_lf.. |].
  apply lead_not_lf; try lia.
  apply Z.div_lt_upper_bound; lia.
Qed.

Lemma lowerhex_not_lf n : Go.byte_val (Go.lowerhex n) ≠ 10.
Proof.
  unfold Go.lowerhex. generalize (Z.to_nat n). intros k.
  do 16 (destruct k as [|k]; [by vm_compute |]). by vm_compute.
Qed.

Lemma hexdigits_oneLine r n : oneLine (Go.hexdigits r n) = true.
Proof.
  induction n as [|k IH]; [done |].
  simpl. rewrite IH, andb_true_r. apply not_lf_true, lowerhex_not_lf.
Qed.

Lemma esc_hex_oneLine (c : ascii) r n :
  Go.byte_val c ≠ 10 → oneLine (Go.esc c +:+ Go.hexdigits r n) = true.
Proof.
  intros Hc. rewrite oneLine_app, hexdigits_oneLine, andb_true_r.
  simpl. by rewrite not_lf_true.
Qed.

Section QuoteLines.
Context `{Go.UnicodeTables}.

Lemma appendEscapedRune_oneLine r : oneLine (Go.appendEscapedRune r) = true.
Proof.
  unfold Go.appendEscapedRune.
  destruct ((r =? 34) || (r =? 92)) eqn:Hq.
  { apply orb_prop in Hq as [->%Z.eqb_eq| ->%Z.eqb_eq]; by vm_compute. }
  destruct (Go.IsPrint r) eqn:Hprint.
  { apply AppendRune_oneLine. intros ->. by vm_compute in Hprint. }
  repeat match goal with
  | |- oneLine (if ?b then _ else _) = true => destruct b
  end; try by vm_compute.
  all: by apply esc_hex_oneLine.
Qed.

Lemma quoteBody_oneLine : ∀ s skip, oneLine (Go.quoteBody skip s) = true.
Proof.
  induction s as [|c s IH]; intros skip; [done |].
  destruct skip as [|k]; [|apply IH].
  change (Go.quoteBody 0 (String c s))
    with (let '(r, width) := Go.DecodeRuneInString (String c s) in
          (if (width =? 1)%nat && (r =? Go.RuneError)
           then Go.esc "x" +:+ Go.hexdigits (Go.byte_val c) 2
           else Go.appendEscapedRune r)
          +:+ Go.quoteBody (width - 1) s).
  destruct (Go.DecodeRuneInString (String c s)) as [r width].
  rewrite oneLine_app, IH, andb_true_r.
  destruct ((width =? 1)%nat && (r =? Go.RuneError)).
  - by apply esc_hex_oneLine.
  - apply appendEscapedRune_oneLine.
Qed.

Lemma Quote_oneLine s : oneLine (Go.Quote s) = true.
Proof.
  unfold Go.Quote.
  change (String Go.dquote (Go.quoteBody 0 s +:+ String Go.dquote ""))
    with (String Go.dquote "" +:+ Go.quoteBody 0 s +:+ String Go.dquote "").
  by rewrite !oneLine_app, quoteBody_oneLine.
Qed.

End QuoteLines.

Section ProtocolLines.
Context `{Go.UnicodeTables}.

Lemma promMetric_oneLine name val ts :
  oneLine name = true → oneLine (Protocol.promMetric name val ts) = true.
Proof.
  intros Hname. unfold Protocol.promMetric.
  destruct (Go.ParseFloat_ok val) eqn:Hval; simpl negb; cbv iota.
  - apply ParseFloat_ok_oneLine in Hval.
    by rewrite !oneLine_app, Hname, Hval, itoa_oneLine.
  - by rewrite !oneLine_app, Hname, Quote_oneLine, itoa_oneLine.
Qed.

Lemma schema_name_oneLine code m (i : nat) name :
  Protocol.metricsMap !! code = Some m → m !! i = Some name →
  oneLine ("ovms_" +:+ code +:+ "_" +:+ name) = true.
Proof.
  intros Hm Hname. apply list_elem_of_lookup_2 in Hname.
  assert (oneLine code = true ∧ forallb oneLine m = true) as [Hcode Hall].
  { destruct (metricsMap_supported _ _ Hm) as [[-> ->]|[[-> ->]|[[-> ->]|[-> ->]]]];
      by vm_compute. }
  rewrite forallb_forall in Hall.
  rewrite !oneLine_app, Hcode, (Hall name); [done |].
  by apply list_elem_of_In.
Qed.

Lemma rangeData_oneLine code m ts data : ∀ i metrics lines,
  Protocol.metricsMap !! code = Some m →
  Forall (λ line, oneLine line = true) metrics →
  Protocol.rangeData code m ts i data metrics = Done lines →
  Forall (λ line, oneLine line = true) lines.
Proof.
  induction data as [|val rest IH]; intros i metrics lines Hm Hmetrics Hrun;
    simpl in Hrun.
  - by injection Hrun as <-.
  - destruct (m !! i) as [name|] eqn:Hname; [|done].
    apply (IH _ _ _ Hm) in Hrun; [done |].
    apply Forall_app. split; [done |]. apply Forall_singleton.
    apply promMetric_oneLine. by apply (schema_name_oneLine code m i).
Qed.

Lemma rangeRecords_oneLine records : ∀ metrics lines,
  Forall (λ line, oneLine line = true) metrics →
  Protocol.rangeRecords records metrics = Done lines →
  Forall (λ line, oneLine line = true) lines.
Proof.
  induction records as [|rec rest IH]; intros metrics lines Hmetrics Hrun;
    simpl in Hrun.
  - by injection Hrun as <-.
  - destruct (Protocol.decodeRecord rec metrics) as [mid| |] eqn:Hrec;
      simpl in Hrun; [|done..].
    apply (IH mid); [|done].
    unfold Protocol.decodeRecord, Protocol.decodePayload in Hrec.
    destruct (Go.ParseInLocation (Protocol.MsgTime rec)) as [ts|];
      [|by injection Hrec as <-].
    destruct (Protocol.metricsMap !! Protocol.Code rec) as [m|] eqn:Hm;
      [|by injection Hrec as <-].
    by apply (rangeData_oneLine _ _ _ _ _ _ _ Hm Hmetrics Hrec).
Qed.

End ProtocolLines.

(** X5. The text of the protocol exporter has one line per sample and
    nothing else: no sample line has a line feed in it, whatever bytes the
    payloads hold, and splitting the text at the line feeds gives back the
    sample lines, in order, followed by one empty piece.  The batch with
    no sample gives the text of one line feed, which splits into two empty
    pieces. *)
Theorem X5_text_splits_into_samples `{Go.UnicodeTables}
    (data : string) (records : list Protocol.record) (text : string) :
  data ≠ "" →
  Protocol.fetchMetrics (Protocol.FetchBody data (Some records)) = Done text →
  ∃ lines,
    Protocol.rangeRecords records [] = Done lines
    ∧ Forall (λ line, oneLine line = true) lines
    ∧ Go.Split text (ascii_of_nat 10)
      = match lines with [] => [""] | _ :: _ => lines end ++ [""].
Proof.
  intros Hdata Hrun. unfold Protocol.fetchMetrics in Hrun.
  destruct data as [|c data]; [done |]. simpl in Hrun.
  destruct (Protocol.rangeRecords records []) as [lines| |] eqn:Hlines;
    simpl in Hrun; [|done..].
  injection Hrun as <-. exists lines. split; [done |].
  assert (Forall (λ line, oneLine line = true) lines) as Hall
    by (by apply (rangeRecords_oneLine records [] lines)).
  split; [done |].
  destruct lines as [|line rest]; [done |].
  rewrite Join_terminated by done. by apply Split_terminated.
Qed.

Lemma X5_text_splits_into_samples_witness :
  ∃ lines,
    Protocol.rangeRecords (H := narrow_tables) [w_line_feed] [] = Done lines
    ∧ Forall (λ line, oneLine line = true) lines
    ∧ Go.Split line_feed_text (ascii_of_nat 10)
      = match lines with [] => [""] | _ :: _ => lines end ++ [""].
Proof.
  apply (X5_text_splits_into_samples (H := narrow_tables) "[...]" [w_line_feed]
           line_feed_text).
  - done.
  - vm_compute. reflexivity.
Defined.

(** ** The protocol exporter: the cache over a run of polls *)

(** X6. After any run of polls that the process survives, the cached text
    is the text of the last poll whose [fetchMetrics] returned a non-empty
    text, whole and unchanged, or the text from before the run when no
    poll returned one.  A cache that holds a text never goes back to the
    empty text. *)
Theorem X6_cache_after_polls `{Go.UnicodeTables}
    (metricsText : string) (fs : list Protocol.fetched) (text : string) :
  Protocol.polls metricsText fs = Done text →
  ((Forall (λ f, Protocol.fetchMetrics f = Done "") fs ∧ text = metricsText)
   ∨ (∃ before f after,
        fs = before ++ f :: after
        ∧ Protocol.fetchMetrics f = Done text
        ∧ text ≠ ""
        ∧ Forall (λ g, Protocol.fetchMetrics g = Done "") after))
  ∧ (metricsText ≠ "" → text ≠ "").
Proof.
  revert metricsText. induction fs as [|f rest IH]; intros metricsText Hrun.
  - injection Hrun as <-. split; [by left | done].
  - simpl in Hrun. unfold Protocol.poll in Hrun.
    destruct (Protocol.fetchMetrics f) as [m| |] eqn:Hf; simpl in Hrun; [|done..].
    destruct (IH _ Hrun) as [Hwhich Hfull].
    case_bool_decide as Hm.
    + split; [|by auto]. right.
      destruct Hwhich as [[Hrest ->]|(before & g & after & -> & Hg & Htext & Hafter)].
      * by exists [], f, rest.
      * by exists (f :: before), g, after.
    + assert (m = "") as -> by (by destruct (decide (m = ""))).
      split; [|done].
      destruct Hwhich as [[Hrest ->]|(before & g & after & -> & Hg & Htext & Hafter)].
      * left. split; [by constructor | done].
      * right. by exists (f :: before), g, after.
Qed.

Lemma X6_cache_after_polls_witness :
  ((Forall (λ f, Protocol.fetchMetrics (H := narrow_tables) f = Done "")
      [polled_example; Protocol.FetchNil]
    ∧ text_example = cached_example)
   ∨ (∃ before f after,
        [polled_example; Protocol.FetchNil] = before ++ f :: after
        ∧ Protocol.fetchMetrics (H := narrow_tables) f = Done text_example
        ∧ text_example ≠ ""
        ∧ Forall (λ g, Protocol.fetchMetrics (H := narrow_tables) g = Done "") after))
  ∧ (cached_example ≠ "" → text_example ≠ "").
Proof.
  apply (X6_cache_after_polls (H := narrow_tables) cached_example
           [polled_example; Protocol.FetchNil] text_example).
  vm_compute. reflexivity.
Defined.

(** ** The protocol exporter: slots that share a name *)

(** X7. Three pairs of slots of the protocol schemas carry the same name:
    slots 4 and 13 of S ([ms_v_charge_state]), slots 5 and 14 of S
    ([ms_v_charge_mode]) and slots 10 and 13 of D ([ms_v_env_temp]).  A
    record that reaches the second slot of a pair gives two sample lines
    under one metric name and one timestamp, one from each field. *)
Theorem X7_repeated_series `{Go.UnicodeTables}
    (code : string) (i j : nat) (name msg : string) (m : list string)
    (ts : Go.Time) (metrics : list string) :
  (code, i, j, name) ∈ [("S", 4%nat, 13%nat, "ms_v_charge_state");
                        ("S", 5%nat, 14%nat, "ms_v_charge_mode");
                        ("D", 10%nat, 13%nat, "ms_v_env_temp")] →
  Protocol.metricsMap !! code = Some m →
  (j < length (Go.Split msg ",") ≤ length m)%nat →
  ∃ lines vi vj,
    Protocol.decodePayload code msg ts metrics = Done (metrics ++ lines)
    ∧ i ≠ j
    ∧ Go.Split msg "," !! i = Some vi
    ∧ Go.Split msg "," !! j = Some vj
    ∧ lines !! i
      = Some (Protocol.promMetric ("ovms_" +:+ code +:+ "_" +:+ name) vi ts)
    ∧ lines !! j
      = Some (Protocol.promMetric ("ovms_" +:+ code +:+ "_" +:+ name) vj ts).
Proof.
  intros Hslots Hm Hlen.
  assert (i < j ∧ m !! i = Some name ∧ m !! j = Some name)%nat as (Hij & Hi & Hj).
  { repeat (apply elem_of_cons in Hslots as [[= -> -> -> ->]|Hslots];
            [apply (inj Some) in Hm as <-; split; [lia | by split] |]).
    by apply elem_of_nil in Hslots. }
  destruct (lookup_lt_is_Some_2 (Go.Split msg ",") i) as [vi Hvi]; [lia |].
  destruct (lookup_lt_is_Some_2 (Go.Split msg ",") j) as [vj Hvj]; [lia |].
  eexists _, vi, vj. unfold Protocol.decodePayload. rewrite Hm.
  rewrite rangeData_fits by lia. rewrite drop_0.
  split; [done |]. split; [lia |]. split; [done |]. split; [done |].
  rewrite !lookup_zip_with, Hi, Hj, Hvi, Hvj. done.
Qed.

Lemma X7_repeated_series_witness :
  ∃ lines vi vj,
    Protocol.decodePayload (H := narrow_tables) "D" d_payload ts_example []
    = Done ([] ++ lines)
    ∧ 10%nat ≠ 13%nat
    ∧ Go.Split d_payload "," !! 10%nat = Some vi
    ∧ Go.Split d_payload "," !! 13%nat = Some vj
    ∧ lines !! 10%nat
      = Some (Protocol.promMetric (H := narrow_tables)
                ("ovms_" +:+ "D" +:+ "_" +:+ "ms_v_env_temp") vi ts_example)
    ∧ lines !! 13%nat
      = Some (Protocol.promMetric (H := narrow_tables)
                ("ovms_" +:+ "D" +:+ "_" +:+ "ms_v_env_temp") vj ts_example).
Proof.
  apply (X7_repeated_series (H := narrow_tables) "D" 10 13 "ms_v_env_temp"
           d_payload Protocol.dMetrics ts_example []).
  - set_solver.
  - vm_compute. reflexivity.
  - vm_compute. lia.
Defined.


(** ** The cached text under its lock: the lock and the history *)

Section CacheLock.
Context `{Go.UnicodeTables}.
Import Cache.

Lemma pending_step s s' : pending_ok s → step s s' → pending_ok s'.
Proof.
  unfold pending_ok. intros Hs Hstep. destruct Hstep; simpl in *; try done.
  split; [done |]. by eexists.
Qed.

Lemma pending_reachable s : reachable s → pending_ok s.
Proof.
  unfold reachable. intros Hreach.
  apply (rtc_ind_r (R := step) pending_ok init); [done | |done].
  intros s1 s2 _ Hstep IH. by eapply pending_step.
Qed.

Lemma published_step s s' :
  pending_ok s → step s s' →
  published s' = published s
  ∨ ∃ m, fetched_text m ∧ published s' = m :: published s.
Proof.
  unfold pending_ok. intros Hs Hstep. destruct Hstep; simpl in *; eauto.
Qed.

End CacheLock.

(** X8. In every reachable state of [main] the lock does its work: the
    reader count is the number of handlers inside their copy; the poller
    holds [mu] exactly while it is inside its assignment, and then no
    handler is inside its copy; whenever the poller does not hold [mu] the
    two words of [metricsText] denote the text published last; and a
    handler inside its copy has loaded nothing but words of that text. *)
Theorem X8_lock_discipline `{Go.UnicodeTables} (s : Cache.state) :
  Cache.reachable s →
  Cache.readers s = Cache.holders (Cache.requests s)
  ∧ (Cache.writer s = true ↔
     ∃ m data_done len_done, Cache.refresh s = Cache.Storing m data_done len_done)
  ∧ (Cache.writer s = true →
     Cache.readers s = 0%nat
     ∧ Forall (λ h, Cache.holds h = false) (Cache.requests s))
  ∧ ∃ cur older,
      Cache.published s = cur :: older
      ∧ (Cache.writer s = false →
         Cache.header_text (Cache.data_word s) (Cache.len_word s) = cur)
      ∧ ∀ (i : nat) was p n,
          Cache.requests s !! i = Some (Cache.Loading was p n) →
          Cache.writer s = false
          ∧ (p = None ∨ p = Some cur)
          ∧ (n = None ∨ n = Some (String.length cur)).
Proof.
  intros Hreach.
  destruct (invariant_reachable s Hreach) as (cur & older & Hpub & Hwords & Hw & Hr & Hall).
  split; [done |]. split; [|split].
  - unfold Cache.words_ok in Hwords. destruct (Cache.refresh s) as [|m|m dd ld].
    + destruct Hwords as [-> _]. split; [done | by intros (? & ? & ? & ?)].
    + destruct Hwords as [-> _]. split; [done | by intros (? & ? & ? & ?)].
    + destruct Hwords as [-> _]. split; [by eauto | done].
  - intros Hwr. specialize (Hw Hwr). split; [done |].
    apply Forall_forall. intros h Hh. eapply no_holders; [|done]. lia.
  - exists cur, older. split; [done |]. split.
    + intros Hwr. unfold Cache.words_ok in Hwords.
      destruct (Cache.refresh s); destruct Hwords as (Hwr' & -> & ->);
        [| |congruence]; apply substring_whole.
    + intros i was p n Hi.
      pose proof (Forall_lookup_1 _ _ _ _ Hall Hi) as (_ & Hp & Hn).
      split; [|done].
      destruct (Cache.writer s) eqn:Hwr; [|done].
      specialize (Hw eq_refl).
      assert (Cache.holds (Cache.Loading was p n) = false) as Hno; [|done].
      eapply no_holders; [|by eapply list_elem_of_lookup_2]. lia.
Qed.

Lemma X8_lock_discipline_witness :
  Cache.readers served_example = Cache.holders (Cache.requests served_example)
  ∧ (Cache.writer served_example = true ↔
     ∃ m data_done len_done,
       Cache.refresh served_example = Cache.Storing m data_done len_done)
  ∧ (Cache.writer served_example = true →
     Cache.readers served_example = 0%nat
     ∧ Forall (λ h, Cache.holds h = false) (Cache.requests served_example))
  ∧ ∃ cur older,
      Cache.published served_example = cur :: older
      ∧ (Cache.writer served_example = false →
         Cache.header_text (Cache.data_word served_example)
           (Cache.len_word served_example) = cur)
      ∧ ∀ (i : nat) was p n,
          Cache.requests served_example !! i = Some (Cache.Loading was p n) →
          Cache.writer served_example = false
          ∧ (p = None ∨ p = Some cur)
          ∧ (n = None ∨ n = Some (String.length cur)).
Proof.
  apply (X8_lock_discipline (H := narrow_tables) served_example).
  apply served_example_reachable.
Defined.

(** X9. The texts assigned to [metricsText] only accumulate: from a
    reachable state on, the history is the earlier history with new texts
    in front, each of them a non-empty result of [fetchMetrics].  So once
    the cache holds a non-empty text it holds one in every later state. *)
Theorem X9_history_only_grows `{Go.UnicodeTables} (s s' : Cache.state) :
  Cache.reachable s → rtc Cache.step s s' →
  ∃ newer,
    Cache.published s' = newer ++ Cache.published s
    ∧ Forall fetched_text newer
    ∧ (∀ cur older cur' older',
         Cache.published s = cur :: older →
         Cache.published s' = cur' :: older' →
         cur ≠ "" → cur' ≠ "").
Proof.
  intros Hreach Hsteps.
  assert (pending_ok s' ∧ ∃ newer,
            Cache.published s' = newer ++ Cache.published s
            ∧ Forall fetched_text newer) as [_ (newer & Hpub & Hnewer)].
  { apply (rtc_ind_r (R := Cache.step)
             (λ s', pending_ok s' ∧ ∃ newer,
                Cache.published s' = newer ++ Cache.published s
                ∧ Forall fetched_text newer) s); [| |done].
    - split; [by apply pending_reachable |]. by exists [].
    - intros s1 s2 _ Hstep [Hpending (newer & Hpub & Hnewer)].
      split; [by eapply pending_step |].
      destruct (published_step s1 s2 Hpending Hstep) as [->|(m & Hm & ->)].
      + by exists newer.
      + exists (m :: newer). rewrite Hpub. split; [done | by constructor]. }
  exists newer. split; [done |]. split; [done |].
  intros cur older cur' older' Hs Hs' Hcur.
  rewrite Hs, Hs' in Hpub. destruct newer as [|new newer]; simpl in Hpub.
  - by injection Hpub as -> _.
  - injection Hpub as -> _. apply Forall_cons in Hnewer as [[Hnew _] _]. done.
Qed.

Lemma X9_history_only_grows_witness :
  ∃ newer,
    Cache.published served_example = newer ++ Cache.published Cache.init
    ∧ Forall (fetched_text (H := narrow_tables)) newer
    ∧ (∀ cur older cur' older',
         Cache.published Cache.init = cur :: older →
         Cache.published served_example = cur' :: older' →
         cur ≠ "" → cur' ≠ "").
Proof.
  apply (X9_history_only_grows (H := narrow_tables) Cache.init served_example).
  - apply rtc_refl.
  - apply served_example_reachable.
Defined.

(** ** The historical exporter: how a batch ends *)

(** X10. Whether the historical loop gets through a batch depends on the
    records alone, not on the filter and not on the groups built so far:
    it completes exactly when every record has a timestamp that parses and
    at most as many fields as the table has slots.  Otherwise the first
    record that fails decides how the process ends: [vlog.Fatalf] for a
    bad timestamp, an index panic for a payload that is too long. *)
Theorem X10_historical_outcome (filter : Go.regexp)
    (records : list Historical.record) (metrics : gmap string (list string)) :
  completes (Historical.rangeRecords filter records metrics)
  = forallb decodable records
  ∧ ∀ before rec after,
      records = before ++ rec :: after →
      forallb decodable before = true → decodable rec = false →
      Historical.rangeRecords filter records metrics
      = match Go.ParseInLocation (Historical.Timestamp rec) with
        | Some _ => Panic
        | None => Fatal
        end.
Proof.
  split.
  - destruct (forallb decodable records) eqn:Hall.
    + by destruct (Historical_rangeRecords_groups filter records metrics Hall)
        as (metrics' & -> & _).
    + destruct (Historical.rangeRecords filter records metrics) as [metrics'| |] eqn:Hrun;
        [|done..].
      apply Historical_rangeRecords_Done in Hrun. congruence.
  - intros before rec after -> Hbefore Hrec.
    rewrite Historical_rangeRecords_app.
    destruct (Historical_rangeRecords_groups filter before metrics Hbefore)
      as (mid & -> & _).
    simpl. unfold Historical.decodeRecord. unfold decodable in Hrec.
    destruct (Go.ParseInLocation (Historical.Timestamp rec)) as [ts|]; [|done].
    apply Nat.leb_gt in Hrec.
    rewrite Historical_rangeData_overruns; [done | lia | lia].
Qed.

Lemma X10_historical_outcome_witness :
  Historical.rangeRecords match_all [h_full; h_surplus; h_bad_time] ∅
  = match Go.ParseInLocation (Historical.Timestamp h_surplus) with
    | Some _ => Panic
    | None => Fatal
    end.
Proof.
  apply (proj2 (X10_historical_outcome match_all [h_full; h_surplus; h_bad_time] ∅)
           [h_full] h_surplus [h_bad_time]).
  - reflexivity.
  - vm_compute. reflexivity.
  - vm_compute. reflexivity.
Defined.

(** The text of the groups in one order: the first group, then the
    others. *)
Lemma renderIn_from acc order :
  foldl (λ r '(m, s), r +:+ Historical.block m s) acc order
  = acc +:+ Historical.renderIn order.
Proof.
  unfold Historical.renderIn. revert acc.
  induction order as [|[m s] rest IH]; intros acc; simpl.
  - induction acc as [|c acc IHacc]; [done |].
    change (String c acc +:+ "") with (String c (acc +:+ "")). by rewrite <- IHacc.
  - rewrite (IH (acc +:+ Historical.block m s)), (IH ("" +:+ Historical.block m s)).
    by rewrite string_app_assoc.
Qed.

Lemma renderIn_cons m s rest :
  Historical.renderIn ((m, s) :: rest)
  = Historical.block m s +:+ Historical.renderIn rest.
Proof. unfold Historical.renderIn at 1. simpl. by rewrite renderIn_from. Qed.

Lemma renders_empty_text metrics r :
  Historical.renders metrics r → r = "" ↔ metrics = ∅.
Proof.
  intros (order & Horder & ->). split.
  - destruct order as [|[m s] rest].
    + intros _. apply map_to_list_empty_iff. by apply Permutation_nil.
    + rewrite renderIn_cons. done.
  - intros ->. rewrite map_to_list_empty in Horder.
    by apply Permutation_nil_r in Horder as ->.
Qed.

(** Any group can open the text. *)
Lemma renders_first metrics m s :
  metrics !! m = Some s →
  Historical.renders metrics
    (Historical.block m s
     +:+ Historical.renderIn (map_to_list (delete m metrics))).
Proof.
  intros Hm. exists ((m, s) :: map_to_list (delete m metrics)). split.
  - by apply map_to_list_delete.
  - by rewrite renderIn_cons.
Qed.

Lemma Historical_poll_undecoded filter metricsText o :
  Historical.poll filter metricsText None o ↔ o = Done metricsText.
Proof.
  unfold Historical.poll, Historical.fetchMetrics. split.
  - by intros (om & -> & ->).
  - intros ->. by exists (Done "").
Qed.

Lemma Historical_poll_decoded filter metricsText records text :
  Historical.poll filter metricsText (Some records) (Done text) →
  ∃ metrics,
    Historical.rangeRecords filter records ∅ = Done metrics
    ∧ ((metrics = ∅ ∧ text = metricsText
        ∧ ∀ m, batchLines filter m records = [])
       ∨ (metrics ≠ ∅ ∧ text ≠ "" ∧ Historical.renders metrics text)).
Proof.
  intros (om & Hom & Htext).
  unfold Historical.fetchMetrics, Historical.snapshot in Hom.
  destruct (Historical.rangeRecords filter records ∅) as [metrics| |] eqn:Hrun;
    [|by subst om..].
  destruct Hom as (r & Hr & ->). simpl in Htext.
  exists metrics. split; [done |].
  pose proof (renders_empty_text metrics r Hr) as Hempty.
  case_bool_decide as Hne; injection Htext as ->.
  - right. split; [|done]. intros Hmetrics. by apply Hne, Hempty.
  - left. assert (r = "") as Hnil by (by destruct (decide (r = ""))).
    apply Hempty in Hnil as ->. split; [done |]. split; [done |].
    intros m. pose proof (snapshot_groups _ _ _ m Hrun) as Hm.
    rewrite lookup_empty in Hm. by destruct (batchLines filter m records).
Qed.

(** X11. A poll of the historical exporter leaves the cached text as it
    is when the body is no JSON, and when the batch is decoded but the
    filter selects no field of it (no record, or no field at a slot whose
    name matches): the map is empty then and the text rendered from it is
    the empty text.  In every other poll that completes the map has a
    group, every text it can be rendered to is non-empty, and that text
    replaces the cache. *)
Theorem X11_historical_poll (filter : Go.regexp) (metricsText : string) :
  (∀ o, Historical.poll filter metricsText None o ↔ o = Done metricsText)
  ∧ ∀ records text,
      Historical.poll filter metricsText (Some records) (Done text) →
      ∃ metrics,
        Historical.rangeRecords filter records ∅ = Done metrics
        ∧ ((metrics = ∅ ∧ text = metricsText
            ∧ ∀ m, batchLines filter m records = [])
           ∨ (metrics ≠ ∅ ∧ text ≠ "" ∧ Historical.renders metrics text)).
Proof.
  split.
  - apply Historical_poll_undecoded.
  - apply Historical_poll_decoded.
Qed.

Lemma X11_historical_poll_witness :
  ∃ metrics,
    Historical.rangeRecords Historical.filterFlag [h_full] ∅ = Done metrics
    ∧ ((metrics = ∅ ∧ Historical.block "v_b_12v_voltage" (voltageLines [h_full]) = ""
        ∧ ∀ m, batchLines Historical.filterFlag m [h_full] = [])
       ∨ (metrics ≠ ∅
          ∧ Historical.block "v_b_12v_voltage" (voltageLines [h_full]) ≠ ""
          ∧ Historical.renders metrics
              (Historical.block "v_b_12v_voltage" (voltageLines [h_full])))).
Proof.
  apply (proj2 (X11_historical_poll Historical.filterFlag "") [h_full]
           (Historical.block "v_b_12v_voltage" (voltageLines [h_full]))).
  exists (Done (Historical.block "v_b_12v_voltage" (voltageLines [h_full]))).
  split; [|vm_compute; reflexivity].
  unfold Historical.fetchMetrics, Historical.snapshot.
  replace (Historical.rangeRecords Historical.filterFlag [h_full] ∅)
    with (Done ({[ "v_b_12v_voltage" := voltageLines [h_full] ]}
                : gmap string (list string)))
    by (vm_compute; reflexivity).
  eexists. split; [|done]. by apply renders_singleton.
Defined.

(** ** The historical exporter: the order of the groups *)

Lemma block_opens m s tail :
  Historical.block m s +:+ tail
  = "# TYPE " +:+ m
    +:+ String " " ("gauge" +:+ Go.nl +:+ Go.Join s Go.nl +:+ Go.nl +:+ tail).
Proof. unfold Historical.block. by rewrite !string_app_assoc. Qed.

Lemma string_app_inv_head (a x y : string) : a +:+ x = a +:+ y → x = y.
Proof.
  induction a as [|c a IH]; [done |]. intros Heq.
  change (String c (a +:+ x) = String c (a +:+ y)) in Heq.
  injection Heq as Heq. by apply IH.
Qed.

(** A text tells the name of its first group. *)
Lemma block_name_inj m1 s1 tail1 m2 s2 tail2 :
  lacks " " m1 = true → lacks " " m2 = true →
  Historical.block m1 s1 +:+ tail1 = Historical.block m2 s2 +:+ tail2 →
  m1 = m2.
Proof.
  intros H1 H2. rewrite !block_opens. intros Heq.
  apply string_app_inv_head in Heq.
  apply (f_equal (λ text, Go.Split text " ")) in Heq.
  rewrite !Split_piece in Heq by done. by injection Heq.
Qed.

Lemma group_name filter m records :
  batchLines filter m records ≠ [] → m ∈ Historical.dMetrics.
Proof.
  destruct (batchLines filter m records) as [|line rest] eqn:Hlines; [done |].
  intros _.
  destruct (batchLines_elem filter m records line)
    as (_ & rec & ts & i & val & _ & _ & Hi & _).
  { rewrite Hlines. by left. }
  by eapply list_elem_of_lookup_2.
Qed.

Lemma group_name_lacks_space m :
  m ∈ Historical.dMetrics → lacks " " m = true.
Proof.
  assert (forallb (lacks " ") Historical.dMetrics = true) as Hall
    by (by vm_compute).
  rewrite forallb_forall in Hall. intros Hm. by apply Hall, list_elem_of_In.
Qed.

(** X12. The order of the groups in the text is not fixed by the code:
    the text is built by ranging over a Go map.  Any group can come first,
    and a batch that gives two groups has two different texts it can be
    rendered to, so the text is not a function of the batch. *)
Theorem X12_group_order_not_fixed (filter : Go.regexp)
    (records : list Historical.record) (m1 m2 : string) :
  forallb decodable records = true →
  m1 ≠ m2 →
  batchLines filter m1 records ≠ [] →
  batchLines filter m2 records ≠ [] →
  ∃ r1 r2 tail1 tail2,
    Historical.snapshot filter records (Done r1)
    ∧ Historical.snapshot filter records (Done r2)
    ∧ r1 = Historical.block m1 (batchLines filter m1 records) +:+ tail1
    ∧ r2 = Historical.block m2 (batchLines filter m2 records) +:+ tail2
    ∧ r1 ≠ r2.
Proof.
  intros Hall Hne H1 H2.
  destruct (Historical_rangeRecords_groups filter records ∅ Hall)
    as (metrics & Hrun & Hgroups).
  assert (∀ m, batchLines filter m records ≠ [] →
               metrics !! m = Some (batchLines filter m records)) as Hgroup.
  { intros m Hm. rewrite Hgroups, lookup_empty.
    by destruct (batchLines filter m records). }
  eexists _, _, _, _. unfold Historical.snapshot. rewrite Hrun.
  split; [eexists; split; [apply (renders_first metrics m1), Hgroup, H1 | done] |].
  split; [eexists; split; [apply (renders_first metrics m2), Hgroup, H2 | done] |].
  split; [done |]. split; [done |].
  intros Heq. apply Hne. eapply block_name_inj; [| |exact Heq].
  - by eapply group_name_lacks_space, group_name.
  - by eapply group_name_lacks_space, group_name.
Qed.

Lemma X12_group_order_not_fixed_witness :
  ∃ r1 r2 tail1 tail2,
    Historical.snapshot match_all [h_full] (Done r1)
    ∧ Historical.snapshot match_all [h_full] (Done r2)
    ∧ r1 = Historical.block "v_m_temp" (batchLines match_all "v_m_temp" [h_full])
           +:+ tail1
    ∧ r2 = Historical.block "v_b_temp" (batchLines match_all "v_b_temp" [h_full])
           +:+ tail2
    ∧ r1 ≠ r2.
Proof.
  apply (X12_group_order_not_fixed match_all [h_full] "v_m_temp" "v_b_temp").
  - vm_compute. reflexivity.
  - discriminate.
  - vm_compute. discriminate.
  - vm_compute. discriminate.
Defined.

(** ** The URL of a request *)

Lemma lacks_app sep a b : lacks sep (a +:+ b) = lacks sep a && lacks sep b.
Proof.
  induction a as [|c a IH]; [done |].
  change (String c a +:+ b) with (String c (a +:+ b)). simpl.
  by rewrite IH, andb_assoc.
Qed.

Lemma QueryEscape_cons c rest :
  Go.QueryEscape (String c rest)
  = if Go.byte_val c =? 32 then String "+" (Go.QueryEscape rest)
    else if Go.shouldEscape c then
      String "%"
        (String (Go.upperhex (Z.shiftr (Go.byte_val c) 4))
           (String (Go.upperhex (Z.land (Go.byte_val c) 15)) (Go.QueryEscape rest)))
    else String c (Go.QueryEscape rest).
Proof. reflexivity. Qed.

Lemma QueryUnescape_cons c rest :
  Go.QueryUnescape (String c rest)
  = if Go.byte_val c =? 37 then
      match rest with
      | String h (String l rest') =>
          match Go.unhex h, Go.unhex l with
          | Some hv, Some lv =>
              String (Go.byte_of (Z.lor (Z.shiftl hv 4) lv)) <$> Go.QueryUnescape rest'
          | _, _ => None
          end
      | _ => None
      end
    else if Go.byte_val c =? 43 then String " " <$> Go.QueryUnescape rest
    else String c <$> Go.QueryUnescape rest.
Proof. reflexivity. Qed.

Lemma upperhex_digit n :
  0 ≤ n < 16 →
  Go.unhex (Go.upperhex n) = Some n ∧ queryByte (Go.upperhex n) = true.
Proof.
  intros Hn.
  assert (n = 0 ∨ n = 1 ∨ n = 2 ∨ n = 3 ∨ n = 4 ∨ n = 5 ∨ n = 6 ∨ n = 7
          ∨ n = 8 ∨ n = 9 ∨ n = 10 ∨ n = 11 ∨ n = 12 ∨ n = 13 ∨ n = 14
          ∨ n = 15) as Hcases by lia.
  clear Hn.
  repeat (destruct Hcases as [Hcase|Hcases]; [rewrite Hcase; by vm_compute |]).
  rewrite Hcases. by vm_compute.
Qed.

Lemma nibbles b :
  0 ≤ b < 256 →
  0 ≤ Z.shiftr b 4 < 16 ∧ 0 ≤ Z.land b 15 < 16
  ∧ Z.lor (Z.shiftl (Z.shiftr b 4) 4) (Z.land b 15) = b.
Proof.
  intros Hb. split; [|split].
  - rewrite Z.shiftr_div_pow2 by lia. change (2 ^ 4) with 16.
    split; [apply Z.div_pos; lia | apply Z.div_lt_upper_bound; lia].
  - change 15 with (Z.ones 4). rewrite Z.land_ones by lia.
    apply Z.mod_pos_bound. lia.
  - change 15 with (Z.ones 4). rewrite <- Z.ldiff_ones_r by lia.
    apply Z.lor_ldiff_and.
Qed.

Lemma unescaped_byte c :
  Go.shouldEscape c = false →
  (Go.byte_val c =? 37) = false ∧ (Go.byte_val c =? 43) = false.
Proof.
  unfold Go.shouldEscape. intros Hc.
  split; apply Z.eqb_neq; intros E; rewrite E in Hc; by vm_compute in Hc.
Qed.

Lemma QueryEscape_round_trip s : Go.QueryUnescape (Go.QueryEscape s) = Some s.
Proof.
  induction s as [|c s IH]; [done |]. rewrite QueryEscape_cons.
  destruct (Go.byte_val c =? 32) eqn:Hspace;
    [|destruct (Go.shouldEscape c) eqn:Hesc].
  - rewrite QueryUnescape_cons.
    change (Go.byte_val "+" =? 37) with false.
    change (Go.byte_val "+" =? 43) with true. cbv iota. rewrite IH.
    apply Z.eqb_eq in Hspace.
    by rewrite (byte_val_inj c " " Hspace).
  - rewrite QueryUnescape_cons.
    change (Go.byte_val "%" =? 37) with true. cbv iota.
    destruct (nibbles (Go.byte_val c) (byte_val_range c)) as (Hhi & Hlo & Hlor).
    rewrite (proj1 (upperhex_digit _ Hhi)), (proj1 (upperhex_digit _ Hlo)).
    by rewrite Hlor, byte_of_val, IH.
  - rewrite QueryUnescape_cons.
    destruct (unescaped_byte c Hesc) as [-> ->]. by rewrite IH.
Qed.

Lemma QueryEscape_queryBytes s : queryBytes (Go.QueryEscape s) = true.
Proof.
  induction s as [|c s IH]; [done |]. rewrite QueryEscape_cons.
  destruct (nibbles (Go.byte_val c) (byte_val_range c)) as (Hhi & Hlo & _).
  destruct (Go.byte_val c =? 32); [|destruct (Go.shouldEscape c) eqn:Hesc];
    cbn [queryBytes]; rewrite IH, ?andb_true_r.
  - done.
  - by rewrite (proj2 (upperhex_digit _ Hhi)), (proj2 (upperhex_digit _ Hlo)).
  - unfold queryByte. by rewrite Hesc.
Qed.

Lemma queryBytes_lacks sep s :
  queryByte sep = false → queryBytes s = true → lacks sep s = true.
Proof.
  intros Hsep. induction s as [|c s IH]; [done |]. simpl.
  intros [Hc Hs]%andb_prop. rewrite (IH Hs), andb_true_r.
  destruct (Ascii.eqb_spec c sep) as [->|_]; [congruence | done].
Qed.

Lemma QueryEscape_lacks sep s :
  queryByte sep = false → lacks sep (Go.QueryEscape s) = true.
Proof. intros Hsep. by apply queryBytes_lacks, QueryEscape_queryBytes. Qed.

(** The query part both programs append to their URL prefix. *)
Lemma query_parameters username password :
  let query := "username=" +:+ Go.QueryEscape username
               +:+ "&password=" +:+ Go.QueryEscape password in
  lacks "?" query = true
  ∧ Go.Split query "&"
    = ["username=" +:+ Go.QueryEscape username;
       "password=" +:+ Go.QueryEscape password]
  ∧ Go.Split ("username=" +:+ Go.QueryEscape username) "="
    = ["username"; Go.QueryEscape username]
  ∧ Go.Split ("password=" +:+ Go.QueryEscape password) "="
    = ["password"; Go.QueryEscape password].
Proof.
  cbv zeta. split; [|split; [|split]].
  - by rewrite !lacks_app, !QueryEscape_lacks.
  - rewrite <- (string_app_assoc "username="). 
    change ("&password=" +:+ Go.QueryEscape password)
      with (String "&" ("password=" +:+ Go.QueryEscape password)).
    rewrite Split_piece by (by rewrite lacks_app, QueryEscape_lacks).
    by rewrite Split_last by (by rewrite lacks_app, QueryEscape_lacks).
  - change ("username=" +:+ Go.QueryEscape username)
      with ("username" +:+ String "=" (Go.QueryEscape username)).
    rewrite Split_piece by done. by rewrite Split_last by (by apply QueryEscape_lacks).
  - change ("password=" +:+ Go.QueryEscape password)
      with ("password" +:+ String "=" (Go.QueryEscape password)).
    rewrite Split_piece by done. by rewrite Split_last by (by apply QueryEscape_lacks).
Qed.

(** X13. Whatever bytes the user name and the password hold, they stay
    inside their parameters: with a server and a vehicle id without [?],
    the URL of either program has one [?], the query after it has exactly
    the two parameters [username] and [password], each with one [=], and
    unescaping the two values gives back the user name and the password.
    (The server and the vehicle id are formatted with [%s] and are not
    escaped.) *)
Theorem X13_credentials_stay_in_query (server vehicle username password : string) :
  lacks "?" server = true → lacks "?" vehicle = true →
  ∃ query,
    Go.Split (Protocol.fetchURL server vehicle username password) "?"
    = ["http://" +:+ server +:+ "/api/protocol/" +:+ vehicle; query]
    ∧ Go.Split (Historical.fetchURL server vehicle username password) "?"
      = ["http://" +:+ server +:+ "/api/historical/" +:+ vehicle +:+ "/D"; query]
    ∧ Go.Split query "&"
      = ["username=" +:+ Go.QueryEscape username;
         "password=" +:+ Go.QueryEscape password]
    ∧ Go.Split ("username=" +:+ Go.QueryEscape username) "="
      = ["username"; Go.QueryEscape username]
    ∧ Go.Split ("password=" +:+ Go.QueryEscape password) "="
      = ["password"; Go.QueryEscape password]
    ∧ Go.QueryUnescape (Go.QueryEscape username) = Some username
    ∧ Go.QueryUnescape (Go.QueryEscape password) = Some password.
Proof.
  intros Hserver Hvehicle.
  destruct (query_parameters username password) as (Hquery & Hamp & Hu & Hp).
  eexists. split; [|split; [|split; [exact Hamp |split; [exact Hu |split; [exact Hp |]]]]].
  - unfold Protocol.fetchURL. cbv zeta.
    change ("?username=" +:+ Go.QueryEscape username
            +:+ "&password=" +:+ Go.QueryEscape password)
      with (String "?" ("username=" +:+ Go.QueryEscape username
                        +:+ "&password=" +:+ Go.QueryEscape password)).
    rewrite Split_piece by (by rewrite !lacks_app, Hserver, Hvehicle).
    by rewrite Split_last.
  - unfold Historical.fetchURL. cbv zeta.
    change ("?username=" +:+ Go.QueryEscape username
            +:+ "&password=" +:+ Go.QueryEscape password)
      with (String "?" ("username=" +:+ Go.QueryEscape username
                        +:+ "&password=" +:+ Go.QueryEscape password)).
    rewrite Split_piece by (by rewrite !lacks_app, Hserver, Hvehicle).
    by rewrite Split_last.
  - split; apply QueryEscape_round_trip.
Qed.

Lemma X13_credentials_stay_in_query_witness :
  ∃ query,
    Go.Split (Protocol.fetchURL "api.openvehicles.com:6868" "CAR1" "joe" "p&ss=w?rd #1") "?"
    = ["http://" +:+ "api.openvehicles.com:6868" +:+ "/api/protocol/" +:+ "CAR1"; query]
    ∧ Go.Split (Historical.fetchURL "api.openvehicles.com:6868" "CAR1" "joe" "p&ss=w?rd #1") "?"
      = ["http://" +:+ "api.openvehicles.com:6868" +:+ "/api/historical/" +:+ "CAR1" +:+ "/D"; query]
    ∧ Go.Split query "&"
      = ["username=" +:+ Go.QueryEscape "joe";
         "password=" +:+ Go.QueryEscape "p&ss=w?rd #1"]
    ∧ Go.Split ("username=" +:+ Go.QueryEscape "joe") "="
      = ["username"; Go.QueryEscape "joe"]
    ∧ Go.Split ("password=" +:+ Go.QueryEscape "p&ss=w?rd #1") "="
      = ["password"; Go.QueryEscape "p&ss=w?rd #1"]
    ∧ Go.QueryUnescape (Go.QueryEscape "joe") = Some "joe"
    ∧ Go.QueryUnescape (Go.QueryEscape "p&ss=w?rd #1") = Some "p&ss=w?rd #1".
Proof.
  apply (X13_credentials_stay_in_query "api.openvehicles.com:6868" "CAR1" "joe"
           "p&ss=w?rd #1"); vm_compute; reflexivity.
Defined.

Example escaped_password :
  Protocol.fetchURL "api.openvehicles.com:6868" "CAR1" "joe" "p&ss=w?rd #1"
  = "http://api.openvehicles.com:6868/api/protocol/CAR1?username=joe&password=p%26ss%3Dw%3Frd+%231".
Proof. vm_compute. reflexivity. Qed.

(** The vehicle id is formatted with [%s], not escaped: its bytes can add
    a parameter. *)
Example vehicle_not_escaped :
  Go.Split (Protocol.fetchURL "host" "CAR1?x=1&" "joe" "pw") "?"
  = ["http://host/api/protocol/CAR1"; "x=1&"; "username=joe&password=pw"].
Proof. vm_compute. reflexivity. Qed.

(** ** A request that fails *)

(** X14. The two programs treat a failed request differently.  In the
    protocol exporter [fetch] returns nil after an error of [http.Get] or
    of [io.ReadAll], and the turn of the poller leaves the cached text as
    it is, as it does for a body that is no JSON.  In the historical
    exporter [fetch] logs the error of [http.Get] and goes on to
    [resp.Body] with the nil response: the process ends in a panic,
    whatever the filter and the cache are.  A turn of the historical
    poller that completes had a response, every record decoded from it got
    through the loop, and a body that is no JSON left the cache as it
    was. *)
Theorem X14_failed_request `{Go.UnicodeTables}
    (UnmarshalP : string → option (list Protocol.record))
    (UnmarshalH : string → option (list Historical.record))
    (filter : Go.regexp) (metricsText : string)
    (resp : option Go.Response) (err : bool) :
  (err = true ∨ (∃ r, resp = Some r ∧ Go.ReadErr r = true)
   ∨ (∃ r, resp = Some r ∧ UnmarshalP (Go.Body r) = None) →
   Protocol.turn UnmarshalP metricsText resp err = Done metricsText)
  ∧ (resp = None →
     ∀ o, Historical.turn UnmarshalH filter metricsText resp err o ↔ o = Panic)
  ∧ (∀ text,
       Historical.turn UnmarshalH filter metricsText resp err (Done text) →
       ∃ r, resp = Some r
            ∧ (UnmarshalH (Go.Body r) = None → text = metricsText)
            ∧ ∀ records, UnmarshalH (Go.Body r) = Some records →
                         forallb decodable records = true).
Proof.
  split; [|split].
  - unfold Protocol.turn, Protocol.fetch.
    intros [->|[(r & -> & Hr)|(r & -> & Hr)]]; [done | |].
    + destruct err; [done |]. by rewrite Hr.
    + destruct err; [done |]. destruct (Go.ReadErr r); [done |].
      simpl. rewrite Hr. unfold Protocol.poll. simpl.
      by destruct (String.length (Go.Body r) =? 0)%nat.
  - intros -> o. done.
  - intros text Hturn. unfold Historical.turn, Historical.fetch in Hturn.
    destruct resp as [r|]; [|done]. exists r. split; [done |].
    split.
    + intros Hnone. rewrite Hnone in Hturn.
      by apply Historical_poll_undecoded in Hturn as [= ->].
    + intros records Hsome. rewrite Hsome in Hturn.
      apply Historical_poll_decoded in Hturn as (metrics & Hrun & _).
      by eapply Historical_rangeRecords_Done.
Qed.

Lemma X14_failed_request_witness :
  Protocol.turn (H := narrow_tables) no_json cached_example None true
  = Done cached_example
  ∧ ∀ o, Historical.turn no_json Historical.filterFlag cached_example None true o
         ↔ o = Panic.
Proof.
  destruct (X14_failed_request (H := narrow_tables) no_json no_json
              Historical.filterFlag cached_example None true)
    as (Hprotocol & Hhistorical & _).
  split.
  - apply Hprotocol. by left.
  - by apply Hhistorical.
Defined.

(** ** The file exporter: the text it serves *)

(** X15. The file exporter serves a text only if the file was read, its
    bytes were JSON and every record got through the loop.  The text is
    then one the groups can be rendered to, and it is the empty text
    exactly when the filter selected no field of the batch: the handler
    then answers every request with an empty body. *)
Theorem X15_file_exporter_text (filter : Go.regexp) (i : FileExporter.input)
    (all : string) :
  FileExporter.main filter i (Done all) →
  ∃ b records metrics,
    i = FileExporter.FileBytes b (Some records)
    ∧ forallb decodable records = true
    ∧ Historical.rangeRecords filter records ∅ = Done metrics
    ∧ Historical.renders metrics all
    ∧ (all = "" ↔ ∀ m, batchLines filter m records = []).
Proof.
  unfold FileExporter.main. destruct i as [|b [records|]]; [done | |done].
  unfold Historical.snapshot.
  destruct (Historical.rangeRecords filter records ∅) as [metrics| |] eqn:Hrun;
    [|done..].
  intros (r & Hr & [= <-]). exists b, records, metrics.
  split; [done |]. split; [by eapply Historical_rangeRecords_Done |].
  split; [done |]. split; [done |].
  rewrite (renders_empty_text metrics all Hr). split.
  - intros -> m. pose proof (snapshot_groups _ _ _ m Hrun) as Hm.
    rewrite lookup_empty in Hm. by destruct (batchLines filter m records).
  - intros Hnone. apply map_eq. intros m.
    by rewrite (snapshot_groups _ _ _ m Hrun), Hnone, lookup_empty.
Qed.

Lemma X15_file_exporter_text_witness :
  ∃ b records metrics,
    FileExporter.FileBytes "[...]" (Some [h_full; h_full_later])
    = FileExporter.FileBytes b (Some records)
    ∧ forallb decodable records = true
    ∧ Historical.rangeRecords Historical.filterFlag records ∅ = Done metrics
    ∧ Historical.renders metrics
        (Historical.block "v_b_12v_voltage" (voltageLines [h_full; h_full_later]))
    ∧ (Historical.block "v_b_12v_voltage" (voltageLines [h_full; h_full_later]) = ""
       ↔ ∀ m, batchLines Historical.filterFlag m records = []).
Proof.
  apply (X15_file_exporter_text Historical.filterFlag
           (FileExporter.FileBytes "[...]" (Some [h_full; h_full_later]))
           (Historical.block "v_b_12v_voltage" (voltageLines [h_full; h_full_later]))).
  unfold FileExporter.main, Historical.snapshot.
  replace (Historical.rangeRecords Historical.filterFlag [h_full; h_full_later] ∅)
    with (Done ({[ "v_b_12v_voltage" := voltageLines [h_full; h_full_later] ]}
                : gmap string (list string)))
    by (vm_compute; reflexivity).
  eexists. split; [|done]. by apply renders_singleton.
Defined.

(** ** The historical exporter: lines and line feeds *)

Lemma sampleLine_oneLine name val ts :
  oneLine name = true →
  oneLine (Historical.sampleLine name val ts) = oneLine val.
Proof.
  intros Hname. unfold Historical.sampleLine.
  rewrite !oneLine_app, Hname, itoa_oneLine. simpl.
  by rewrite andb_true_r.
Qed.

Lemma dMetrics_oneLine m :
  m ∈ Historical.dMetrics → oneLine m = true.
Proof.
  assert (forallb oneLine Historical.dMetrics = true) as Hall by (by vm_compute).
  rewrite forallb_forall in Hall. intros Hm. by apply Hall, list_elem_of_In.
Qed.

(** X16. The historical loop writes a field into its sample line as it is
    ([%s]), and nothing in the loop looks at the field: every line of a
    group is the sample line of a field that sits at a slot of the group's
    name, and the line holds a line feed exactly when the field does.  A
    field with a line feed so gives a sample line that is several lines of
    the text. *)
Theorem X16_historical_lines_as_they_are (filter : Go.regexp)
    (records : list Historical.record) (metrics : gmap string (list string))
    (m : string) (lines : list string) (line : string) :
  Historical.rangeRecords filter records ∅ = Done metrics →
  metrics !! m = Some lines →
  line ∈ lines →
  ∃ rec ts (i : nat) val,
    rec ∈ records
    ∧ Go.ParseInLocation (Historical.Timestamp rec) = Some ts
    ∧ Historical.dMetrics !! i = Some m
    ∧ Go.Split (Historical.Data rec) "," !! i = Some val
    ∧ line = Historical.sampleLine m val ts
    ∧ oneLine line = oneLine val.
Proof.
  intros Hrun Hm Hline.
  rewrite (snapshot_groups _ _ _ m Hrun) in Hm.
  assert (lines = batchLines filter m records) as ->.
  { destruct (batchLines filter m records); simpl in Hm; congruence. }
  destruct (batchLines_elem filter m records line Hline)
    as (_ & rec & ts & i & val & Hrec & Hts & Hi & Hval & ->).
  exists rec, ts, i, val. repeat (split; [done |]).
  apply sampleLine_oneLine, dMetrics_oneLine.
  by eapply list_elem_of_lookup_2.
Qed.

Lemma X16_historical_lines_as_they_are_witness :
  ∃ rec ts (i : nat) val,
    rec ∈ [h_line_feed]
    ∧ Go.ParseInLocation (Historical.Timestamp rec) = Some ts
    ∧ Historical.dMetrics !! i = Some "v_b_12v_voltage"
    ∧ Go.Split (Historical.Data rec) "," !! i = Some val
    ∧ "v_b_12v_voltage 12.6" +:+ Go.nl +:+ "up 1 1700000000000"
      = Historical.sampleLine "v_b_12v_voltage" val ts
    ∧ oneLine ("v_b_12v_voltage 12.6" +:+ Go.nl +:+ "up 1 1700000000000")
      = oneLine val.
Proof.
  apply (X16_historical_lines_as_they_are Historical.filterFlag [h_line_feed]
           {[ "v_b_12v_voltage"
              := ["v_b_12v_voltage 12.6" +:+ Go.nl +:+ "up 1 1700000000000"] ]}
           "v_b_12v_voltage"
           ["v_b_12v_voltage 12.6" +:+ Go.nl +:+ "up 1 1700000000000"]).
  - vm_compute. reflexivity.
  - apply lookup_singleton_eq.
  - by left.
Defined.

Example line_feed_in_field :
  ∀ o, Historical.snapshot Historical.filterFlag [h_line_feed] o
       ↔ o = Done ("# TYPE v_b_12v_voltage gauge" +:+ Go.nl
                   +:+ "v_b_12v_voltage 12.6" +:+ Go.nl
                   +:+ "up 1 1700000000000" +:+ Go.nl).
Proof.
  intros o. unfold Historical.snapshot.
  replace (Historical.rangeRecords Historical.filterFlag [h_line_feed] ∅)
    with (Done ({[ "v_b_12v_voltage"
                   := ["v_b_12v_voltage 12.6" +:+ Go.nl +:+ "up 1 1700000000000"] ]}
                : gmap string (list string)))
    by (vm_compute; reflexivity).
  split.
  - intros (r & Hr%renders_singleton & ->). by rewrite Hr.
  - intros ->. eexists. split; [by apply renders_singleton | done].
Qed.
